(** * Teacher Dashboard backend ([app.js])

  A shallow embedding of the request handlers of [app.js] and the
  properties of its tabular join and aggregation logic.

  The handlers read spreadsheet tables (lists of rows, each row a list
  of cell strings, possibly ragged), map the rows to records, join and
  count them.  Every handler is embedded as a function of the tables
  it fetches and of the values it reads from its environment (the
  clock, the time-zone offset, the draws of [Math.random()]). *)

From Stdlib Require Import ZArith List String Ascii Bool Lia Permutation Sorted.
From Stdlib Require Import PrimFloat FloatOps SpecFloat Uint63 DecimalString.
Import ListNotations.

Local Open Scope string_scope.
Local Open Scope Z_scope.
Local Open Scope list_scope.

(** ** JavaScript values that occur in cells and record fields *)

Module JS.

(** A field of a view model holds a string, [null], or [undefined].
    [JSON.stringify] drops the keys whose value is [undefined]. *)
Inductive value : Type :=
| VUndefined
| VNull
| VString (s : string).

(** A raw row as the table store returns it: an array of cell strings. *)
Definition row : Type := list string.
Definition table : Type := list row.

(** [r[i]]: the cell, or [undefined] beyond the row's end. *)
Definition idx (r : row) (i : nat) : value :=
  match nth_error r i with
  | Some s => VString s
  | None => VUndefined
  end.

(** [a === b] on strings, [null] and [undefined]. *)
Definition strict_eq (a b : value) : bool :=
  match a, b with
  | VUndefined, VUndefined => true
  | VNull, VNull => true
  | VString s, VString t => String.eqb s t
  | _, _ => false
  end.

(** Truthiness: the empty string, [null] and [undefined] are falsy. *)
Definition truthy (v : value) : bool :=
  match v with
  | VString s => negb (String.eqb s "")
  | _ => false
  end.

(** [a || b]. *)
Definition or_ (a b : value) : value := if truthy a then a else b.

(** [rows.slice(1)]: every handler but one drops the header row so. *)
Definition slice1 {A : Type} (l : list A) : list A := tl l.

(** [xs.slice(0, n)]. *)
Definition slice0 {A : Type} (n : nat) (l : list A) : list A := firstn n l.

(** [JSON.stringify] of an object: the keys whose value is [undefined]
    are left out. *)
Definition json_fields (o : list (string * value)) : list (string * value) :=
  filter (fun kv => match snd kv with VUndefined => false | _ => true end) o.

Definition has_key (k : string) (o : list (string * value)) : bool :=
  existsb (fun kv => String.eqb (fst kv) k) o.

(** Decimal rendering of an integer. *)
Definition string_of_Z (z : Z) : string := NilZero.string_of_int (Z.to_int z).

(** [xs.find(p)] is [List.find]; [xs.filter(p)] is [List.filter]. *)

(** [new Set(xs)] followed by [Array.from] or [.size]: the distinct values
    in the order of their first occurrence. *)
Fixpoint distinct (l : list value) : list value :=
  match l with
  | [] => []
  | x :: l' => x :: filter (fun y => negb (strict_eq y x)) (distinct l')
  end.

(** [s.has(v)] on a set of strings. *)
Definition has (set : list string) (v : value) : bool :=
  match v with
  | VString s => existsb (String.eqb s) set
  | _ => false
  end.

(** [s.split(',')]. *)
Fixpoint split_comma (s : string) : list string :=
  match s with
  | EmptyString => [EmptyString]
  | String c s' =>
      if Ascii.eqb c ","%char then EmptyString :: split_comma s'
      else match split_comma s' with
           | h :: t => String c h :: t
           | [] => [String c EmptyString]
           end
  end.

(** Cells are byte strings in UTF-8. *)
Definition bytes (l : list nat) : string :=
  fold_right (fun n s => String (ascii_of_nat n) s) EmptyString l.

(** The code points [trim] strips, the WhiteSpace and LineTerminator of
    the language, in UTF-8: U+0009 to U+000D, U+0020, U+00A0, U+1680,
    U+2000 to U+200A, U+2028, U+2029, U+202F, U+205F, U+3000, U+FEFF. *)
Definition whiteSpace : list string :=
  map bytes
    [ [9]; [10]; [11]; [12]; [13]; [32]; [194; 160]; [225; 154; 128];
      [226; 128; 128]; [226; 128; 129]; [226; 128; 130]; [226; 128; 131];
      [226; 128; 132]; [226; 128; 133]; [226; 128; 134]; [226; 128; 135];
      [226; 128; 136]; [226; 128; 137]; [226; 128; 138];
      [226; 128; 168]; [226; 128; 169]; [226; 128; 175]; [226; 129; 159];
      [227; 128; 128]; [239; 187; 191] ]%nat.

Definition is_space (w : string) : bool := existsb (String.eqb w) whiteSpace.

(** Removes leading white space, one code point of one, two or three
    bytes at a time. *)
Fixpoint trim_start (s : string) : string :=
  match s with
  | EmptyString => s
  | String c1 s1 =>
      if is_space (String c1 EmptyString) then trim_start s1
      else
        match s1 with
        | EmptyString => s
        | String c2 s2 =>
            if is_space (String c1 (String c2 EmptyString)) then trim_start s2
            else
              match s2 with
              | EmptyString => s
              | String c3 s3 =>
                  if is_space (String c1 (String c2 (String c3 EmptyString)))
                  then trim_start s3 else s
              end
        end
  end.

(** The string consists of white space only. *)
Fixpoint all_space (s : string) : bool :=
  match s with
  | EmptyString => true
  | String c1 s1 =>
      if is_space (String c1 EmptyString) then all_space s1
      else
        match s1 with
        | EmptyString => false
        | String c2 s2 =>
            if is_space (String c1 (String c2 EmptyString)) then all_space s2
            else
              match s2 with
              | EmptyString => false
              | String c3 s3 =>
                  is_space (String c1 (String c2 (String c3 EmptyString))) && all_space s3
              end
        end
  end.

(** Removes trailing white space: the longest suffix made of white space
    only is dropped. *)
Fixpoint trim_end (s : string) : string :=
  match s with
  | EmptyString => EmptyString
  | String c s' => if all_space s then EmptyString else String c (trim_end s')
  end.

(** [s.trim()]. *)
Definition trim (s : string) : string := trim_end (trim_start s).

(** [cell ? cell.split(',').map(s => s.trim()) : []]. *)
Definition split_list (cell : value) : list string :=
  match cell with
  | VString s => if truthy cell then map trim (split_comma s) else []
  | _ => []
  end.

(** [s.toLowerCase()] within the ASCII range. *)
Definition lower_char (c : ascii) : ascii :=
  let n := nat_of_ascii c in
  if (Nat.leb 65 n && Nat.leb n 90)%bool then ascii_of_nat (n + 32) else c.

Fixpoint toLowerCase (s : string) : string :=
  match s with
  | EmptyString => EmptyString
  | String c s' => String (lower_char c) (toLowerCase s')
  end.

(** [xs.sort(cmp)].  The comparator returns a number, [None] standing for
    [NaN] (which [sort] reads as 0).  The sort is stable, as the language
    requires: an element moves behind another only if the comparator
    returns a positive number for the pair.  Where the comparator orders
    the elements consistently (here: where the dates compared all parse)
    the result is the one stable sort, the same in every engine.  Where
    it does not, the language leaves the order to the engine: a list in
    which no element is behind its successor stays as it is, here as in
    node, whose sort first looks for such a run (the comparators of the
    handlers are differences of time values: the successor is before an
    element exactly when the element is behind it); of any other result
    below only that it is a rearrangement of the input carries over to
    the program. *)
Fixpoint insert {A : Type} (cmp : A -> A -> option Z) (x : A) (l : list A) : list A :=
  match l with
  | [] => [x]
  | y :: l' =>
      match cmp x y with
      | Some v => if 0 <? v then y :: insert cmp x l' else x :: l
      | None => x :: l
      end
  end.

Definition sort {A : Type} (cmp : A -> A -> option Z) (l : list A) : list A :=
  fold_right (insert cmp) [] l.

(** The comparator puts [a] behind [b]: it returns a positive number. *)
Definition behind {A : Type} (cmp : A -> A -> option Z) (a b : A) : Prop :=
  exists v, cmp a b = Some v /\ 0 < v.

(** Exceptions: a computation that may throw returns [None]. *)
Fixpoint mapM {A B : Type} (f : A -> option B) (l : list A) : option (list B) :=
  match l with
  | [] => Some []
  | x :: l' =>
      match f x with
      | None => None
      | Some y => match mapM f l' with
                  | None => None
                  | Some ys => Some (y :: ys)
                  end
      end
  end.

End JS.

(** ** JavaScript numbers: IEEE 754 binary64 *)

Module Num.

Local Open Scope float_scope.

(** The Number value of an array length. *)
Definition of_nat (n : nat) : float := of_uint63 (Uint63.of_Z (Z.of_nat n)).

(** The Number value of an integer of magnitude below [2^63]. *)
Definition of_int (z : Z) : float :=
  if (z <? 0)%Z then - of_uint63 (Uint63.of_Z (- z)) else of_uint63 (Uint63.of_Z z).

(** Truthiness of a number: [NaN], [+0] and [-0] are falsy. *)
Definition truthy (x : float) : bool := negb (PrimFloat.is_nan x || PrimFloat.is_zero x).

(** [x || d] on numbers. *)
Definition or_ (x d : float) : float := if truthy x then x else d.

(** [Math.floor]: exact; doubles with a non-negative exponent, zeros,
    infinities and [NaN] are returned unchanged. *)
Definition Math_floor (x : float) : float :=
  match Prim2SF x with
  | S754_finite s m e =>
      if (0 <=? e)%Z then x
      else of_int ((if s then Z.neg m else Z.pos m) / 2 ^ (- e))
  | _ => x
  end.

(** [Math.round]: the nearest integer, ties towards [+Infinity], computed
    exactly as [floor (x + 1/2)] on the rational value of [x]; a negative
    [x] that rounds to zero gives [-0]. *)
Definition Math_round (x : float) : float :=
  match Prim2SF x with
  | S754_finite s m e =>
      if (0 <=? e)%Z then x
      else
        let n := if s then Z.neg m else Z.pos m in
        let d := (2 ^ (- e))%Z in
        let z := ((2 * n + d) / (2 * d))%Z in
        if (z =? 0)%Z && s then neg_zero else of_int z
  | _ => x
  end.

(** The integer a finite, integral double denotes. *)
Definition to_Z (x : float) : option Z :=
  match Prim2SF x with
  | S754_zero _ => Some 0%Z
  | S754_finite s m e =>
      let n := if s then Z.neg m else Z.pos m in
      if (0 <=? e)%Z then Some (n * 2 ^ e)%Z
      else if (n mod 2 ^ (- e) =? 0)%Z then Some (n / 2 ^ (- e))%Z
      else None
  | _ => None
  end.

(** [x.toString()] where [x] is [NaN], infinite, or integral of magnitude
    below [10^21]: the values the handlers print.  Other values (their
    shortest round-trip decimal form) are outside this model and are
    rendered as the empty string. *)
Definition toString (x : float) : string :=
  if is_nan x then "NaN"%string
  else if is_infinity x then (if get_sign x then "-Infinity" else "Infinity")%string
  else match to_Z x with
       | Some z => if (Z.abs z <? 10 ^ 21)%Z then JS.string_of_Z z else ""%string
       | None => ""%string
       end.

(** [JSON.stringify] of a number: [NaN] and the infinities become [null]. *)
Definition json (x : float) : string :=
  if is_nan x || is_infinity x then "null"%string else toString x.

End Num.

(** ** JavaScript dates

    A [Date] is its time value: milliseconds since 1970-01-01T00:00Z.
    The local-time accessors ([getDate], [getDay], [getMonth], [setDate])
    see the time value shifted by the time-zone offset [tz] of the server,
    taken as fixed; [toISOString] prints the time value in UTC.  These
    are the accessors of a server whose zone keeps one offset (UTC, or
    Indian Standard Time); module [Zoned] below has them for a zone whose
    offset changes with daylight saving. *)

Module JSDate.

Definition msPerDay : Z := 86400000.

Definition Day (t : Z) : Z := t / msPerDay.
Definition TimeWithinDay (t : Z) : Z := t mod msPerDay.

(** Day 0 was a Thursday; 0 is Sunday. *)
Definition WeekDay (t : Z) : Z := (Day t + 4) mod 7.

(** The proleptic Gregorian date (year, month 1..12, day 1..31) of a day
    number, and back. *)
Definition civil_from_days (z : Z) : Z * Z * Z :=
  let z := z + 719468 in
  let era := z / 146097 in
  let doe := z - era * 146097 in
  let yoe := (doe - doe / 1460 + doe / 36524 - doe / 146096) / 365 in
  let y := yoe + era * 400 in
  let doy := doe - (365 * yoe + yoe / 4 - yoe / 100) in
  let mp := (5 * doy + 2) / 153 in
  let d := doy - (153 * mp + 2) / 5 + 1 in
  let m := if mp <? 10 then mp + 3 else mp - 9 in
  (if m <=? 2 then y + 1 else y, m, d).

Definition days_from_civil (y m d : Z) : Z :=
  let y := if m <=? 2 then y - 1 else y in
  let era := y / 400 in
  let yoe := y - era * 400 in
  let doy := (153 * (if 2 <? m then m - 3 else m + 9) + 2) / 5 + d - 1 in
  let doe := yoe * 365 + yoe / 4 - yoe / 100 + doy in
  era * 146097 + doe - 719468.

Definition YearFromTime (t : Z) : Z := fst (fst (civil_from_days (Day t))).
(** Months are numbered from 0. *)
Definition MonthFromTime (t : Z) : Z := snd (fst (civil_from_days (Day t))) - 1.
Definition DateFromTime (t : Z) : Z := snd (civil_from_days (Day t)).

(** [MakeDay(year, month, date)] for a month in 0..11: the day number of
    the first of the month, plus [date - 1]; [date] may lie outside the
    month. *)
Definition MakeDay (year month date : Z) : Z :=
  days_from_civil year (month + 1) 1 + date - 1.

Definition MakeDate (day time : Z) : Z := day * msPerDay + time.

Definition LocalTime (tz t : Z) : Z := t + tz.
Definition UTC (tz t : Z) : Z := t - tz.

Definition getDate (tz t : Z) : Z := DateFromTime (LocalTime tz t).
Definition getDay (tz t : Z) : Z := WeekDay (LocalTime tz t).
Definition getMonth (tz t : Z) : Z := MonthFromTime (LocalTime tz t).

(** [d.setDate(dt)]: the new time value. *)
Definition setDate (tz t dt : Z) : Z :=
  let lt := LocalTime tz t in
  UTC tz (MakeDate (MakeDay (YearFromTime lt) (MonthFromTime lt) dt) (TimeWithinDay lt)).

Definition digit (n : Z) : ascii := ascii_of_nat (48 + Z.to_nat (n mod 10)).

Definition pad2 (n : Z) : string :=
  String (digit (n / 10)) (String (digit n) EmptyString).

Definition pad3 (n : Z) : string := String (digit (n / 100)) (pad2 n).

Definition pad4 (n : Z) : string := String (digit (n / 1000)) (pad3 n).

Definition pad6 (n : Z) : string :=
  String (digit (n / 100000)) (String (digit (n / 10000)) (pad4 n)).

(** Years 0..9999 print as four digits, the others as a sign and six. *)
Definition isoYear (y : Z) : string :=
  if ((0 <=? y) && (y <=? 9999))%bool then pad4 y
  else String (if y <? 0 then "-"%char else "+"%char) (pad6 (Z.abs y)).

(** [d.toISOString()]: [YYYY-MM-DDTHH:mm:ss.sssZ]. *)
Definition toISOString (t : Z) : string :=
  let '(y, m, d) := civil_from_days (Day t) in
  let ms := TimeWithinDay t in
  (isoYear y ++ String "-"%char (pad2 m ++ String "-"%char (pad2 d ++
   String "T"%char (pad2 (ms / 3600000) ++ String ":"%char (pad2 (ms / 60000 mod 60) ++
   String ":"%char (pad2 (ms / 1000 mod 60) ++ String "."%char (pad3 (ms mod 1000) ++
   "Z")))))))%string.

(** [d.toISOString().slice(0, 10)]. *)
Definition isoDate (t : Z) : string := substring 0 10 (toISOString t).

End JSDate.

(** ** POST /api/auth *)

Module Auth.

Record reply : Type := mkReply {
  status : nat;
  success : bool;
  message : string;
  token : JS.value
}.

(** The handler, given the rows of [Authentication!A:B], the [employeeId]
    of the request body and the clock value [Date.now()]. *)
Definition auth (rows : JS.table) (employeeId : JS.value) (now : Z) : reply :=
  if negb (JS.truthy employeeId) then
    mkReply 400 false "Employee ID is required" JS.VUndefined
  else
    match find (fun row => JS.strict_eq (JS.idx row 0) employeeId) rows with
    | None => mkReply 401 false "Invalid Employee ID" JS.VUndefined
    | Some _ =>
        mkReply 200 true "Authentication successful"
                (JS.VString ("sample-token-" ++ JS.string_of_Z now)%string)
    end.

(** The lookup of the sibling handler GET /api/teacher-data, which skips
    the header row before searching. *)
Definition findTeacher (rows : JS.table) (employeeId : JS.value) : option JS.row :=
  find (fun row => JS.strict_eq (JS.idx row 0) employeeId) (JS.slice1 rows).

End Auth.

(** ** Row mappers: enrollment, discipline, achievements, communications *)

Module Enrollment.

Record student : Type := mkStudent {
  rollNo : JS.value;
  name : JS.value;
  gender : JS.value;
  category : JS.value;
  serviceCategory : JS.value;
  contact : JS.value;
  status : JS.value
}.

(** GET /api/enrollment-data: the record of one row of [Students!A:G]. *)
Definition mapRow (row : JS.row) : student :=
  {| rollNo := JS.idx row 0;
     name := JS.idx row 1;
     gender := JS.idx row 2;
     category := JS.idx row 3;
     serviceCategory := JS.idx row 4;
     contact := JS.idx row 5;
     status := JS.or_ (JS.idx row 6) (JS.VString "Active") |}.

Definition students (rows : JS.table) : list student := map mapRow (JS.slice1 rows).

(** The object as its keys and values, in the order of the source. *)
Definition fields (s : student) : list (string * JS.value) :=
  [("rollNo", rollNo s); ("name", name s); ("gender", gender s);
   ("category", category s); ("serviceCategory", serviceCategory s);
   ("contact", contact s); ("status", status s)].

End Enrollment.

Module Discipline.

Record record : Type := mkRecord {
  id : JS.value;
  date : JS.value;
  studentName : JS.value;
  rollNo : JS.value;
  description : JS.value;
  actionTaken : JS.value
}.

(** GET /api/discipline-data: the record of one row of [Discipline!A:E]. *)
Definition mapRow (row : JS.row) : record :=
  {| id := JS.idx row 0;
     date := JS.idx row 1;
     studentName := JS.idx row 2;
     rollNo := JS.idx row 3;
     description := JS.idx row 4;
     actionTaken := JS.or_ (JS.idx row 5) (JS.VString "Verbal Warning") |}.

Definition disciplineData (rows : JS.table) : list record := map mapRow (JS.slice1 rows).

Definition fields (r : record) : list (string * JS.value) :=
  [("id", id r); ("date", date r); ("studentName", studentName r);
   ("rollNo", rollNo r); ("description", description r);
   ("actionTaken", actionTaken r)].

End Discipline.

Module Achievements.

Record record : Type := mkRecord {
  id : JS.value;
  date : JS.value;
  studentName : JS.value;
  title : JS.value;
  description : JS.value
}.

(** GET /api/achievements-data: the record of one row of [Achievements!A:E]. *)
Definition mapRow (row : JS.row) : record :=
  {| id := JS.idx row 0;
     date := JS.idx row 1;
     studentName := JS.idx row 2;
     title := JS.idx row 3;
     description := JS.idx row 4 |}.

Definition achievementsData (rows : JS.table) : list record := map mapRow (JS.slice1 rows).

Definition fields (r : record) : list (string * JS.value) :=
  [("id", id r); ("date", date r); ("studentName", studentName r);
   ("title", title r); ("description", description r)].

End Achievements.

Module Communications.

Record log : Type := mkLog {
  id : JS.value;
  date : JS.value;
  student : JS.value;
  parent : JS.value;
  type : JS.value;
  subject : JS.value;
  status : JS.value
}.

(** GET /api/communications-data: one row of [Communications!A:G]. *)
Definition mapLog (row : JS.row) : log :=
  {| id := JS.idx row 0;
     date := JS.idx row 1;
     student := JS.idx row 2;
     parent := JS.idx row 3;
     type := JS.idx row 4;
     subject := JS.idx row 5;
     status := JS.idx row 6 |}.

Definition logFields (l : log) : list (string * JS.value) :=
  [("id", id l); ("date", date l); ("student", student l); ("parent", parent l);
   ("type", type l); ("subject", subject l); ("status", status l)].

Record parentEntry : Type := mkParent {
  p_id : JS.value;
  p_student : JS.value;
  p_name : JS.value;
  p_relation : JS.value;
  p_phone : JS.value;
  p_email : JS.value;
  p_lastContact : JS.value
}.

(** One row of [Parents!A:G]. *)
Definition mapParent (row : JS.row) : parentEntry :=
  {| p_id := JS.idx row 0;
     p_student := JS.idx row 1;
     p_name := JS.idx row 2;
     p_relation := JS.idx row 3;
     p_phone := JS.idx row 4;
     p_email := JS.idx row 5;
     p_lastContact := JS.or_ (JS.idx row 6) JS.VNull |}.

Definition parentFields (e : parentEntry) : list (string * JS.value) :=
  [("id", p_id e); ("student", p_student e); ("name", p_name e);
   ("relation", p_relation e); ("phone", p_phone e); ("email", p_email e);
   ("lastContact", p_lastContact e)].

Definition communicationLogs (rows : JS.table) : list log := map mapLog (JS.slice1 rows).
Definition parentDirectory (rows : JS.table) : list parentEntry := map mapParent (JS.slice1 rows).

End Communications.

(** ** Counting against a fixed list of labels *)

Module Count.

(** One entry of a distribution: the label (under the key [category],
    [name] or [grade] of the source) and its [count]. *)
Record bucket : Type := mkBucket {
  label : string;
  count : nat
}.

(** [rows.filter(r => r[col] === label).length]. *)
Definition countWhere (rows : list JS.row) (col : nat) (l : string) : nat :=
  List.length (filter (fun r => JS.strict_eq (JS.idx r col) (JS.VString l)) rows).

(** [n || d] on a count. *)
Definition or_ (n d : nat) : nat := if Nat.eqb n 0 then d else n.

Definition total (bs : list bucket) : nat := fold_right (fun b acc => (count b + acc)%nat) 0%nat bs.

(** The predicate of [countWhere], and its disjunction over a label list. *)
Definition matches (col : nat) (l : string) (r : JS.row) : bool :=
  JS.strict_eq (JS.idx r col) (JS.VString l).

Definition inLabels (col : nat) (ls : list string) (r : JS.row) : bool :=
  existsb (fun l => matches col l r) ls.

(** The sum of the counts of the labels of a list. *)
Definition sumCounts (col : nat) (ls : list string) (rows : list JS.row) : nat :=
  fold_right (fun l acc => (countWhere rows col l + acc)%nat) 0%nat ls.

End Count.

(** ** GET /api/dashboard-data *)

Module Dashboard.

(** [studentData] is [Students!A:E] without its header row. *)
Definition categories (studentData : list JS.row) : list Count.bucket :=
  [ Count.mkBucket "General" (Count.countWhere studentData 3 "General");
    Count.mkBucket "OBC" (Count.countWhere studentData 3 "OBC");
    Count.mkBucket "SC" (Count.countWhere studentData 3 "SC");
    Count.mkBucket "ST" (Count.countWhere studentData 3 "ST");
    Count.mkBucket "Muslim" (Count.countWhere studentData 3 "Muslim") ].

(** [performance] is [Performance!A:C] without its header row. *)
Definition performanceDistribution (performance : list JS.row) : list Count.bucket :=
  [ Count.mkBucket "Excellent" (Count.countWhere performance 1 "Excellent");
    Count.mkBucket "Good" (Count.countWhere performance 1 "Good");
    Count.mkBucket "Average" (Count.countWhere performance 1 "Average");
    Count.mkBucket "Needs Improvement" (Count.countWhere performance 1 "Needs Improvement") ].

Record payload : Type := mkPayload {
  totalStudents : nat;
  boys : nat;
  girls : nat;
  brightLearners : nat;
  lateBoomers : nat;
  workshopsCompleted : nat;
  pendingReports : nat;
  p_categories : list Count.bucket;
  p_performance : list Count.bucket
}.

Definition dashboard (students performanceData workshopData : JS.table) : payload :=
  let studentData := JS.slice1 students in
  let performance := JS.slice1 performanceData in
  let workshops := JS.slice1 workshopData in
  {| totalStudents := List.length studentData;
     boys := Count.countWhere studentData 2 "Male";
     girls := Count.countWhere studentData 2 "Female";
     brightLearners := Count.countWhere performance 2 "Bright Learner";
     lateBoomers := Count.countWhere performance 2 "Late Bloomer";
     workshopsCompleted := Count.countWhere workshops 2 "Completed";
     pendingReports := 3;
     p_categories := categories studentData;
     p_performance := performanceDistribution performance |}.

End Dashboard.

(** ** GET /api/categories-data *)

Module Categories.

(** [students] is [Students!A:G] without its header row. *)
Definition casteCategories (students : list JS.row) : list Count.bucket :=
  [ Count.mkBucket "General" (Count.countWhere students 3 "General");
    Count.mkBucket "OBC" (Count.countWhere students 3 "OBC");
    Count.mkBucket "SC" (Count.countWhere students 3 "SC");
    Count.mkBucket "ST" (Count.countWhere students 3 "ST");
    Count.mkBucket "Muslim" (Count.countWhere students 3 "Muslim") ].

Definition serviceCategories (students : list JS.row) : list Count.bucket :=
  [ Count.mkBucket "1" (Count.countWhere students 4 "1");
    Count.mkBucket "2" (Count.countWhere students 4 "2");
    Count.mkBucket "3" (Count.countWhere students 4 "3");
    Count.mkBucket "4" (Count.countWhere students 4 "4");
    Count.mkBucket "5" (Count.countWhere students 4 "5") ].

Record detailed : Type := mkDetailed {
  d_name : string;
  d_total : nat;
  d_boys : nat;
  d_girls : nat;
  d_brightLearners : nat;
  d_lateBoomers : nat
}.

(** The student's first performance row, by roll number, has the label. *)
Definition performs (performance : list JS.row) (l : string) (student : JS.row) : bool :=
  match find (fun p => JS.strict_eq (JS.idx p 0) (JS.idx student 0)) performance with
  | Some performanceEntry => JS.strict_eq (JS.idx performanceEntry 2) (JS.VString l)
  | None => false
  end.

Definition detailedCategories (students performance : list JS.row) : list detailed :=
  map (fun category =>
         let categoryStudents :=
           filter (fun student =>
                     JS.strict_eq (JS.idx student 3) (JS.VString (Count.label category)))
                  students in
         {| d_name := Count.label category;
            d_total := Count.count category;
            d_boys := Count.countWhere categoryStudents 2 "Male";
            d_girls := Count.countWhere categoryStudents 2 "Female";
            d_brightLearners :=
              List.length (filter (performs performance "Bright Learner") categoryStudents);
            d_lateBoomers :=
              List.length (filter (performs performance "Late Bloomer") categoryStudents) |})
      (casteCategories students).

End Categories.

(** ** GET /api/workshops-data *)

Module Workshops.

Local Open Scope float_scope.

Record session : Type := mkSession {
  s_date : string;
  s_topic : JS.value
}.

Record workshop : Type := mkWorkshop {
  id : JS.value;
  title : JS.value;
  duration : JS.value;
  status : JS.value;
  participants : string;
  sessions : list session
}.

(** [row[3] === 'Scheduled' ? '0' : Math.floor(Math.random() * 30 + 15).toString()],
    [r] being the value [Math.random()] returns when it is called. *)
Definition participantsOf (status : JS.value) (r : float) : string :=
  if JS.strict_eq status (JS.VString "Scheduled") then "0"%string
  else Num.toString (Num.Math_floor (r * 30 + 15)).

(** The sessions of a row; [fallback] is the topic of a session without
    one (['General Discussion'] for workshops, ['General Course Content']
    for service courses). *)
Definition sessionsOf (fallback : string) (row : JS.row) : list session :=
  let sessionDates := JS.split_list (JS.idx row 4) in
  let sessionTopics := JS.split_list (JS.idx row 5) in
  map (fun di => mkSession (snd di)
                   (JS.or_ (JS.idx sessionTopics (fst di)) (JS.VString fallback)))
      (combine (seq 0 (List.length sessionDates)) sessionDates).

(** One row.  [rand n] is the value of the [n]-th call of [Math.random()];
    a row that is not scheduled consumes one draw. *)
Definition processRow (rand : nat -> float) (fallback : string)
    (row : JS.row) (n : nat) : workshop * nat :=
  let scheduled := JS.strict_eq (JS.idx row 3) (JS.VString "Scheduled") in
  ({| id := JS.idx row 0;
      title := JS.idx row 1;
      duration := JS.idx row 2;
      status := JS.idx row 3;
      participants := participantsOf (JS.idx row 3) (rand n);
      sessions := sessionsOf fallback row |},
   if scheduled then n else S n).

Fixpoint processRows (rand : nat -> float) (fallback : string)
    (rows : list JS.row) (n : nat) : list workshop * nat :=
  match rows with
  | [] => ([], n)
  | row :: rows' =>
      let (w, n1) := processRow rand fallback row n in
      let (ws, n2) := processRows rand fallback rows' n1 in
      (w :: ws, n2)
  end.

Record payload : Type := mkPayload {
  workshops : list workshop;
  serviceCourses : list workshop
}.

Definition workshopsData (rand : nat -> float) (workshopRows courseRows : JS.table) : payload :=
  let (ws, n1) := processRows rand "General Discussion" (JS.slice1 workshopRows) 0 in
  let (cs, _) := processRows rand "General Course Content" (JS.slice1 courseRows) n1 in
  {| workshops := ws; serviceCourses := cs |}.

End Workshops.

(** ** GET /api/attendance-data *)

Module Attendance.

Local Open Scope float_scope.

(** [Math.round((totalPresent7Days / totalRecords7Days) * 100) || 90]. *)
Definition weeklyAverageOf (totalPresent7Days totalRecords7Days : nat) : float :=
  Num.or_ (Num.Math_round (Num.of_nat totalPresent7Days / Num.of_nat totalRecords7Days * 100)) 90.

(** The percentage of one day of the trend:
    [totalDay > 0 ? Math.round((presentDay / totalDay) * 100) : Math.round(85 + Math.random() * 10)]. *)
Definition trendPercentage (presentDay totalDay : nat) (r : float) : float :=
  if Nat.ltb 0 totalDay then Num.Math_round (Num.of_nat presentDay / Num.of_nat totalDay * 100)
  else Num.Math_round (85 + r * 10).

(** The percentage of one student:
    [totalDays > 0 ? Math.round((presentDays / totalDays) * 100) : 90]. *)
Definition studentPercentage (presentDays totalDays : nat) : float :=
  if Nat.ltb 0 totalDays then Num.Math_round (Num.of_nat presentDays / Num.of_nat totalDays * 100)
  else 90.

Section Handler.

(** The time-zone offset and the value of the clock; the handler reads
    the clock several times while it serves one request, the model once. *)
Variables (tz now : Z).

Definition today : string := JSDate.isoDate now.

(** The dates of the 7 days that end today. *)
Definition last7Days : list string :=
  map (fun i => JSDate.isoDate (JSDate.setDate tz now (JSDate.getDate tz now - Z.of_nat i)))
      (seq 0 7).

(** [attendance] is [Attendance!A:G] without its header row. *)
Definition last7DaysAttendance (attendance : list JS.row) : list JS.row :=
  filter (fun a => JS.has last7Days (JS.idx a 1)) attendance.

Definition totalPresent7Days (attendance : list JS.row) : nat :=
  Count.countWhere (last7DaysAttendance attendance) 3 "Present".

Definition totalRecords7Days (attendance : list JS.row) : nat :=
  List.length (last7DaysAttendance attendance).

Definition weeklyAverage (attendance : list JS.row) : float :=
  weeklyAverageOf (totalPresent7Days attendance) (totalRecords7Days attendance).

Definition presentToday (attendance : list JS.row) : nat :=
  Count.countWhere
    (filter (fun a => JS.strict_eq (JS.idx a 1) (JS.VString today)) attendance)
    3 "Present".

End Handler.

End Attendance.

(** ** GET /api/assessments-data *)

Module Assessments.

Local Open Scope float_scope.

Record entry : Type := mkEntry {
  id : JS.value;
  date : JS.value;
  title : JS.value;
  type : JS.value;
  maxScore : JS.value;
  average : option float;   (* [None] is [null] *)
  status : JS.value
}.

Record next : Type := mkNext {
  n_date : JS.value;
  n_name : JS.value
}.

Record trendPoint : Type := mkTrendPoint {
  t_assessment : JS.value;
  t_average : option float
}.

Record payload : Type := mkPayload {
  nextAssessment : next;
  lastAssessmentAverage : option float;
  pendingGrades : nat;
  assessments : list entry;
  gradeDistribution : list Count.bucket;
  performanceTrend : list trendPoint
}.

(** [a.average] is truthy: not [null], not 0, not [NaN]. *)
Definition hasAverage (a : entry) : bool :=
  match average a with
  | Some x => Num.truthy x
  | None => false
  end.

(** [a.status === 'Completed' && a.average]. *)
Definition completedWithAverage (a : entry) : bool :=
  JS.strict_eq (status a) (JS.VString "Completed") && hasAverage a.

(** The sample points appended to a short trend. *)
Definition sampleTrend : list trendPoint :=
  [ mkTrendPoint (JS.VString "Unit Test 1") (Some 72);
    mkTrendPoint (JS.VString "Mid Term") (Some 76);
    mkTrendPoint (JS.VString "Unit Test 2") (Some 78);
    mkTrendPoint (JS.VString "Assignment 3") (Some 82) ].

(** [grades] is [Grades!A:E] without its header row. *)
Definition gradeDistributionOf (grades : list JS.row) : list Count.bucket :=
  [ Count.mkBucket "A" (Count.or_ (Count.countWhere grades 4 "A") 5);
    Count.mkBucket "B" (Count.or_ (Count.countWhere grades 4 "B") 12);
    Count.mkBucket "C" (Count.or_ (Count.countWhere grades 4 "C") 18);
    Count.mkBucket "D" (Count.or_ (Count.countWhere grades 4 "D") 8);
    Count.mkBucket "F" (Count.or_ (Count.countWhere grades 4 "F") 2) ].

Section Handler.

(** The built-ins [parseFloat] ([NaN] when the text is no number) and
    [Date.parse] ([None] stands for an invalid date). *)
Variable parseFloat : string -> float.
Variable Date_parse : string -> option Z.

Definition parseFloatV (v : JS.value) : float :=
  match v with
  | JS.VString s => parseFloat s
  | _ => nan
  end.

(** The time value of [new Date(v)]. *)
Definition newDate (v : JS.value) : option Z :=
  match v with
  | JS.VString s => Date_parse s
  | _ => None
  end.

(** [new Date(a.date) - new Date(b.date)]. *)
Definition byDateAsc (a b : entry) : option Z :=
  match newDate (date a), newDate (date b) with
  | Some x, Some y => Some (x - y)%Z
  | _, _ => None
  end.

(** [new Date(b.date) - new Date(a.date)]. *)
Definition byDateDesc (a b : entry) : option Z :=
  match newDate (date b), newDate (date a) with
  | Some x, Some y => Some (x - y)%Z
  | _, _ => None
  end.

Definition mapAssessment (grades : list JS.row) (assessment : JS.row) : entry :=
  let assessmentGrades :=
    filter (fun g => JS.strict_eq (JS.idx g 0) (JS.idx assessment 0)) grades in
  let average :=
    if Nat.ltb 0 (List.length assessmentGrades) then
      let totalPercentage :=
        fold_left (fun sum g => sum + Num.or_ (parseFloatV (JS.idx g 3)) 0)
                  assessmentGrades 0 in
      Some (Num.Math_round (totalPercentage / Num.of_nat (List.length assessmentGrades)))
    else None in
  {| id := JS.idx assessment 0;
     date := JS.idx assessment 1;
     title := JS.idx assessment 2;
     type := JS.idx assessment 3;
     maxScore := JS.idx assessment 4;
     average := average;
     status := JS.idx assessment 5 |}.

(** The mapped rows, sorted by date. *)
Definition assessmentsData (assessments grades : list JS.row) : list entry :=
  JS.sort byDateAsc (map (mapAssessment grades) assessments).

(** The first scheduled assessment, or the literal [{date: 'Apr 15',
    name: 'Unit Test 3'}]; the reply takes [date] and [title || name] of
    it, an assessment having no [name] and the literal no [title]. *)
Definition nextAssessmentOf (data : list entry) : next :=
  match find (fun a => JS.strict_eq (status a) (JS.VString "Scheduled")) data with
  | Some a => {| n_date := date a; n_name := JS.or_ (title a) JS.VUndefined |}
  | None => {| n_date := JS.VString "Apr 15";
               n_name := JS.or_ JS.VUndefined (JS.VString "Unit Test 3") |}
  end.

Definition lastAssessmentAverageOf (data : list entry) : option float :=
  match JS.sort byDateDesc (filter completedWithAverage data) with
  | lastCompletedAssessment :: _ => average lastCompletedAssessment
  | [] => Some 76
  end.

Definition pendingGradesOf (data : list entry) : nat :=
  List.length (filter (fun a => JS.strict_eq (status a) (JS.VString "Completed")
                             && negb (hasAverage a)) data).

Definition completedAssessments (data : list entry) : list entry :=
  JS.slice0 5 (JS.sort byDateAsc (filter completedWithAverage data)).

Definition performanceTrendOf (data : list entry) : list trendPoint :=
  let performanceTrend :=
    map (fun a => mkTrendPoint (title a) (average a)) (completedAssessments data) in
  if Nat.ltb (List.length performanceTrend) 3 then performanceTrend ++ sampleTrend
  else performanceTrend.

(** The handler, given the rows of [Assessments!A:G] and [Grades!A:E]. *)
Definition assessmentsHandler (assessmentRows gradeRows : JS.table) : payload :=
  let assessments := JS.slice1 assessmentRows in
  let grades := JS.slice1 gradeRows in
  let data := assessmentsData assessments grades in
  {| nextAssessment := nextAssessmentOf data;
     lastAssessmentAverage := lastAssessmentAverageOf data;
     pendingGrades := pendingGradesOf data;
     assessments := data;
     gradeDistribution := gradeDistributionOf grades;
     performanceTrend := performanceTrendOf data |}.

End Handler.

End Assessments.

(** ** GET /api/syllabus-data *)

Module Syllabus.

Local Open Scope float_scope.

Record topic : Type := mkTopic {
  id : JS.value;
  t_unit : JS.value;
  name : JS.value;
  expectedHours : JS.value;
  timeSpent : JS.value;
  status : JS.value;
  startDate : JS.value;
  completionDate : JS.value
}.

Definition mapTopic (row : JS.row) : topic :=
  {| id := JS.idx row 0;
     t_unit := JS.idx row 1;
     name := JS.idx row 2;
     expectedHours := JS.idx row 3;
     timeSpent := JS.or_ (JS.idx row 4) JS.VNull;
     status := JS.idx row 5;
     startDate := JS.or_ (JS.idx row 6) JS.VNull;
     completionDate := JS.or_ (JS.idx row 7) JS.VNull |}.

Definition topicFields (t : topic) : list (string * JS.value) :=
  [("id", id t); ("unit", t_unit t); ("name", name t);
   ("expectedHours", expectedHours t); ("timeSpent", timeSpent t);
   ("status", status t); ("startDate", startDate t);
   ("completionDate", completionDate t)].

Record unitShare : Type := mkUnitShare {
  u_unit : JS.value;
  u_percentage : float
}.

Record allocation : Type := mkAllocation {
  a_topic : JS.value;
  a_planned : float;
  a_actual : float
}.

Record upcoming : Type := mkUpcoming {
  up_id : JS.value;
  up_name : JS.value;
  up_unit : JS.value;
  up_plannedStart : JS.value;
  up_estimatedHours : JS.value
}.

Record payload : Type := mkPayload {
  completionPercentage : float;
  completedUnits : nat;
  totalUnits : nat;
  remainingDays : nat;
  topics : list topic;
  unitCompletion : list unitShare;
  timeAllocation : list allocation;
  upcomingTopics : list upcoming
}.

Definition isCompleted (row : JS.row) : bool :=
  JS.strict_eq (JS.idx row 5) (JS.VString "Completed").

(** [Math.round((completedTopics / totalTopics) * 100)]. *)
Definition completionPercentageOf (syllabusData : list JS.row) : float :=
  let totalTopics := List.length syllabusData in
  let completedTopics := List.length (filter isCompleted syllabusData) in
  Num.Math_round (Num.of_nat completedTopics / Num.of_nat totalTopics * 100).

Definition unitCompletionOf (syllabusData : list JS.row) : list unitShare :=
  let units := JS.distinct (map (fun row => JS.idx row 1) syllabusData) in
  map (fun unit =>
         let unitTopics := filter (fun row => JS.strict_eq (JS.idx row 1) unit) syllabusData in
         let unitCompletedTopics := filter isCompleted unitTopics in
         mkUnitShare unit
           (Num.Math_round (Num.of_nat (List.length unitCompletedTopics)
                            / Num.of_nat (List.length unitTopics) * 100)))
      units.

Definition upcomingTopicsOf (topics : list topic) : list upcoming :=
  map (fun topic =>
         {| up_id := id topic;
            up_name := name topic;
            up_unit := t_unit topic;
            up_plannedStart := JS.or_ (startDate topic) (JS.VString "Next Week");
            up_estimatedHours := expectedHours topic |})
      (JS.slice0 5 (filter (fun topic => JS.strict_eq (status topic) (JS.VString "Pending"))
                           topics)).

Section Handler.

(** The built-in [parseInt], and the successive values of [Math.random()]. *)
Variable parseInt : string -> float.
Variable rand : nat -> float.

Definition parseIntV (v : JS.value) : float :=
  match v with
  | JS.VString s => parseInt s
  | _ => nan
  end.

(** [row[8] || 'Other']. *)
Definition groupOf (row : JS.row) : JS.value := JS.or_ (JS.idx row 8) (JS.VString "Other").

(** One topic group; a group without actual hours consumes one draw.  The
    literals [0.8] and [0.4] of the source denote the nearest doubles,
    written here in hexadecimal. *)
Definition allocationOf (syllabusData : list JS.row) (topic : JS.value) (n : nat)
    : allocation * nat :=
  let topicRows := filter (fun row => JS.strict_eq (groupOf row) topic) syllabusData in
  let planned :=
    fold_left (fun sum row => sum + Num.or_ (parseIntV (JS.idx row 3)) 0) topicRows 0 in
  let actual :=
    fold_left (fun sum row => sum + Num.or_ (parseIntV (JS.idx row 4)) 0) topicRows 0 in
  if Num.truthy actual then (mkAllocation topic planned actual, n)
  else (mkAllocation topic planned (Num.Math_floor (planned * (0x1.999999999999ap-1 + rand n * 0x1.999999999999ap-2))), S n).

Fixpoint allocations (syllabusData : list JS.row) (topicGroups : list JS.value) (n : nat)
    : list allocation :=
  match topicGroups with
  | [] => []
  | topic :: rest =>
      let (a, n1) := allocationOf syllabusData topic n in
      a :: allocations syllabusData rest n1
  end.

Definition timeAllocationOf (syllabusData : list JS.row) : list allocation :=
  allocations syllabusData (JS.distinct (map groupOf syllabusData)) 0.

(** The handler, given the rows of [Syllabus!A:J]; nothing in it throws,
    so the reply always has status 200 and this payload. *)
Definition syllabusHandler (syllabusRows : JS.table) : payload :=
  let syllabusData := JS.slice1 syllabusRows in
  let topics := map mapTopic syllabusData in
  {| completionPercentage := completionPercentageOf syllabusData;
     completedUnits :=
       List.length (JS.distinct (map (fun row => JS.idx row 1) (filter isCompleted syllabusData)));
     totalUnits := List.length (JS.distinct (map (fun row => JS.idx row 1) syllabusData));
     remainingDays := 45;
     topics := topics;
     unitCompletion := unitCompletionOf syllabusData;
     timeAllocation := timeAllocationOf syllabusData;
     upcomingTopics := upcomingTopicsOf topics |}.

End Handler.

End Syllabus.

(** ** GET /api/calendar-data *)

Module Calendar.

Record event : Type := mkEvent {
  id : JS.value;
  date : JS.value;
  title : JS.value;
  type : JS.value;
  time : JS.value;
  description : JS.value
}.

(** One row of [Events!A:E]. *)
Definition mapEvent (row : JS.row) : event :=
  {| id := JS.idx row 0;
     date := JS.idx row 1;
     title := JS.idx row 2;
     type := JS.idx row 3;
     time := JS.or_ (JS.idx row 4) (JS.VString "All Day");
     description := JS.or_ (JS.idx row 5) (JS.VString "") |}.

Definition eventFields (e : event) : list (string * JS.value) :=
  [("id", id e); ("date", date e); ("title", title e); ("type", type e);
   ("time", time e); ("description", description e)].

Record dayEvent : Type := mkDayEvent {
  de_id : JS.value;
  de_title : JS.value;
  de_type : string;
  de_time : JS.value
}.

(** The entry of an event in its day.  [event.type.toLowerCase()] throws
    a [TypeError] when the row had no type cell. *)
Definition dayEventOf (e : event) : option dayEvent :=
  match type e with
  | JS.VString s => Some (mkDayEvent (id e) (title e) (JS.toLowerCase s) (time e))
  | _ => None
  end.

Record cell : Type := mkCell {
  c_date : Z;
  isCurrentMonth : bool;
  isToday : bool;
  c_events : list dayEvent
}.

Section Handler.

(** The time-zone offset, and the value of the clock when the handler
    builds the grid. *)
Variables (tz today : Z).

(** The [currentDate] of the cell at [week], [day]. *)
Definition currentDate (week day : nat) : Z :=
  JSDate.setDate tz today
    (JSDate.getDate tz today - JSDate.getDay tz today + Z.of_nat day + Z.of_nat week * 7).

Definition cellOf (events : list event) (week day : nat) : option cell :=
  let dateStr := JSDate.isoDate (currentDate week day) in
  match JS.mapM dayEventOf
          (filter (fun event => JS.strict_eq (date event) (JS.VString dateStr)) events) with
  | None => None
  | Some dayEvents =>
      Some {| c_date := JSDate.getDate tz (currentDate week day);
              isCurrentMonth :=
                JSDate.getMonth tz (currentDate week day) =? JSDate.getMonth tz today;
              isToday := String.eqb dateStr (JSDate.isoDate today);
              c_events := dayEvents |}
  end.

(** The grid: 5 weeks of 7 days; [None] when building a cell threw. *)
Definition calendarData (events : list event) : option (list (list cell)) :=
  JS.mapM (fun week => JS.mapM (cellOf events week) (seq 0 7)) (seq 0 5).

(** The built-in [Date.parse]; [None] stands for an invalid date. *)
Variable Date_parse : string -> option Z.

Definition newDate (v : JS.value) : option Z :=
  match v with
  | JS.VString s => Date_parse s
  | _ => None
  end.

Definition byDate (a b : event) : option Z :=
  match newDate (date a), newDate (date b) with
  | Some x, Some y => Some (x - y)
  | _, _ => None
  end.

(** [new Date(event.date) >= today]. *)
Definition notBeforeToday (e : event) : bool :=
  match newDate (date e) with
  | Some t => today <=? t
  | None => false
  end.

Definition upcomingEventsOf (events : list event) : list event :=
  JS.slice0 5 (JS.sort byDate (filter notBeforeToday events)).

Record payload : Type := mkPayload {
  p_calendarData : list (list cell);
  p_upcomingEvents : list event
}.

(** The handler, given the rows of [Events!A:E]: the payload of the reply
    with status 200, or [None] for the reply with status 500 that follows
    a caught exception. *)
Definition calendarHandler (eventsRows : JS.table) : option payload :=
  let events := map mapEvent (JS.slice1 eventsRows) in
  match calendarData events with
  | None => None
  | Some grid => Some {| p_calendarData := grid; p_upcomingEvents := upcomingEventsOf events |}
  end.

End Handler.

End Calendar.

(** ** GET /api/student-details/:id *)

Module StudentDetails.

Record disciplineRecord : Type := mkDisciplineRecord {
  d_id : JS.value;
  d_date : JS.value;
  d_incident : JS.value;
  d_action : JS.value
}.

Record details : Type := mkDetails {
  rollNo : JS.value;
  name : JS.value;
  gender : JS.value;
  category : JS.value;
  serviceCategory : JS.value;
  contact : JS.value;
  class : JS.value;
  performanceReport : JS.value;
  strengths : list string;
  weaknesses : list string;
  suggestions : list string;
  disciplineRecords : list disciplineRecord;
  achievements : list JS.value
}.

Inductive response : Type :=
| NotFound                    (* 404, 'Student not found' *)
| Found (d : details).        (* 200 *)

(** The discipline rows of the student: [d[3] === studentId]. *)
Definition disciplineRecordsOf (disciplines : list JS.row) (studentId : string)
    : list disciplineRecord :=
  map (fun d => {| d_id := JS.idx d 0;
                   d_date := JS.idx d 1;
                   d_incident := JS.idx d 4;
                   d_action := JS.or_ (JS.idx d 5) (JS.VString "Verbal Warning") |})
      (filter (fun d => JS.strict_eq (JS.idx d 3) (JS.VString studentId)) disciplines).

(** The titles of the achievements of the student: [a[2] === student[1]]. *)
Definition studentAchievementsOf (achievements : list JS.row) (student : JS.row)
    : list JS.value :=
  map (fun a => JS.idx a 3)
      (filter (fun a => JS.strict_eq (JS.idx a 2) (JS.idx student 1)) achievements).

(** The student row of an id: [students.find(s => s[0] === studentId)]. *)
Definition findStudent (students : list JS.row) (studentId : string) : option JS.row :=
  find (fun s => JS.strict_eq (JS.idx s 0) (JS.VString studentId)) students.

(** The handler, given the rows of [Students!A:G], [Performance!A:H],
    [Discipline!A:E], [Achievements!A:E] and the id of the path. *)
Definition studentDetails
    (studentRows performanceRows disciplineRows achievementsRows : JS.table)
    (studentId : string) : response :=
  let students := JS.slice1 studentRows in
  let performances := JS.slice1 performanceRows in
  let disciplines := JS.slice1 disciplineRows in
  let achievements := JS.slice1 achievementsRows in
  match findStudent students studentId with
  | None => NotFound
  | Some student =>
      let performance :=
        match find (fun p => JS.strict_eq (JS.idx p 0) (JS.VString studentId)) performances with
        | Some p => p
        | None => []
        end in
      Found {| rollNo := JS.idx student 0;
               name := JS.idx student 1;
               gender := JS.idx student 2;
               category := JS.idx student 3;
               serviceCategory := JS.idx student 4;
               contact := JS.idx student 5;
               class := JS.or_ (JS.idx student 6) (JS.VString "X-A");
               performanceReport :=
                 JS.or_ (JS.idx performance 6)
                        (JS.VString "The student shows consistent effort in academics.");
               strengths := JS.split_list (JS.idx performance 3);
               weaknesses := JS.split_list (JS.idx performance 4);
               suggestions := JS.split_list (JS.idx performance 5);
               disciplineRecords := disciplineRecordsOf disciplines studentId;
               achievements := studentAchievementsOf achievements student |}
  end.

End StudentDetails.

(** ** The row mappers and the fixed-label distributions of the handlers *)

Module RowMapper.

(** The handlers that turn a raw row into a record of cell values. *)
Inductive mapper : Type :=
| Students            (* enrollment-data *)
| DisciplineRows      (* discipline-data *)
| AchievementRows     (* achievements-data *)
| Events              (* calendar-data *)
| Topics              (* syllabus-data *)
| CommunicationLogs   (* communications-data *)
| ParentDirectory.    (* communications-data *)

(** A field of a mapper: its key, the column it reads, and the operand of
    [||] when the source gives it one. *)
Record field : Type := mkField {
  f_name : string;
  f_col : nat;
  f_default : option JS.value
}.

Definition schema (m : mapper) : list field :=
  match m with
  | Students =>
      [ mkField "rollNo" 0 None; mkField "name" 1 None; mkField "gender" 2 None;
        mkField "category" 3 None; mkField "serviceCategory" 4 None;
        mkField "contact" 5 None; mkField "status" 6 (Some (JS.VString "Active")) ]
  | DisciplineRows =>
      [ mkField "id" 0 None; mkField "date" 1 None; mkField "studentName" 2 None;
        mkField "rollNo" 3 None; mkField "description" 4 None;
        mkField "actionTaken" 5 (Some (JS.VString "Verbal Warning")) ]
  | AchievementRows =>
      [ mkField "id" 0 None; mkField "date" 1 None; mkField "studentName" 2 None;
        mkField "title" 3 None; mkField "description" 4 None ]
  | Events =>
      [ mkField "id" 0 None; mkField "date" 1 None; mkField "title" 2 None;
        mkField "type" 3 None; mkField "time" 4 (Some (JS.VString "All Day"));
        mkField "description" 5 (Some (JS.VString "")) ]
  | Topics =>
      [ mkField "id" 0 None; mkField "unit" 1 None; mkField "name" 2 None;
        mkField "expectedHours" 3 None; mkField "timeSpent" 4 (Some JS.VNull);
        mkField "status" 5 None; mkField "startDate" 6 (Some JS.VNull);
        mkField "completionDate" 7 (Some JS.VNull) ]
  | CommunicationLogs =>
      [ mkField "id" 0 None; mkField "date" 1 None; mkField "student" 2 None;
        mkField "parent" 3 None; mkField "type" 4 None; mkField "subject" 5 None;
        mkField "status" 6 None ]
  | ParentDirectory =>
      [ mkField "id" 0 None; mkField "student" 1 None; mkField "name" 2 None;
        mkField "relation" 3 None; mkField "phone" 4 None; mkField "email" 5 None;
        mkField "lastContact" 6 (Some JS.VNull) ]
  end.

(** The object a handler builds from one row, as keys and values. *)
Definition run (m : mapper) (row : JS.row) : list (string * JS.value) :=
  match m with
  | Students => Enrollment.fields (Enrollment.mapRow row)
  | DisciplineRows => Discipline.fields (Discipline.mapRow row)
  | AchievementRows => Achievements.fields (Achievements.mapRow row)
  | Events => Calendar.eventFields (Calendar.mapEvent row)
  | Topics => Syllabus.topicFields (Syllabus.mapTopic row)
  | CommunicationLogs => Communications.logFields (Communications.mapLog row)
  | ParentDirectory => Communications.parentFields (Communications.mapParent row)
  end.

(** [o[k]]. *)
Fixpoint lookup (k : string) (o : list (string * JS.value)) : option JS.value :=
  match o with
  | [] => None
  | (k', v) :: o' => if String.eqb k' k then Some v else lookup k o'
  end.

(** What a field holds when its column lies beyond the end of the row. *)
Definition whenMissing (f : field) : JS.value :=
  match f_default f with
  | Some d => d
  | None => JS.VUndefined
  end.

End RowMapper.

Module FixedSet.

(** The distributions the handlers count against an enumerated label list. *)
Inductive aggregation : Type :=
| DashboardCategories       (* dashboard-data, categories *)
| PerformanceDistribution   (* dashboard-data, performance *)
| CasteCategories           (* categories-data *)
| ServiceCategories         (* categories-data *)
| GradeDistribution.        (* assessments-data *)

Definition run (a : aggregation) (rows : list JS.row) : list Count.bucket :=
  match a with
  | DashboardCategories => Dashboard.categories rows
  | PerformanceDistribution => Dashboard.performanceDistribution rows
  | CasteCategories => Categories.casteCategories rows
  | ServiceCategories => Categories.serviceCategories rows
  | GradeDistribution => Assessments.gradeDistributionOf rows
  end.

(** The column an aggregation reads and the labels it enumerates. *)
Definition column (a : aggregation) : nat :=
  match a with
  | DashboardCategories => 3
  | PerformanceDistribution => 1
  | CasteCategories => 3
  | ServiceCategories => 4
  | GradeDistribution => 4
  end.

Definition labels (a : aggregation) : list string :=
  match a with
  | DashboardCategories => ["General"; "OBC"; "SC"; "ST"; "Muslim"]
  | PerformanceDistribution => ["Excellent"; "Good"; "Average"; "Needs Improvement"]
  | CasteCategories => ["General"; "OBC"; "SC"; "ST"; "Muslim"]
  | ServiceCategories => ["1"; "2"; "3"; "4"; "5"]
  | GradeDistribution => ["A"; "B"; "C"; "D"; "F"]
  end.

(** The record's value in the column is one of the labels. *)
Definition labelled (a : aggregation) (r : JS.row) : bool :=
  existsb (fun l => JS.strict_eq (JS.idx r (column a)) (JS.VString l)) (labels a).

End FixedSet.

(** ** GET /api/teacher-data *)

Module TeacherData.

Record view : Type := mkView {
  id : JS.value;
  name : JS.value;
  subject : JS.value;
  class : JS.value;
  department : JS.value
}.

Inductive response : Type :=
| NotFound                 (* 404, 'Teacher not found' *)
| ServerError              (* 500, after a caught exception *)
| Found (t : view).     (* 200 *)

(** The object built from a row of [Teachers!A:E]. *)
Definition teacherOf (teacher : JS.row) : view :=
  {| id := JS.idx teacher 0;
     name := JS.idx teacher 1;
     subject := JS.idx teacher 2;
     class := JS.idx teacher 3;
     department := JS.or_ (JS.idx teacher 4) (JS.VString "General") |}.

(** The handler, given the rows of [Teachers!A:E] and the [id] of the
    query.  Without an id the first data row is taken, and reading a cell
    of [rows[1]] throws when the table has no such row. *)
Definition teacherData (rows : JS.table) (employeeId : JS.value) : response :=
  if JS.truthy employeeId then
    match find (fun row => JS.strict_eq (JS.idx row 0) employeeId) (JS.slice1 rows) with
    | None => NotFound
    | Some teacher => Found (teacherOf teacher)
    end
  else
    match nth_error rows 1 with
    | None => ServerError
    | Some firstTeacher => Found (teacherOf firstTeacher)
    end.

End TeacherData.

(** ** GET /api/performance-data *)

Module Performance.

Record learner : Type := mkLearner {
  id : JS.value;
  name : JS.value;
  rollNo : JS.value;
  class : JS.value;
  category : JS.value;
  serviceCategory : JS.value;
  strengths : list string;
  weaknesses : list string
}.

(** The entry of a performance row; [students.find(...) || []] is the
    student's row or the empty row. *)
Definition learnerOf (students : list JS.row) (row : JS.row) : learner :=
  let student :=
    match find (fun s => JS.strict_eq (JS.idx s 0) (JS.idx row 0)) students with
    | Some s => s
    | None => []
    end in
  {| id := JS.idx row 0;
     name := JS.or_ (JS.idx student 1) (JS.VString "Unknown");
     rollNo := JS.idx row 0;
     class := JS.or_ (JS.idx student 3) (JS.VString "Unknown");
     category := JS.or_ (JS.idx student 3) (JS.VString "Unknown");
     serviceCategory := JS.or_ (JS.idx student 4) (JS.VString "Unknown");
     strengths := JS.split_list (JS.idx row 3);
     weaknesses := JS.split_list (JS.idx row 4) |}.

Record payload : Type := mkPayload {
  brightLearners : list learner;
  lateBoomers : list learner
}.

(** The handler, given the rows of [Performance!A:H] and [Students!A:E]. *)
Definition performanceData (performanceRows studentRows : JS.table) : payload :=
  let performance := JS.slice1 performanceRows in
  let students := JS.slice1 studentRows in
  {| brightLearners :=
       map (learnerOf students)
           (filter (fun row => JS.strict_eq (JS.idx row 2) (JS.VString "Bright Learner"))
                   performance);
     lateBoomers :=
       map (learnerOf students)
           (filter (fun row => JS.strict_eq (JS.idx row 2) (JS.VString "Late Bloomer"))
                   performance) |}.

End Performance.

(** ** GET /api/attendance-data: trend, class comparison and rollup *)

Module AttendanceView.

Local Open Scope float_scope.

Record trendPoint : Type := mkTrendPoint {
  t_date : string;
  t_percentage : float
}.

Record classShare : Type := mkClassShare {
  c_class : string;
  c_percentage : float
}.

Record studentEntry : Type := mkStudentEntry {
  rollNo : JS.value;
  name : JS.value;
  status : JS.value;
  remarks : JS.value;
  totalPresent : nat;
  totalDays : nat;
  percentage : float
}.

Record payload : Type := mkPayload {
  presentToday : nat;
  totalStudents : nat;
  weeklyAverage : float;
  belowThreshold : nat;
  attendanceTrend : list trendPoint;
  classComparison : list classShare;
  students : list studentEntry
}.

Section Handler.

(** The time-zone offset, the value of the clock, and the successive
    values of [Math.random()]. *)
Variables (tz now : Z).
Variable rand : nat -> float.

(** The point of the trend [i] days before today; a day without records
    consumes one draw. *)
Definition trendPointOf (attendance : list JS.row) (i : nat) (n : nat) : trendPoint * nat :=
  let trendDate := JSDate.setDate tz now (JSDate.getDate tz now - Z.of_nat i) in
  let dateStr := JSDate.isoDate trendDate in
  let dateShort :=
    (JS.string_of_Z (JSDate.getMonth tz trendDate + 1) ++ "/"
     ++ JS.string_of_Z (JSDate.getDate tz trendDate))%string in
  let dayAttendance :=
    filter (fun a => JS.strict_eq (JS.idx a 1) (JS.VString dateStr)) attendance in
  let presentDay := Count.countWhere dayAttendance 3 "Present" in
  let totalDay := List.length dayAttendance in
  (mkTrendPoint dateShort (Attendance.trendPercentage presentDay totalDay (rand n)),
   if Nat.ltb 0 totalDay then n else S n).

(** The loop [for (let i = 6; i >= 0; i--)], as the days still to visit. *)
Fixpoint trendLoop (attendance : list JS.row) (days : list nat) (n : nat)
    : list trendPoint * nat :=
  match days with
  | [] => ([], n)
  | i :: days' =>
      let (p, n1) := trendPointOf attendance i n in
      let (ps, n2) := trendLoop attendance days' n1 in
      (p :: ps, n2)
  end.

Definition attendanceTrendOf (attendance : list JS.row) (n : nat) : list trendPoint * nat :=
  trendLoop attendance [6; 5; 4; 3; 2; 1; 0]%nat n.

(** Three draws, for X-B, X-C and X-D. *)
Definition classComparisonOf (weeklyAverage : float) (n : nat) : list classShare * nat :=
  ([ mkClassShare "X-A" weeklyAverage;
     mkClassShare "X-B" (Num.Math_round (85 + rand n * 10));
     mkClassShare "X-C" (Num.Math_round (85 + rand (S n) * 10));
     mkClassShare "X-D" (Num.Math_round (85 + rand (S (S n)) * 10)) ],
   S (S (S n))).

(** The rollup of one student; a student without a record of today
    consumes one draw, [0.15] being the nearest double. *)
Definition studentEntryOf (attendance todayAttendance : list JS.row)
    (student : JS.row) (n : nat) : studentEntry * nat :=
  let studentAttendance :=
    filter (fun a => JS.strict_eq (JS.idx a 2) (JS.idx student 0)) attendance in
  let totalDays := List.length (JS.distinct (map (fun a => JS.idx a 1) studentAttendance)) in
  let presentDays := Count.countWhere studentAttendance 3 "Present" in
  let percentage := Attendance.studentPercentage presentDays totalDays in
  match find (fun a => JS.strict_eq (JS.idx a 2) (JS.idx student 0)) todayAttendance with
  | Some todayRecord =>
      ({| rollNo := JS.idx student 0;
          name := JS.idx student 1;
          status := JS.idx todayRecord 3;
          remarks := JS.idx todayRecord 4;
          totalPresent := presentDays;
          totalDays := totalDays;
          percentage := percentage |}, n)
  | None =>
      ({| rollNo := JS.idx student 0;
          name := JS.idx student 1;
          status := if PrimFloat.ltb 0x1.3333333333333p-3 (rand n)
                    then JS.VString "Present" else JS.VString "Absent";
          remarks := JS.VString "";
          totalPresent := presentDays;
          totalDays := totalDays;
          percentage := percentage |}, S n)
  end.

Fixpoint studentsDataOf (attendance todayAttendance : list JS.row)
    (students : list JS.row) (n : nat) : list studentEntry :=
  match students with
  | [] => []
  | student :: students' =>
      let (e, n1) := studentEntryOf attendance todayAttendance student n in
      e :: studentsDataOf attendance todayAttendance students' n1
  end.

(** The handler, given the rows of [Attendance!A:G] and [Students!A:C]. *)
Definition attendanceData (attendanceRows studentRows : JS.table) : payload :=
  let attendance := JS.slice1 attendanceRows in
  let students := JS.slice1 studentRows in
  let todayAttendance :=
    filter (fun a => JS.strict_eq (JS.idx a 1) (JS.VString (Attendance.today now)))
           attendance in
  let weeklyAverage := Attendance.weeklyAverage tz now attendance in
  let (attendanceTrend, n1) := attendanceTrendOf attendance 0 in
  let (classComparison, n2) := classComparisonOf weeklyAverage n1 in
  let studentsData := studentsDataOf attendance todayAttendance students n2 in
  {| presentToday := Count.countWhere todayAttendance 3 "Present";
     totalStudents := List.length students;
     weeklyAverage := weeklyAverage;
     belowThreshold :=
       List.length (filter (fun s => PrimFloat.ltb (percentage s) 75) studentsData);
     attendanceTrend := attendanceTrend;
     classComparison := classComparison;
     students := studentsData |}.

End Handler.

End AttendanceView.

(** ** GET /api/communications-data: the statistics *)

Module CommunicationStats.

Section Handler.

(** The time-zone offset, the value of the clock and [Date.parse]. *)
Variables (tz now : Z).
Variable Date_parse : string -> option Z.

(** [new Date(c[1]).getMonth() === new Date().getMonth()]; the month of
    an invalid date is [NaN], equal to nothing. *)
Definition sameMonth (c : JS.row) : bool :=
  match JS.idx c 1 with
  | JS.VString s =>
      match Date_parse s with
      | Some t => JSDate.getMonth tz t =? JSDate.getMonth tz now
      | None => false
      end
  | _ => false
  end.

(** [communications] is [Communications!A:G] without its header row. *)
Definition parentMeetings (communications : list JS.row) : nat :=
  List.length (filter (fun c => JS.strict_eq (JS.idx c 4) (JS.VString "Meeting") && sameMonth c)
                      communications).

Definition pendingResponses (communications : list JS.row) : nat :=
  Count.countWhere communications 6 "Pending".

End Handler.

End CommunicationStats.

(** ** Vocabulary for the properties of text cells *)

Module Text.

(** The number of commas of a string. *)
Fixpoint commas (s : string) : nat :=
  match s with
  | EmptyString => 0
  | String c s' => ((if Ascii.eqb c ","%char then 1 else 0) + commas s')%nat
  end.

(** The string starts, or ends, with a white space code point. *)
Definition starts_with_space (x : string) : Prop :=
  exists w rest, In w JS.whiteSpace /\ x = (w ++ rest)%string.

Definition ends_with_space (x : string) : Prop :=
  exists w pre, In w JS.whiteSpace /\ x = (pre ++ w)%string.

End Text.

(** ** Dates in a zone with daylight saving *)

Module Zoned.

(** A time zone as the language sees it: the offset in force at a time
    value, [LocalTZA(t, true)], and the offset by which a local time is
    read back into a time value, [LocalTZA(t, false)]. *)
Record zone : Type := mkZone {
  offsetAt : Z -> Z;
  offsetOfLocal : Z -> Z
}.

(** A zone that keeps one offset. *)
Definition fixed (tz : Z) : zone := mkZone (fun _ => tz) (fun _ => tz).

Definition LocalTime (z : zone) (t : Z) : Z := t + offsetAt z t.
Definition UTC (z : zone) (t : Z) : Z := t - offsetOfLocal z t.

Definition getDate (z : zone) (t : Z) : Z := JSDate.DateFromTime (LocalTime z t).
Definition getDay (z : zone) (t : Z) : Z := JSDate.WeekDay (LocalTime z t).
Definition getMonth (z : zone) (t : Z) : Z := JSDate.MonthFromTime (LocalTime z t).

(** [d.setDate(dt)]: the new time value. *)
Definition setDate (z : zone) (t dt : Z) : Z :=
  let lt := LocalTime z t in
  UTC z (JSDate.MakeDate
           (JSDate.MakeDay (JSDate.YearFromTime lt) (JSDate.MonthFromTime lt) dt)
           (JSDate.TimeWithinDay lt)).

(** calendar-data: the [currentDate] of the cell at [week], [day]. *)
Definition currentDate (z : zone) (today : Z) (week day : nat) : Z :=
  setDate z today (getDate z today - getDay z today + Z.of_nat day + Z.of_nat week * 7).

(** The cell at [week], [day], and the grid, as in module [Calendar]. *)
Definition cellOf (z : zone) (today : Z) (events : list Calendar.event) (week day : nat)
    : option Calendar.cell :=
  let dateStr := JSDate.isoDate (currentDate z today week day) in
  match JS.mapM Calendar.dayEventOf
          (filter (fun event => JS.strict_eq (Calendar.date event) (JS.VString dateStr))
                  events) with
  | None => None
  | Some dayEvents =>
      Some {| Calendar.c_date := getDate z (currentDate z today week day);
              Calendar.isCurrentMonth :=
                getMonth z (currentDate z today week day) =? getMonth z today;
              Calendar.isToday := String.eqb dateStr (JSDate.isoDate today);
              Calendar.c_events := dayEvents |}
  end.

Definition calendarData (z : zone) (today : Z) (events : list Calendar.event)
    : option (list (list Calendar.cell)) :=
  JS.mapM (fun week => JS.mapM (cellOf z today events week) (seq 0 7)) (seq 0 5).

(** attendance-data: the date strings that the loop adds to the set
    [last7Days], for [i] from 0 to 6. *)
Definition last7Days (z : zone) (now : Z) : list string :=
  map (fun i => JSDate.isoDate (setDate z now (getDate z now - Z.of_nat i))) (seq 0 7).

(** America/New_York by its rules of 2026: daylight time, four hours
    behind UTC, from 8 March 07:00Z to 1 November 06:00Z, standard time,
    five hours behind, otherwise.  A local time that the change skips or
    repeats is read back with the offset before the change. *)
Definition newYork2026 : zone :=
  let est := -18000000 in
  let edt := -14400000 in
  let march8 := JSDate.days_from_civil 2026 3 8 * JSDate.msPerDay in
  let november1 := JSDate.days_from_civil 2026 11 1 * JSDate.msPerDay in
  mkZone
    (fun t => if (march8 + 7 * 3600000 <=? t) && (t <? november1 + 6 * 3600000)
              then edt else est)
    (fun lt => if (march8 + 3 * 3600000 <=? lt) && (lt <? november1 + 2 * 3600000)
               then edt else est).

End Zoned.

(** ** The assessments of the performance trend, by their description *)

Module TrendSpec.

(** Written from the wording of the property, not from the handler's
    callback: the assessment has the status 'Completed' and an average
    that is a number other than zero ([null] and [NaN], which the reply
    writes as [null], are no such number; neither is the negative
    zero). *)
Definition completedGraded (a : Assessments.entry) : bool :=
  match Assessments.status a, Assessments.average a with
  | JS.VString s, Some x =>
      String.eqb s "Completed" && PrimFloat.eqb x x && negb (PrimFloat.eqb x 0)
  | _, _ => false
  end.

(** The date of the first assessment parses, so does that of the second,
    and the first is not the later one. *)
Definition notLater (Date_parse : string -> option Z) (a b : Assessments.entry) : Prop :=
  exists x y,
    Assessments.newDate Date_parse (Assessments.date a) = Some x /\
    Assessments.newDate Date_parse (Assessments.date b) = Some y /\
    x <= y.

End TrendSpec.

(** ** The built-ins on the cells of the examples *)

Module Sample.

(** [Date.parse] on the date cells that the examples use: a date-only
    string denotes midnight UTC of its day.  The empty string is no date;
    neither is any other cell of the examples. *)
Definition Date_parse (s : string) : option Z :=
  if String.eqb s "2026-01-15" then Some 1768435200000
  else if String.eqb s "2026-03-01" then Some 1772323200000
  else if String.eqb s "2026-05-01" then Some 1777593600000
  else None.

(** [parseFloat] on the percentage cells that the examples use. *)
Definition parseFloat (s : string) : float :=
  if String.eqb s "70" then 70%float
  else if String.eqb s "80" then 80%float
  else if String.eqb s "90" then 90%float
  else if String.eqb s "Infinity" then infinity
  else if String.eqb s "-Infinity" then neg_infinity
  else nan.

End Sample.

(** * Properties *)

(** ** POST /api/auth *)

Lemma find_none_iff {A : Type} (p : A -> bool) (l : list A) :
  find p l = None <-> forall x, In x l -> p x = false.
Proof.
  split.
  - intros H x Hx. exact (find_none p l H x Hx).
  - induction l as [|a l IH]; intros H; simpl; [reflexivity|].
    rewrite (H a (or_introl eq_refl)). apply IH.
    intros x Hx. apply H. now right.
Qed.

(** What the handler does: a non-empty [employeeId] is rejected with 401
    exactly when no row of the whole table, header row included, starts
    with it. *)
Lemma auth_401_iff (rows : JS.table) (employeeId : JS.value) (now : Z) :
  Auth.status (Auth.auth rows employeeId now) = 401%nat <->
  JS.truthy employeeId = true /\
  forall row, In row rows -> JS.strict_eq (JS.idx row 0) employeeId = false.
Proof.
  unfold Auth.auth. rewrite <- find_none_iff.
  destruct (JS.truthy employeeId); simpl.
  - destruct (find _ rows); simpl; split; intros H; try discriminate; auto.
    destruct H; discriminate.
  - split; [discriminate | intros [H _]; discriminate].
Qed.

(** C1 (the code departs from the claim): an [employeeId] equal to the
    first cell of the header row is authenticated with status 200, although
    no data row carries it; the teacher lookup of the sibling handler, which
    skips the header, finds nothing for the same key. *)
Theorem auth_header_row_accepted :
  let rows := [["EmployeeID"; "Password"]; ["T001"; "secret"]] in
  let r := Auth.auth rows (JS.VString "EmployeeID") 0 in
  Auth.status r = 200%nat /\ Auth.success r = true /\
  Auth.message r = "Authentication successful" /\
  (forall row, In row (JS.slice1 rows) ->
     JS.strict_eq (JS.idx row 0) (JS.VString "EmployeeID") = false) /\
  Auth.findTeacher rows (JS.VString "EmployeeID") = None.
Proof.
  cbv zeta. repeat split; try reflexivity.
  intros row [<- | []]. reflexivity.
Qed.

(** ** Basic facts about cells and lists *)

Lemma strict_eq_iff (a b : JS.value) : JS.strict_eq a b = true <-> a = b.
Proof.
  destruct a as [| |s], b as [| |t]; simpl; split; intros H;
    try reflexivity; try discriminate.
  - apply String.eqb_eq in H. now subst.
  - injection H as ->. apply String.eqb_refl.
Qed.

Lemma strict_eq_refl (a : JS.value) : JS.strict_eq a a = true.
Proof. now apply strict_eq_iff. Qed.

Lemma strict_eq_false_iff (a b : JS.value) : JS.strict_eq a b = false <-> a <> b.
Proof.
  rewrite <- strict_eq_iff. destruct (JS.strict_eq a b); split; intros H;
    try discriminate; try reflexivity; now elim H.
Qed.

Lemma idx_beyond (row : JS.row) (i : nat) :
  (List.length row <= i)%nat -> JS.idx row i = JS.VUndefined.
Proof.
  intros H. unfold JS.idx. now rewrite (proj2 (nth_error_None row i) H).
Qed.

Lemma idx_within (row : JS.row) (i : nat) :
  (i < List.length row)%nat -> exists s, JS.idx row i = JS.VString s.
Proof.
  intros H. unfold JS.idx. destruct (nth_error row i) as [s|] eqn:E.
  - now exists s.
  - apply nth_error_None in E. lia.
Qed.

Lemma filter_length_eq_iff {A : Type} (p : A -> bool) (l : list A) :
  List.length (filter p l) = List.length l <-> Forall (fun x => p x = true) l.
Proof.
  induction l as [|x l IH]; simpl.
  - split; auto.
  - pose proof (filter_length_le p l) as Hle.
    destruct (p x) eqn:E; simpl; split; intros H.
    + constructor; [exact E | apply IH; lia].
    + inversion H; subst. f_equal. now apply IH.
    + lia.
    + inversion H; subst. congruence.
Qed.

Lemma filter_filter_absorb {A : Type} (p q : A -> bool) (l : list A) :
  (forall x, p x = true -> q x = true) ->
  filter p (filter q l) = filter p l.
Proof.
  intros H. induction l as [|x l IH]; simpl; [reflexivity|].
  destruct (q x) eqn:Eq; simpl.
  - now rewrite IH.
  - destruct (p x) eqn:Ep; [|exact IH].
    apply H in Ep. congruence.
Qed.

(** ** Row mapping on short rows *)

Lemma run_schema (m : RowMapper.mapper) (row : JS.row) :
  RowMapper.run m row =
  map (fun f => (RowMapper.f_name f,
                 match RowMapper.f_default f with
                 | Some d => JS.or_ (JS.idx row (RowMapper.f_col f)) d
                 | None => JS.idx row (RowMapper.f_col f)
                 end))
      (RowMapper.schema m).
Proof. destruct m; reflexivity. Qed.

(** The reply of enrollment-data for a row that holds the roll number
    only: [JSON.stringify] keeps two keys. *)
Example enrollment_short_row_json :
  JS.json_fields (RowMapper.run RowMapper.Students ["101"]) =
  [("rollNo", JS.VString "101"); ("status", JS.VString "Active")].
Proof. reflexivity. Qed.

(** C3 (as stated, refuted): a field beyond the end of the row need not
    hold a defined default.  For the empty row the enrollment mapper leaves
    [rollNo] [undefined], so the key is absent from the reply. *)
Lemma short_row_field_undefined :
  ~ (forall (m : RowMapper.mapper) (row : JS.row) (f : RowMapper.field),
       In f (RowMapper.schema m) ->
       (List.length row <= RowMapper.f_col f)%nat ->
       exists v, RowMapper.lookup (RowMapper.f_name f) (RowMapper.run m row) = Some v /\
                 v <> JS.VUndefined).
Proof.
  intros H.
  destruct (H RowMapper.Students [] (RowMapper.mkField "rollNo" 0 None))
    as [v [Hv Hne]].
  - simpl. now left.
  - simpl. lia.
  - simpl in Hv. injection Hv as <-. now apply Hne.
Qed.

(** C3 (amended): mapping a row is total and yields one entry per field
    of the schema; a field whose column lies beyond the end of the row
    holds the operand of its [||] when the source gives it one, and
    [undefined] otherwise. *)
Theorem short_row_defaults (m : RowMapper.mapper) (row : JS.row) (f : RowMapper.field) :
  In f (RowMapper.schema m) ->
  (List.length row <= RowMapper.f_col f)%nat ->
  map fst (RowMapper.run m row) = map RowMapper.f_name (RowMapper.schema m) /\
  RowMapper.lookup (RowMapper.f_name f) (RowMapper.run m row) = Some (RowMapper.whenMissing f).
Proof.
  intros Hin Hlen. split.
  - rewrite run_schema, map_map. reflexivity.
  - destruct m; simpl in Hin;
      repeat (destruct Hin as [<- | Hin]; [simpl in *; rewrite ?idx_beyond by lia; reflexivity|]);
      contradiction.
Qed.

Lemma short_row_defaults_witness :
  map fst (RowMapper.run RowMapper.Students ["101"; "Asha"]) =
    map RowMapper.f_name (RowMapper.schema RowMapper.Students) /\
  RowMapper.lookup "status" (RowMapper.run RowMapper.Students ["101"; "Asha"]) =
    Some (JS.VString "Active").
Proof.
  apply (short_row_defaults RowMapper.Students ["101"; "Asha"]
           (RowMapper.mkField "status" 6 (Some (JS.VString "Active")))).
  - simpl. tauto.
  - simpl. lia.
Defined.

(** ** Counting against a fixed list of labels *)

Lemma countWhere_cons (col : nat) (r : JS.row) (rows : list JS.row) (l : string) :
  Count.countWhere (r :: rows) col l =
  ((if Count.matches col l r then 1 else 0) + Count.countWhere rows col l)%nat.
Proof.
  unfold Count.countWhere, Count.matches. simpl.
  now destruct (JS.strict_eq (JS.idx r col) (JS.VString l)).
Qed.

Lemma sumCounts_nil (col : nat) (ls : list string) : Count.sumCounts col ls [] = 0%nat.
Proof. unfold Count.sumCounts. induction ls as [|l ls IH]; simpl; auto. Qed.

Lemma matches_unique (col : nat) (l l' : string) (r : JS.row) :
  Count.matches col l r = true -> Count.matches col l' r = true -> l = l'.
Proof.
  unfold Count.matches. rewrite !strict_eq_iff. intros -> H. now injection H.
Qed.

(** A row matches at most one of distinct labels. *)
Lemma sum_matches (col : nat) (ls : list string) (r : JS.row) :
  NoDup ls ->
  fold_right (fun l acc => ((if Count.matches col l r then 1 else 0) + acc)%nat) 0%nat ls =
  if Count.inLabels col ls r then 1%nat else 0%nat.
Proof.
  induction 1 as [|l ls Hnotin Hnd IH]; simpl; [reflexivity|].
  rewrite IH. unfold Count.inLabels. simpl.
  destruct (Count.matches col l r) eqn:E; simpl; [|reflexivity].
  destruct (existsb (fun l0 => Count.matches col l0 r) ls) eqn:Ex; [|reflexivity].
  apply existsb_exists in Ex. destruct Ex as [l' [Hin Hm]].
  rewrite (matches_unique col l l' r E Hm) in Hnotin. contradiction.
Qed.

Lemma sumCounts_cons (col : nat) (ls : list string) (r : JS.row) (rows : list JS.row) :
  Count.sumCounts col ls (r :: rows) =
  (fold_right (fun l acc => ((if Count.matches col l r then 1 else 0) + acc)%nat) 0%nat ls
   + Count.sumCounts col ls rows)%nat.
Proof.
  unfold Count.sumCounts. induction ls as [|l ls IH]; simpl; [reflexivity|].
  rewrite IH, countWhere_cons. lia.
Qed.

(** With distinct labels the counts add up to the number of rows whose
    value is one of the labels. *)
Lemma sumCounts_filter (col : nat) (ls : list string) (rows : list JS.row) :
  NoDup ls ->
  Count.sumCounts col ls rows = List.length (filter (Count.inLabels col ls) rows).
Proof.
  intros Hnd. induction rows as [|r rows IH].
  - apply sumCounts_nil.
  - rewrite sumCounts_cons, IH, sum_matches by exact Hnd. simpl.
    destruct (Count.inLabels col ls r); simpl; reflexivity.
Qed.

Lemma countWhere_filter_inLabels (col : nat) (ls : list string) (rows : list JS.row) (l : string) :
  In l ls ->
  Count.countWhere (filter (Count.inLabels col ls) rows) col l = Count.countWhere rows col l.
Proof.
  intros Hin. unfold Count.countWhere. f_equal.
  apply filter_filter_absorb. intros r Hr.
  unfold Count.inLabels. apply existsb_exists. exists l. split; [exact Hin | exact Hr].
Qed.

Lemma labelled_inLabels (a : FixedSet.aggregation) (r : JS.row) :
  FixedSet.labelled a r = Count.inLabels (FixedSet.column a) (FixedSet.labels a) r.
Proof. reflexivity. Qed.

Lemma labelled_iff (a : FixedSet.aggregation) (r : JS.row) :
  FixedSet.labelled a r = true <->
  exists l, In l (FixedSet.labels a) /\ JS.idx r (FixedSet.column a) = JS.VString l.
Proof.
  unfold FixedSet.labelled. rewrite existsb_exists.
  split; intros [l [Hin H]]; exists l; (split; [exact Hin|]); now apply strict_eq_iff.
Qed.

Lemma labels_NoDup (a : FixedSet.aggregation) : NoDup (FixedSet.labels a).
Proof.
  destruct a; simpl;
    repeat (constructor; [simpl; intros H; repeat destruct H as [H | H]; discriminate || contradiction|]);
    constructor.
Qed.

(** The distributions that report the plain counts. *)
Lemma run_plain (a : FixedSet.aggregation) (rows : list JS.row) :
  a <> FixedSet.GradeDistribution ->
  FixedSet.run a rows =
  map (fun l => Count.mkBucket l (Count.countWhere rows (FixedSet.column a) l))
      (FixedSet.labels a).
Proof. destruct a; intros H; try reflexivity. now elim H. Qed.

Lemma total_map_counts (col : nat) (ls : list string) (rows : list JS.row) :
  Count.total (map (fun l => Count.mkBucket l (Count.countWhere rows col l)) ls) =
  Count.sumCounts col ls rows.
Proof. unfold Count.total, Count.sumCounts. induction ls as [|l ls IH]; simpl; congruence. Qed.

(** C4 (as stated, refuted): the grade distribution of assessments-data is
    counted against the fixed labels A, B, C, D, F, and replaces every
    count of zero by a literal; over an empty Grades table its counts add
    up to 45. *)
Lemma grade_distribution_exceeds_input :
  ~ (forall (a : FixedSet.aggregation) (rows : list JS.row),
       (Count.total (FixedSet.run a rows) <= List.length rows)%nat).
Proof.
  intros H. specialize (H FixedSet.GradeDistribution []). vm_compute in H. lia.
Qed.

(** C4 (amended): for each fixed-label distribution that reports the plain
    counts (the categories and the performance distribution of
    dashboard-data, the caste and the service categories of
    categories-data), the counts are reported for the enumerated labels
    only, their sum is at most the number of input rows, with equality
    exactly when every row's value is one of the labels, and the rows with
    other values change no count. *)
Theorem fixed_set_counts (a : FixedSet.aggregation) (rows : list JS.row) :
  a <> FixedSet.GradeDistribution ->
  map Count.label (FixedSet.run a rows) = FixedSet.labels a /\
  (Count.total (FixedSet.run a rows) <= List.length rows)%nat /\
  (Count.total (FixedSet.run a rows) = List.length rows <->
   Forall (fun r => exists l, In l (FixedSet.labels a) /\
                              JS.idx r (FixedSet.column a) = JS.VString l) rows) /\
  FixedSet.run a rows = FixedSet.run a (filter (FixedSet.labelled a) rows).
Proof.
  intros Ha.
  assert (Htot : Count.total (FixedSet.run a rows) =
                 List.length (filter (FixedSet.labelled a) rows)).
  { rewrite run_plain, total_map_counts by exact Ha.
    apply sumCounts_filter, labels_NoDup. }
  repeat split.
  - rewrite run_plain by exact Ha. rewrite map_map. simpl. apply map_id.
  - rewrite Htot. apply filter_length_le.
  - rewrite Htot. intros H. apply filter_length_eq_iff in H.
    eapply Forall_impl; [|exact H]. intros r Hr. now apply labelled_iff.
  - rewrite Htot. intros H. apply filter_length_eq_iff.
    eapply Forall_impl; [|exact H]. intros r Hr. now apply labelled_iff.
  - rewrite !run_plain by exact Ha. apply map_ext_in. intros l Hl. f_equal.
    symmetry. apply (countWhere_filter_inLabels _ _ rows l Hl).
Qed.

Lemma fixed_set_counts_witness :
  let rows := [["101"; "Asha"; "Female"; "OBC"]; ["102"; "Ravi"; "Male"; "Other"]; ["103"]] in
  map Count.label (Categories.casteCategories rows) = ["General"; "OBC"; "SC"; "ST"; "Muslim"] /\
  (Count.total (Categories.casteCategories rows) <= 3)%nat /\
  (Count.total (Categories.casteCategories rows) = 3%nat <->
   Forall (fun r => exists l, In l ["General"; "OBC"; "SC"; "ST"; "Muslim"] /\
                              JS.idx r 3 = JS.VString l) rows) /\
  Categories.casteCategories rows =
  Categories.casteCategories (filter (FixedSet.labelled FixedSet.CasteCategories) rows).
Proof.
  intros rows.
  apply (fixed_set_counts FixedSet.CasteCategories rows). discriminate.
Defined.

(** ** GET /api/assessments-data on a table without data rows *)

(** C6: when the Assessments table holds its header row only, whatever the
    Grades table holds, the reply has [nextAssessment] equal to
    [{date: 'Apr 15', name: 'Unit Test 3'}] and [lastAssessmentAverage]
    equal to 76. *)
Theorem assessments_empty_fallback
    (parseFloat : string -> float) (Date_parse : string -> option Z)
    (header : JS.row) (gradeRows : JS.table) :
  let reply := Assessments.assessmentsHandler parseFloat Date_parse [header] gradeRows in
  Assessments.nextAssessment reply =
    Assessments.mkNext (JS.VString "Apr 15") (JS.VString "Unit Test 3") /\
  Assessments.lastAssessmentAverage reply = Some 76%float /\
  Assessments.assessments reply = [].
Proof. cbv zeta. repeat split. Qed.

(** The same holds for a table without any row. *)
Lemma assessments_no_rows_fallback
    (parseFloat : string -> float) (Date_parse : string -> option Z)
    (gradeRows : JS.table) :
  let reply := Assessments.assessmentsHandler parseFloat Date_parse [] gradeRows in
  Assessments.nextAssessment reply =
    Assessments.mkNext (JS.VString "Apr 15") (JS.VString "Unit Test 3") /\
  Assessments.lastAssessmentAverage reply = Some 76%float.
Proof. cbv zeta. split; reflexivity. Qed.

(** ** GET /api/syllabus-data on a table without data rows *)

(** C8: when the Syllabus table holds its header row only, the handler
    still builds its payload, with empty lists, and the completion
    percentage is [Math.round((0 / 0) * 100)], which is [NaN] and is
    written as [null] in the reply: no fallback value takes its place. *)
Theorem syllabus_empty_completion_nan
    (parseInt : string -> float) (rand : nat -> float) (header : JS.row) :
  let reply := Syllabus.syllabusHandler parseInt rand [header] in
  Syllabus.completionPercentage reply
    = Num.Math_round (Num.of_nat 0 / Num.of_nat 0 * 100)%float /\
  PrimFloat.is_nan (Syllabus.completionPercentage reply) = true /\
  Num.json (Syllabus.completionPercentage reply) = "null" /\
  Syllabus.topics reply = [] /\
  Syllabus.unitCompletion reply = [] /\
  Syllabus.timeAllocation reply = [] /\
  Syllabus.upcomingTopics reply = [] /\
  Syllabus.totalUnits reply = 0%nat /\
  Syllabus.completedUnits reply = 0%nat.
Proof. cbv zeta. repeat split. Qed.

(** With data rows the same expression is a number: one topic of two
    completed gives 50. *)
Example syllabus_half_completed :
  Syllabus.completionPercentageOf
    [["1"; "U1"; "Sets"; "4"; "4"; "Completed"]; ["2"; "U1"; "Maps"; "4"; ""; "Pending"]]
  = 50%float.
Proof. vm_compute. reflexivity. Qed.

(** ** GET /api/student-details/:id *)

Lemma find_some_found {A : Type} (p : A -> bool) (l : list A) (x : A) :
  find p l = Some x -> In x l /\ p x = true.
Proof. apply find_some. Qed.

(** C9: for every student the handler finds, the achievements of the reply
    are the title cells (column 3) of exactly the Achievements rows whose
    name cell (column 2) equals the student's name cell (Students column
    1), in table order, while the discipline records are built, one each
    (id, date, incident, action), from exactly the Discipline rows whose
    roll-number cell (column 3) equals the requested id, which is the
    student's roll number; hence two students of different roll numbers
    whose name cells are equal get the same achievements, each those of
    the other. *)
Theorem achievements_joined_by_name
    (studentRows performanceRows disciplineRows achievementsRows : JS.table) :
  (forall (studentId : string) (student : JS.row),
     StudentDetails.findStudent (JS.slice1 studentRows) studentId = Some student ->
     exists d,
       StudentDetails.studentDetails studentRows performanceRows disciplineRows
         achievementsRows studentId = StudentDetails.Found d /\
       StudentDetails.rollNo d = JS.VString studentId /\
       StudentDetails.name d = JS.idx student 1 /\
       StudentDetails.achievements d =
         map (fun a => JS.idx a 3)
             (filter (fun a => JS.strict_eq (JS.idx a 2) (StudentDetails.name d))
                     (JS.slice1 achievementsRows)) /\
       (forall title, In title (StudentDetails.achievements d) <->
          exists a, In a (JS.slice1 achievementsRows) /\
                    JS.idx a 2 = StudentDetails.name d /\ JS.idx a 3 = title) /\
       StudentDetails.disciplineRecords d =
         map (fun r => StudentDetails.mkDisciplineRecord
                         (JS.idx r 0) (JS.idx r 1) (JS.idx r 4)
                         (JS.or_ (JS.idx r 5) (JS.VString "Verbal Warning")))
             (filter (fun r => JS.strict_eq (JS.idx r 3) (StudentDetails.rollNo d))
                     (JS.slice1 disciplineRows)) /\
       (forall id, In id (map StudentDetails.d_id (StudentDetails.disciplineRecords d)) <->
          exists r, In r (JS.slice1 disciplineRows) /\
                    JS.idx r 3 = StudentDetails.rollNo d /\ JS.idx r 0 = id)) /\
  (forall (id1 id2 : string) (s1 s2 : JS.row),
     id1 <> id2 ->
     StudentDetails.findStudent (JS.slice1 studentRows) id1 = Some s1 ->
     StudentDetails.findStudent (JS.slice1 studentRows) id2 = Some s2 ->
     JS.idx s1 1 = JS.idx s2 1 ->
     exists d1 d2,
       StudentDetails.studentDetails studentRows performanceRows disciplineRows
         achievementsRows id1 = StudentDetails.Found d1 /\
       StudentDetails.studentDetails studentRows performanceRows disciplineRows
         achievementsRows id2 = StudentDetails.Found d2 /\
       StudentDetails.rollNo d1 <> StudentDetails.rollNo d2 /\
       StudentDetails.achievements d1 = StudentDetails.achievements d2 /\
       (forall a, In a (JS.slice1 achievementsRows) -> JS.idx a 2 = JS.idx s2 1 ->
                  In (JS.idx a 3) (StudentDetails.achievements d1)) /\
       (forall a, In a (JS.slice1 achievementsRows) -> JS.idx a 2 = JS.idx s1 1 ->
                  In (JS.idx a 3) (StudentDetails.achievements d2))).
Proof.
  assert (Hone : forall (studentId : string) (student : JS.row),
     StudentDetails.findStudent (JS.slice1 studentRows) studentId = Some student ->
     exists d,
       StudentDetails.studentDetails studentRows performanceRows disciplineRows
         achievementsRows studentId = StudentDetails.Found d /\
       StudentDetails.rollNo d = JS.VString studentId /\
       StudentDetails.name d = JS.idx student 1 /\
       StudentDetails.achievements d =
         map (fun a => JS.idx a 3)
             (filter (fun a => JS.strict_eq (JS.idx a 2) (JS.idx student 1))
                     (JS.slice1 achievementsRows)) /\
       StudentDetails.disciplineRecords d =
         StudentDetails.disciplineRecordsOf (JS.slice1 disciplineRows) studentId).
  { intros studentId student Hfind. unfold StudentDetails.studentDetails. rewrite Hfind.
    eexists. split; [reflexivity|]. cbn [StudentDetails.rollNo StudentDetails.name
      StudentDetails.achievements StudentDetails.disciplineRecords].
    apply find_some in Hfind. destruct Hfind as [_ Hid]. apply strict_eq_iff in Hid.
    repeat split. exact Hid. }
  split.
  - intros studentId student Hfind.
    destruct (Hone studentId student Hfind) as [d [Hd [Hroll [Hname [Hach Hdis]]]]].
    exists d. split; [exact Hd|]. split; [exact Hroll|]. split; [exact Hname|].
    rewrite Hname, Hroll, Hach, Hdis. unfold StudentDetails.disciplineRecordsOf.
    split; [reflexivity|]. split; [|split].
    + intros title. rewrite in_map_iff. split.
      * intros [a [Ht Ha]]. apply filter_In in Ha. destruct Ha as [Ha Hn].
        apply strict_eq_iff in Hn. now exists a.
      * intros [a [Ha [Hn Ht]]]. exists a. split; [exact Ht|].
        apply filter_In. split; [exact Ha | now apply strict_eq_iff].
    + reflexivity.
    + intros id. rewrite map_map. cbn [StudentDetails.d_id]. rewrite in_map_iff. split.
      * intros [r [Hi Hr]]. apply filter_In in Hr. destruct Hr as [Hr Hn].
        apply strict_eq_iff in Hn. now exists r.
      * intros [r [Hr [Hn Hi]]]. exists r. split; [exact Hi|].
        apply filter_In. split; [exact Hr | now apply strict_eq_iff].
  - intros id1 id2 s1 s2 Hne H1 H2 Hname.
    destruct (Hone id1 s1 H1) as [d1 [Hd1 [Hr1 [_ [Ha1 _]]]]].
    destruct (Hone id2 s2 H2) as [d2 [Hd2 [Hr2 [_ [Ha2 _]]]]].
    exists d1, d2. split; [exact Hd1|]. split; [exact Hd2|]. split; [|split; [|split]].
    + rewrite Hr1, Hr2. intros [= H]. contradiction.
    + rewrite Ha1, Ha2, Hname. reflexivity.
    + intros a Ha Hn. rewrite Ha1. apply (in_map (fun a => JS.idx a 3)).
      apply filter_In. split; [exact Ha|]. apply strict_eq_iff. congruence.
    + intros a Ha Hn. rewrite Ha2. apply (in_map (fun a => JS.idx a 3)).
      apply filter_In. split; [exact Ha|]. apply strict_eq_iff. congruence.
Qed.

Lemma achievements_joined_by_name_witness :
  let students := [["Roll"; "Name"]; ["101"; "Asha"]; ["102"; "Asha"]; ["103"; "Ravi"]] in
  let disciplines :=
    [["Id"; "Date"; "Student"; "Roll"; "Incident"];
     ["D1"; "2026-03-01"; "Asha"; "102"; "Late"]] in
  let achievements :=
    [["Id"; "Date"; "Student"; "Title"];
     ["A1"; "2026-01-10"; "Asha"; "Science Fair"];
     ["A2"; "2026-02-11"; "Asha"; "Chess Cup"]] in
  (exists d, StudentDetails.studentDetails students [] disciplines achievements "103"
             = StudentDetails.Found d /\
             StudentDetails.achievements d = [] /\
             StudentDetails.disciplineRecords d = []) /\
  (exists d1 d2,
     StudentDetails.studentDetails students [] disciplines achievements "101"
       = StudentDetails.Found d1 /\
     StudentDetails.studentDetails students [] disciplines achievements "102"
       = StudentDetails.Found d2 /\
     StudentDetails.achievements d1 = StudentDetails.achievements d2 /\
     List.length (StudentDetails.disciplineRecords d1) = 0%nat /\
     List.length (StudentDetails.disciplineRecords d2) = 1%nat).
Proof.
  intros students disciplines achievements.
  destruct (achievements_joined_by_name students [] disciplines achievements) as [Hone Htwo].
  split.
  - destruct (Hone "103" ["103"; "Ravi"] eq_refl) as [d [Hd _]].
    exists d. split; [exact Hd|]. vm_compute in Hd. injection Hd as <-. split; reflexivity.
  - destruct (Htwo "101" "102" ["101"; "Asha"] ["102"; "Asha"])
      as [d1 [d2 [E1 [E2 [_ [Heq _]]]]]]; try reflexivity; try discriminate.
    exists d1, d2. split; [exact E1|]. split; [exact E2|]. split; [exact Heq|].
    vm_compute in E1, E2. injection E1 as <-. injection E2 as <-. split; reflexivity.
Defined.

(** ** GET /api/attendance-data: the weekly average *)

(** The expression agrees with the guarded percentage where that one is
    not zero, and falls back to 90 without records. *)
Example weeklyAverageOf_samples :
  Attendance.weeklyAverageOf 3 4 = 75%float /\
  Attendance.weeklyAverageOf 1 8 = 13%float /\
  Attendance.weeklyAverageOf 7 7 = 100%float /\
  Attendance.weeklyAverageOf 0 0 = 90%float.
Proof. vm_compute. repeat split. Qed.

(** Records without a single 'Present' give 90 as well, for every number
    of records up to 2000. *)
Lemma weeklyAverageOf_none_present :
  forallb (fun t => PrimFloat.eqb (Attendance.weeklyAverageOf 0 t) 90%float) (seq 1 2000) = true.
Proof. vm_compute. reflexivity. Qed.

(** The quotient is rounded before it is scaled: 23 of 40 is 57.5 percent,
    yet [(23 / 40) * 100] is the double just below 57.5 and rounds to 57. *)
Example weeklyAverageOf_double_rounding :
  Attendance.weeklyAverageOf 23 40 = 57%float.
Proof. vm_compute. reflexivity. Qed.

(** C2 (the code departs from the claim): on Monday 2 November 2026,
    15:30 at UTC+5:30, with one attendance record of that day whose status
    is 'Absent', the window holds one record and no 'Present', and the
    weekly average is 90 and not 0; the guarded percentage of the
    per-student rollup gives 0 for the same counts. *)
Theorem weeklyAverage_all_absent :
  let tz := 19800000 in
  let now := 1793613600000 in
  let attendance := [["A1"; "2026-11-02"; "101"; "Absent"; ""]] in
  Attendance.today now = "2026-11-02" /\
  Attendance.totalRecords7Days tz now attendance = 1%nat /\
  Attendance.totalPresent7Days tz now attendance = 0%nat /\
  Attendance.weeklyAverage tz now attendance = 90%float /\
  Attendance.studentPercentage 0 1 = 0%float.
Proof. vm_compute. repeat split. Qed.

(** ** GET /api/workshops-data: the participants of a row *)

(** A scheduled row has no participants, whatever the draw. *)
Lemma participants_scheduled (r : float) :
  Workshops.participantsOf (JS.VString "Scheduled") r = "0".
Proof. reflexivity. Qed.

(** The draws 0, 1/2 and [1 - 2^-52] give 15, 30 and 44. *)
Example participants_samples :
  Workshops.participantsOf (JS.VString "Completed") 0%float = "15" /\
  Workshops.participantsOf (JS.VString "Completed") 0.5%float = "30" /\
  Workshops.participantsOf (JS.VString "Completed") 0x1.ffffffffffffep-1%float = "44".
Proof. vm_compute. repeat split. Qed.

(** C7 (the code departs from the claim): the largest double below 1,
    [1 - 2^-53], is a value [Math.random()] may return; [r * 30] then
    rounds to [30 - 2^-48] and [r * 30 + 15] to 45, so the row gets '45'
    participants, outside 15..44. *)
Theorem participants_largest_draw :
  let r := 0x1.fffffffffffffp-1%float in
  PrimFloat.leb 0 r = true /\ PrimFloat.ltb r 1 = true /\
  (r * 30 + 15)%float = 45%float /\
  Workshops.participantsOf (JS.VString "Completed") r = "45" /\
  Workshops.participants
    (fst (Workshops.processRow (fun _ => r) "General Discussion"
            ["W1"; "Algebra"; "2h"; "Completed"] 0)) = "45".
Proof. vm_compute. repeat split. Qed.

(** ** Sorting *)

Section SortFacts.

Context {A : Type} (cmp : A -> A -> option Z).

Hypothesis cmp_asym : forall a b, JS.behind cmp a b -> ~ JS.behind cmp b a.

Lemma insert_perm (x : A) (l : list A) : Permutation (JS.insert cmp x l) (x :: l).
Proof.
  induction l as [|y l IH]; simpl; [reflexivity|].
  destruct (cmp x y) as [v|]; [|reflexivity].
  destruct (0 <? v); [|reflexivity].
  rewrite IH. apply perm_swap.
Qed.

Lemma sort_perm (l : list A) : Permutation (JS.sort cmp l) l.
Proof.
  unfold JS.sort. induction l as [|x l IH]; simpl; [reflexivity|].
  rewrite insert_perm. now constructor.
Qed.

Lemma insert_HdRel (y x : A) (l : list A) :
  ~ JS.behind cmp y x -> HdRel (fun a b => ~ JS.behind cmp a b) y l ->
  HdRel (fun a b => ~ JS.behind cmp a b) y (JS.insert cmp x l).
Proof.
  intros Hyx Hl. destruct l as [|z l]; simpl.
  - now constructor.
  - inversion Hl; subst.
    destruct (cmp x z) as [v|]; [destruct (0 <? v)|]; now constructor.
Qed.

Lemma insert_sorted (x : A) (l : list A) :
  Sorted (fun a b => ~ JS.behind cmp a b) l ->
  Sorted (fun a b => ~ JS.behind cmp a b) (JS.insert cmp x l).
Proof.
  induction l as [|y l IH]; intros Hs; simpl.
  - repeat constructor.
  - inversion Hs as [|? ? Hs' Hhd]; subst.
    destruct (cmp x y) as [v|] eqn:E.
    + destruct (0 <? v) eqn:Ev.
      * constructor; [now apply IH|].
        apply insert_HdRel; [|exact Hhd].
        apply cmp_asym. exists v. split; [exact E | now apply Z.ltb_lt].
      * constructor; [exact Hs|]. constructor.
        intros [w [Hw Hpos]]. rewrite E in Hw. injection Hw as <-.
        apply Z.ltb_ge in Ev. lia.
    + constructor; [exact Hs|]. constructor.
      intros [w [Hw _]]. congruence.
Qed.

Lemma sort_sorted (l : list A) : Sorted (fun a b => ~ JS.behind cmp a b) (JS.sort cmp l).
Proof.
  unfold JS.sort. induction l as [|x l IH]; simpl; [constructor|].
  now apply insert_sorted.
Qed.

(** A list in which no element is behind its successor is left as it
    is. *)
Lemma sort_run (l : list A) :
  Sorted (fun a b => ~ JS.behind cmp a b) l -> JS.sort cmp l = l.
Proof.
  unfold JS.sort. induction 1 as [|x l _ IH Hhd]; cbn [fold_right]; [reflexivity|].
  rewrite IH. destruct Hhd as [|y l' Hxy]; cbn [JS.insert]; [reflexivity|].
  destruct (cmp x y) as [v|] eqn:E; [|reflexivity].
  destruct (0 <? v) eqn:Ev; [|reflexivity].
  exfalso. apply Hxy. exists v. split; [exact E | now apply Z.ltb_lt].
Qed.

End SortFacts.

Lemma filter_perm {A : Type} (p : A -> bool) (l l' : list A) :
  Permutation l l' -> Permutation (filter p l) (filter p l').
Proof.
  induction 1 as [|x l l' _ IH|x y l|l1 l2 l3 _ IH1 _ IH2]; simpl.
  - constructor.
  - destruct (p x); [now constructor | exact IH].
  - destruct (p x), (p y); try reflexivity. apply perm_swap.
  - now transitivity (filter p l2).
Qed.

Lemma firstn_sorted {A : Type} (R : A -> A -> Prop) (n : nat) (l : list A) :
  Sorted R l -> Sorted R (firstn n l).
Proof.
  revert l. induction n as [|n IH]; intros l Hs; simpl; [constructor|].
  destruct l as [|x l]; [constructor|].
  inversion Hs as [|? ? Hs' Hhd]; subst. constructor; [now apply IH|].
  destruct l as [|y l]; destruct n; simpl; try constructor.
  now inversion Hhd.
Qed.

(** ** GET /api/assessments-data: the performance trend *)

Lemma byDateAsc_asym (Date_parse : string -> option Z) (a b : Assessments.entry) :
  JS.behind (Assessments.byDateAsc Date_parse) a b ->
  ~ JS.behind (Assessments.byDateAsc Date_parse) b a.
Proof.
  unfold JS.behind, Assessments.byDateAsc. intros [v [Hv Hpos]] [w [Hw Hpos']].
  destruct (Assessments.newDate Date_parse (Assessments.date a)) as [x|];
    destruct (Assessments.newDate Date_parse (Assessments.date b)) as [y|];
    try discriminate.
  injection Hv as <-. injection Hw as <-. lia.
Qed.


Section DateOrder.

Variable Date_parse : string -> option Z.

Lemma notLater_trans (a b c : Assessments.entry) :
  TrendSpec.notLater Date_parse a b -> TrendSpec.notLater Date_parse b c ->
  TrendSpec.notLater Date_parse a c.
Proof.
  intros [x [y [Hx [Hy Hxy]]]] [y' [z [Hy' [Hz Hyz]]]].
  rewrite Hy in Hy'. injection Hy' as <-. exists x, z. repeat split; auto. lia.
Qed.

Lemma not_behind_notLater (a b : Assessments.entry) :
  (exists x, Assessments.newDate Date_parse (Assessments.date a) = Some x) ->
  (exists y, Assessments.newDate Date_parse (Assessments.date b) = Some y) ->
  ~ JS.behind (Assessments.byDateAsc Date_parse) a b ->
  TrendSpec.notLater Date_parse a b.
Proof.
  intros [x Hx] [y Hy] Hnb. exists x, y. repeat split; auto.
  destruct (Z_le_gt_dec x y) as [Hle | Hgt]; [exact Hle|].
  exfalso. apply Hnb. exists (x - y). unfold Assessments.byDateAsc. rewrite Hx, Hy.
  split; [reflexivity | lia].
Qed.

(** Where all dates parse, the sorted list ascends by date throughout. *)
Lemma sort_ascending (l : list Assessments.entry) :
  (forall a, In a l ->
     exists x, Assessments.newDate Date_parse (Assessments.date a) = Some x) ->
  StronglySorted (TrendSpec.notLater Date_parse) (JS.sort (Assessments.byDateAsc Date_parse) l).
Proof.
  intros Hvalid.
  assert (Hvalid' : forall a, In a (JS.sort (Assessments.byDateAsc Date_parse) l) ->
            exists x, Assessments.newDate Date_parse (Assessments.date a) = Some x).
  { intros a Ha. apply Hvalid. now apply (Permutation_in a (sort_perm (Assessments.byDateAsc Date_parse) l)). }
  assert (Hs : Sorted (fun a b => ~ JS.behind (Assessments.byDateAsc Date_parse) a b)
                      (JS.sort (Assessments.byDateAsc Date_parse) l))
    by (apply sort_sorted; intros a b; apply byDateAsc_asym).
  apply Sorted_StronglySorted; [intros a b c; apply notLater_trans|].
  induction Hs as [|a l' Hs IH Hhd]; constructor.
  - apply IH. intros b Hb. apply Hvalid'. now right.
  - destruct Hhd as [|b l'' Hab]; constructor.
    apply not_behind_notLater; [apply Hvalid'; now left | apply Hvalid'; right; now left | exact Hab].
Qed.

End DateOrder.

Lemma StronglySorted_app_inv {A : Type} (R : A -> A -> Prop) (l1 l2 : list A) :
  StronglySorted R (l1 ++ l2) ->
  StronglySorted R l1 /\ StronglySorted R l2 /\ forall a b, In a l1 -> In b l2 -> R a b.
Proof.
  induction l1 as [|x l1 IH]; simpl; intros H.
  - split; [constructor | split; [exact H | intros a b []]].
  - inversion H as [|? ? Hs Hall]; subst. destruct (IH Hs) as [Hs1 [Hs2 Hcross]].
    rewrite Forall_forall in Hall. split; [|split; [exact Hs2|]].
    + constructor; [exact Hs1|]. apply Forall_forall. intros y Hy. apply Hall, in_or_app. now left.
    + intros a b [<- | Ha] Hb; [apply Hall, in_or_app; now right | now apply Hcross].
Qed.

(** The time values of the sample dates. *)
Example sample_dates :
  map JSDate.toISOString [1768435200000; 1772323200000; 1777593600000]
  = ["2026-01-15T00:00:00.000Z"; "2026-03-01T00:00:00.000Z"; "2026-05-01T00:00:00.000Z"] /\
  map Sample.Date_parse ["2026-01-15"; "2026-03-01"; "2026-05-01"; ""]
  = [Some 1768435200000; Some 1772323200000; Some 1777593600000; None].
Proof. vm_compute. split; reflexivity. Qed.


(** The reply to these rows: the three assessments as the table has
    them, and no sample point. *)
Example trend_of_unparsable_date :
  Assessments.performanceTrend
    (Assessments.assessmentsHandler Sample.parseFloat Sample.Date_parse
       [ ["Id"; "Date"; "Title"; "Type"; "Max"; "Status"];
         ["A1"; "2026-03-01"; "Quiz 1"; "Quiz"; "20"; "Completed"];
         ["A2"; ""; "Quiz 2"; "Quiz"; "20"; "Completed"];
         ["A3"; "2026-01-15"; "Quiz 3"; "Quiz"; "20"; "Completed"] ]
       [ ["Assessment"; "Roll"; "Name"; "Percentage"; "Grade"];
         ["A1"; "101"; "Asha"; "80"; "A"];
         ["A2"; "101"; "Asha"; "70"; "B"];
         ["A3"; "101"; "Asha"; "90"; "A"] ])
  = [ Assessments.mkTrendPoint (JS.VString "Quiz 1") (Some 80%float);
      Assessments.mkTrendPoint (JS.VString "Quiz 2") (Some 70%float);
      Assessments.mkTrendPoint (JS.VString "Quiz 3") (Some 90%float) ].
Proof. vm_compute. reflexivity. Qed.

(** An average can be [NaN]: the percentages 'Infinity' and '-Infinity'
    add up to it.  The reply writes it as [null], and the assessment is
    not among the graded ones. *)
Example average_nan :
  let a :=
    Assessments.mapAssessment Sample.parseFloat
      [ ["A1"; "101"; "Asha"; "Infinity"; "A"]; ["A1"; "102"; "Ravi"; "-Infinity"; "F"] ]
      ["A1"; "2026-03-01"; "Quiz 1"; "Quiz"; "20"; "Completed"] in
  option_map PrimFloat.is_nan (Assessments.average a) = Some true /\
  Assessments.completedWithAverage a = false /\
  TrendSpec.completedGraded a = false.
Proof. vm_compute. repeat split. Qed.



(** ** Dates *)

Lemma civil_bounds (z : Z) :
  let '(y, m, d) := JSDate.civil_from_days z in
  1 <= m <= 12 /\ 1 <= d <= 31.
Proof.
  unfold JSDate.civil_from_days. cbv zeta.
  set (z' := z + 719468).
  set (era := z' / 146097).
  set (doe := z' - era * 146097).
  assert (Hdoe : 0 <= doe < 146097) by (unfold doe, era; Z.div_mod_to_equations; lia).
  clearbody doe. clear era z'.
  set (yoe := (doe - doe / 1460 + doe / 36524 - doe / 146096) / 365).
  set (doy := doe - (365 * yoe + yoe / 4 - yoe / 100)).
  assert (Hy : 0 <= yoe <= 399 /\ 0 <= doy <= 365)
    by (unfold doy, yoe; Z.div_mod_to_equations; lia).
  clearbody doy. clearbody yoe.
  set (mp := (5 * doy + 2) / 153).
  assert (Hmp : 0 <= mp <= 11) by (unfold mp; Z.div_mod_to_equations; lia).
  assert (Hd : 1 <= doy - (153 * mp + 2) / 5 + 1 <= 31)
    by (unfold mp; Z.div_mod_to_equations; lia).
  clearbody mp.
  destruct (mp <? 10) eqn:E; [apply Z.ltb_lt in E | apply Z.ltb_ge in E]; lia.
Qed.

Lemma civil_roundtrip (z : Z) :
  let '(y, m, d) := JSDate.civil_from_days z in JSDate.days_from_civil y m d = z.
Proof.
  unfold JSDate.civil_from_days. cbv zeta.
  set (z' := z + 719468).
  set (era := z' / 146097).
  set (doe := z' - era * 146097).
  assert (Hdoe : 0 <= doe < 146097) by (unfold doe, era; Z.div_mod_to_equations; lia).
  assert (Hz : z = era * 146097 + doe - 719468) by (unfold doe, z'; lia).
  clearbody doe. clearbody era. clear z'.
  set (yoe := (doe - doe / 1460 + doe / 36524 - doe / 146096) / 365).
  set (doy := doe - (365 * yoe + yoe / 4 - yoe / 100)).
  assert (Hy : 0 <= yoe <= 399 /\ 0 <= doy <= 365)
    by (unfold doy, yoe; Z.div_mod_to_equations; lia).
  assert (Hdoy : doe = yoe * 365 + yoe / 4 - yoe / 100 + doy) by (unfold doy; lia).
  clearbody doy. clearbody yoe.
  set (mp := (5 * doy + 2) / 153).
  assert (Hmp : 0 <= mp <= 11) by (unfold mp; Z.div_mod_to_equations; lia).
  clearbody mp.
  unfold JSDate.days_from_civil.
  destruct (mp <? 10) eqn:E; [apply Z.ltb_lt in E | apply Z.ltb_ge in E].
  - replace (mp + 3 <=? 2) with false by (symmetry; apply Z.leb_gt; lia).
    replace (2 <? mp + 3) with true by (symmetry; apply Z.ltb_lt; lia).
    cbv zeta.
    replace ((yoe + era * 400) / 400) with era by (Z.div_mod_to_equations; lia).
    replace (yoe + era * 400 - era * 400) with yoe by lia.
    replace (mp + 3 - 3) with mp by lia. lia.
  - replace (mp - 9 <=? 2) with true by (symmetry; apply Z.leb_le; lia).
    replace (2 <? mp - 9) with false by (symmetry; apply Z.ltb_ge; lia).
    cbv zeta.
    replace ((yoe + era * 400 + 1 - 1) / 400) with era by (Z.div_mod_to_equations; lia).
    replace (yoe + era * 400 + 1 - 1 - era * 400) with yoe by lia.
    replace (mp - 9 + 9) with mp by lia. lia.
Qed.

Lemma civil_inj (z1 z2 : Z) :
  JSDate.civil_from_days z1 = JSDate.civil_from_days z2 -> z1 = z2.
Proof.
  intros H. pose proof (civil_roundtrip z1) as H1. pose proof (civil_roundtrip z2) as H2.
  rewrite H in H1. destruct (JSDate.civil_from_days z2) as [[y m] d]. congruence.
Qed.

Lemma days_from_civil_shift (y m d k : Z) :
  JSDate.days_from_civil y m (d + k) = JSDate.days_from_civil y m d + k.
Proof. unfold JSDate.days_from_civil. cbv zeta. lia. Qed.

Lemma Day_shift (t k : Z) : JSDate.Day (t + k * JSDate.msPerDay) = JSDate.Day t + k.
Proof. unfold JSDate.Day. apply Z.div_add. unfold JSDate.msPerDay. lia. Qed.

(** Setting the day of the month to the current one plus [k] moves the
    time value by [k] days. *)
Lemma setDate_shift (tz t k : Z) :
  JSDate.setDate tz t (JSDate.getDate tz t + k) = t + k * JSDate.msPerDay.
Proof.
  unfold JSDate.setDate, JSDate.getDate, JSDate.YearFromTime, JSDate.MonthFromTime,
    JSDate.DateFromTime, JSDate.MakeDay, JSDate.MakeDate, JSDate.UTC,
    JSDate.TimeWithinDay. cbv zeta.
  set (lt := JSDate.LocalTime tz t).
  pose proof (civil_roundtrip (JSDate.Day lt)) as Hrt.
  destruct (JSDate.civil_from_days (JSDate.Day lt)) as [[y m] d]. simpl.
  replace (m - 1 + 1) with m by lia.
  pose proof (days_from_civil_shift y m 1 (d - 1)) as E.
  replace (1 + (d - 1)) with d in E by lia. rewrite Hrt in E.
  set (first := JSDate.days_from_civil y m 1) in *. clearbody first.
  unfold JSDate.Day, lt, JSDate.LocalTime, JSDate.msPerDay in *.
  Z.div_mod_to_equations. lia.
Qed.

Lemma makeDate_shift (lt k : Z) :
  JSDate.MakeDate
    (JSDate.MakeDay (JSDate.YearFromTime lt) (JSDate.MonthFromTime lt)
                    (JSDate.DateFromTime lt + k))
    (JSDate.TimeWithinDay lt)
  = lt + k * JSDate.msPerDay.
Proof.
  unfold JSDate.YearFromTime, JSDate.MonthFromTime, JSDate.DateFromTime, JSDate.MakeDay,
    JSDate.MakeDate, JSDate.TimeWithinDay.
  pose proof (civil_roundtrip (JSDate.Day lt)) as Hrt.
  destruct (JSDate.civil_from_days (JSDate.Day lt)) as [[y m] d]. simpl.
  replace (m - 1 + 1) with m by lia.
  pose proof (days_from_civil_shift y m 1 (d - 1)) as E.
  replace (1 + (d - 1)) with d in E by lia. rewrite Hrt in E.
  set (first := JSDate.days_from_civil y m 1) in *. clearbody first.
  unfold JSDate.Day, JSDate.msPerDay in *.
  Z.div_mod_to_equations. lia.
Qed.

(** Where the local time [k] days away is read back with the offset in
    force now, setting the day of the month to the current one plus [k]
    moves the time value by [k] days. *)
Lemma zoned_setDate_shift (z : Zoned.zone) (t k : Z) :
  Zoned.offsetOfLocal z (Zoned.LocalTime z t + k * JSDate.msPerDay) = Zoned.offsetAt z t ->
  Zoned.setDate z t (Zoned.getDate z t + k) = t + k * JSDate.msPerDay.
Proof.
  intros Hoff. unfold Zoned.setDate, Zoned.getDate. cbv zeta.
  rewrite makeDate_shift. unfold Zoned.UTC. rewrite Hoff. unfold Zoned.LocalTime. lia.
Qed.

(** A zone that keeps one offset gives the accessors of module [JSDate]. *)
Lemma fixed_setDate (tz t dt : Z) :
  Zoned.setDate (Zoned.fixed tz) t dt = JSDate.setDate tz t dt.
Proof.
  unfold Zoned.setDate, JSDate.setDate, Zoned.LocalTime, JSDate.LocalTime, Zoned.UTC,
    JSDate.UTC, Zoned.fixed. cbn [Zoned.offsetAt Zoned.offsetOfLocal].
  reflexivity.
Qed.

Lemma getDay_range (tz t : Z) : 0 <= JSDate.getDay tz t <= 6.
Proof. unfold JSDate.getDay, JSDate.WeekDay. Z.div_mod_to_equations. lia. Qed.

Lemma getDay_shift (tz t k : Z) :
  JSDate.getDay tz (t + k * JSDate.msPerDay) = (JSDate.getDay tz t + k) mod 7.
Proof.
  unfold JSDate.getDay, JSDate.WeekDay, JSDate.LocalTime.
  replace (t + k * JSDate.msPerDay + tz) with (t + tz + k * JSDate.msPerDay) by lia.
  rewrite Day_shift. rewrite Zplus_mod_idemp_l. f_equal. lia.
Qed.

Lemma digit_code (n : Z) :
  nat_of_ascii (JSDate.digit n) = (48 + Z.to_nat (n mod 10))%nat.
Proof.
  unfold JSDate.digit. apply nat_ascii_embedding.
  assert (0 <= n mod 10 < 10) by (apply Z.mod_pos_bound; lia). lia.
Qed.

Lemma digit_inj (a b : Z) : JSDate.digit a = JSDate.digit b -> a mod 10 = b mod 10.
Proof.
  intros H. apply (f_equal nat_of_ascii) in H. rewrite !digit_code in H.
  assert (0 <= a mod 10 < 10) by (apply Z.mod_pos_bound; lia).
  assert (0 <= b mod 10 < 10) by (apply Z.mod_pos_bound; lia). lia.
Qed.

Lemma digit_not_sign (n : Z) (b : bool) :
  JSDate.digit n <> (if b then "-"%char else "+"%char).
Proof.
  intros H. apply (f_equal nat_of_ascii) in H. rewrite digit_code in H.
  destruct b;
    [change (nat_of_ascii "-"%char) with 45%nat in H
    |change (nat_of_ascii "+"%char) with 43%nat in H]; lia.
Qed.

(** The first ten characters of [toISOString] for a four-digit year. *)
Lemma isoDate_four_digits (t : Z) :
  0 <= JSDate.YearFromTime t <= 9999 ->
  JSDate.isoDate t =
  let '(y, m, d) := JSDate.civil_from_days (JSDate.Day t) in
  (JSDate.pad4 y ++ String "-"%char (JSDate.pad2 m ++ String "-"%char (JSDate.pad2 d)))%string.
Proof.
  unfold JSDate.YearFromTime, JSDate.isoDate, JSDate.toISOString. intros H.
  destruct (JSDate.civil_from_days (JSDate.Day t)) as [[y m] d]. simpl in H.
  unfold JSDate.isoYear.
  replace ((0 <=? y) && (y <=? 9999)) with true
    by (symmetry; apply andb_true_iff; split; apply Z.leb_le; lia).
  reflexivity.
Qed.

Lemma isoDate_signed (t : Z) :
  ~ 0 <= JSDate.YearFromTime t <= 9999 ->
  exists (b : bool) (s : string),
    JSDate.isoDate t = String (if b then "-"%char else "+"%char) s.
Proof.
  unfold JSDate.YearFromTime, JSDate.isoDate, JSDate.toISOString. intros H.
  destruct (JSDate.civil_from_days (JSDate.Day t)) as [[y m] d]. simpl in H.
  unfold JSDate.isoYear.
  replace ((0 <=? y) && (y <=? 9999)) with false
    by (symmetry; apply andb_false_iff;
        destruct (Z.leb_spec 0 y); [right; apply Z.leb_gt; lia | now left]).
  exists (y <? 0). eexists. reflexivity.
Qed.

(** Within the four-digit years the date part of [toISOString] tells the
    days apart. *)
Lemma isoDate_inj (t1 t2 : Z) :
  0 <= JSDate.YearFromTime t1 <= 9999 ->
  JSDate.isoDate t1 = JSDate.isoDate t2 ->
  JSDate.Day t1 = JSDate.Day t2.
Proof.
  intros H1 Heq.
  destruct (Z_le_dec 0 (JSDate.YearFromTime t2)) as [Hlo|Hlo];
    [destruct (Z_le_dec (JSDate.YearFromTime t2) 9999) as [Hhi|Hhi]|].
  - rewrite (isoDate_four_digits t1 H1), (isoDate_four_digits t2 (conj Hlo Hhi)) in Heq.
    apply civil_inj.
    pose proof (civil_bounds (JSDate.Day t1)) as B1.
    pose proof (civil_bounds (JSDate.Day t2)) as B2.
    unfold JSDate.YearFromTime in H1, Hlo, Hhi.
    destruct (JSDate.civil_from_days (JSDate.Day t1)) as [[y1 m1] d1].
    destruct (JSDate.civil_from_days (JSDate.Day t2)) as [[y2 m2] d2].
    simpl in H1, Hlo, Hhi.
    unfold JSDate.pad4, JSDate.pad3, JSDate.pad2 in Heq. simpl in Heq.
    injection Heq as E1 E2 E3 E4 E5 E6 E7 E8.
    apply digit_inj in E1, E2, E3, E4, E5, E6, E7, E8.
    assert (y1 = y2) by (Z.div_mod_to_equations; lia).
    assert (m1 = m2) by (Z.div_mod_to_equations; lia).
    assert (d1 = d2) by (Z.div_mod_to_equations; lia).
    congruence.
  - exfalso. destruct (isoDate_signed t2) as [b [s Hs]]; [lia|].
    rewrite (isoDate_four_digits t1 H1), Hs in Heq.
    destruct (JSDate.civil_from_days (JSDate.Day t1)) as [[y1 m1] d1].
    unfold JSDate.pad4 in Heq. simpl in Heq. injection Heq as E _.
    exact (digit_not_sign _ _ E).
  - exfalso. destruct (isoDate_signed t2) as [b [s Hs]]; [lia|].
    rewrite (isoDate_four_digits t1 H1), Hs in Heq.
    destruct (JSDate.civil_from_days (JSDate.Day t1)) as [[y1 m1] d1].
    unfold JSDate.pad4 in Heq. simpl in Heq. injection Heq as E _.
    exact (digit_not_sign _ _ E).
Qed.

Lemma isoDate_Day (t1 t2 : Z) :
  JSDate.Day t1 = JSDate.Day t2 -> JSDate.isoDate t1 = JSDate.isoDate t2.
Proof.
  intros H. unfold JSDate.isoDate, JSDate.toISOString. rewrite H.
  destruct (JSDate.civil_from_days (JSDate.Day t2)) as [[y m] d].
  unfold JSDate.isoYear.
  destruct ((0 <=? y) && (y <=? 9999)); reflexivity.
Qed.

(** ** GET /api/calendar-data: the grid *)

Lemma mapM_defined {A B : Type} (f : A -> option B) (l : list A) :
  Forall (fun x => exists y, f x = Some y) l -> exists ys, JS.mapM f l = Some ys.
Proof.
  induction 1 as [|x l [y Hy] _ [ys IH]]; simpl.
  - now exists [].
  - rewrite Hy, IH. now exists (y :: ys).
Qed.

Lemma mapM_Forall2 {A B : Type} (f : A -> option B) (P : A -> B -> Prop) (l : list A) :
  (forall x, In x l -> exists y, f x = Some y /\ P x y) ->
  exists ys, JS.mapM f l = Some ys /\ Forall2 P l ys.
Proof.
  induction l as [|x l IH]; intros H; simpl.
  - exists []. split; [reflexivity | constructor].
  - destruct (H x (or_introl eq_refl)) as [y [Hy HP]].
    destruct IH as [ys [Hys HF]]; [intros z Hz; apply H; now right|].
    rewrite Hy, Hys. exists (y :: ys). split; [reflexivity | now constructor].
Qed.

Section CalendarGrid.

Variables (tz today : Z).

(** The cells hold consecutive days, from the Sunday of today's week on. *)
Lemma currentDate_shift (week day : nat) :
  Calendar.currentDate tz today week day =
  today + (Z.of_nat day + 7 * Z.of_nat week - JSDate.getDay tz today) * JSDate.msPerDay.
Proof.
  unfold Calendar.currentDate.
  replace (JSDate.getDate tz today - JSDate.getDay tz today + Z.of_nat day + Z.of_nat week * 7)
    with (JSDate.getDate tz today
          + (Z.of_nat day + 7 * Z.of_nat week - JSDate.getDay tz today)) by lia.
  apply setDate_shift.
Qed.

Hypothesis four_digit_year : 0 <= JSDate.YearFromTime today <= 9999.

Lemma isToday_eqb (week day : nat) :
  String.eqb (JSDate.isoDate (Calendar.currentDate tz today week day)) (JSDate.isoDate today)
  = (Z.of_nat day + 7 * Z.of_nat week =? JSDate.getDay tz today).
Proof.
  rewrite currentDate_shift.
  destruct (Z.eqb_spec (Z.of_nat day + 7 * Z.of_nat week) (JSDate.getDay tz today)) as [E|E].
  - rewrite E, Z.sub_diag, Z.mul_0_l, Z.add_0_r. apply String.eqb_refl.
  - apply String.eqb_neq. intros H. symmetry in H.
    apply (isoDate_inj _ _ four_digit_year) in H. rewrite Day_shift in H. lia.
Qed.

Lemma cellOf_defined (events : list Calendar.event) (week day : nat) :
  Forall (fun e => exists s, Calendar.type e = JS.VString s) events ->
  exists c, Calendar.cellOf tz today events week day = Some c /\
    Calendar.c_date c = JSDate.getDate tz (Calendar.currentDate tz today week day) /\
    Calendar.isToday c = (Z.of_nat day + 7 * Z.of_nat week =? JSDate.getDay tz today).
Proof.
  intros Htyped. unfold Calendar.cellOf. cbv zeta.
  destruct (mapM_defined Calendar.dayEventOf
              (filter (fun event =>
                         JS.strict_eq (Calendar.date event)
                           (JS.VString (JSDate.isoDate (Calendar.currentDate tz today week day))))
                      events)) as [dayEvents Hd].
  - apply Forall_forall. intros e He. apply filter_In in He. destruct He as [He _].
    rewrite Forall_forall in Htyped. destruct (Htyped e He) as [s Hs].
    unfold Calendar.dayEventOf. rewrite Hs. eexists. reflexivity.
  - rewrite Hd. eexists. split; [reflexivity|].
    split; [reflexivity | apply isToday_eqb].
Qed.

Lemma calendarData_defined (events : list Calendar.event) :
  Forall (fun e => exists s, Calendar.type e = JS.VString s) events ->
  exists grid,
    Calendar.calendarData tz today events = Some grid /\
    Forall2 (fun week cells =>
               Forall2 (fun day c =>
                          Calendar.c_date c
                            = JSDate.getDate tz (Calendar.currentDate tz today week day) /\
                          Calendar.isToday c
                            = (Z.of_nat day + 7 * Z.of_nat week =? JSDate.getDay tz today))
                       (seq 0 7) cells)
            (seq 0 5) grid.
Proof.
  intros Htyped. unfold Calendar.calendarData.
  apply (mapM_Forall2 _ (fun week cells =>
               Forall2 (fun day c =>
                          Calendar.c_date c
                            = JSDate.getDate tz (Calendar.currentDate tz today week day) /\
                          Calendar.isToday c
                            = (Z.of_nat day + 7 * Z.of_nat week =? JSDate.getDay tz today))
                       (seq 0 7) cells)).
  intros week _.
  apply (mapM_Forall2 _ (fun day c =>
                          Calendar.c_date c
                            = JSDate.getDate tz (Calendar.currentDate tz today week day) /\
                          Calendar.isToday c
                            = (Z.of_nat day + 7 * Z.of_nat week =? JSDate.getDay tz today))).
  intros day _. now apply cellOf_defined.
Qed.

End CalendarGrid.

Lemma getDay_sunday (tz today : Z) :
  JSDate.getDay tz (Calendar.currentDate tz today 0 0) = 0.
Proof.
  rewrite currentDate_shift, getDay_shift.
  pose proof (getDay_range tz today). simpl Z.of_nat.
  replace (JSDate.getDay tz today + (0 + 7 * 0 - JSDate.getDay tz today)) with 0 by lia.
  reflexivity.
Qed.


Ltac bool_cases :=
  repeat match goal with
         | |- context [(?a <=? ?b)%Z] => destruct (Z.leb_spec a b)
         | |- context [(?a <? ?b)%Z] => destruct (Z.ltb_spec a b)
         | |- context [(?a =? ?b)%Z] => destruct (Z.eqb_spec a b)
         end;
  simpl; try reflexivity; try lia.

(** Cells that compare their position with [wd]: at most the one at
    position [wd] is marked. *)
Lemma marked_count {A : Type} (mark : A -> bool) (wd : Z) (n s : nat) (xs : list A) :
  Forall2 (fun i x => mark x = (Z.of_nat i =? wd)) (seq s n) xs ->
  List.length (filter mark xs) =
  if (Z.of_nat s <=? wd) && (wd <? Z.of_nat s + Z.of_nat n) then 1%nat else 0%nat.
Proof.
  revert s xs. induction n as [|n IH]; intros s xs H;
    [change (seq s 0) with (@nil nat) in H
    |change (seq s (S n)) with (s :: seq (S s) n) in H].
  - inversion H; subst. simpl filter. simpl List.length. bool_cases.
  - inversion H as [|i x rest xs' Hx Hrest]; subst. simpl filter. rewrite Hx.
    specialize (IH (S s) xs' Hrest).
    destruct (Z.eqb_spec (Z.of_nat s) wd) as [E|E]; simpl List.length; rewrite IH;
      bool_cases.
Qed.

Lemma filter_concat {A : Type} (p : A -> bool) (ls : list (list A)) :
  filter p (List.concat ls) = List.concat (map (filter p) ls).
Proof.
  induction ls as [|l ls IH]; simpl; [reflexivity|].
  now rewrite filter_app, IH.
Qed.

(** Weeks of seven cells each: one cell of the grid is marked when [wd]
    lies in the first week. *)
Lemma marked_weeks (mark : Calendar.cell -> bool) (wd : Z) (n s : nat)
    (grid : list (list Calendar.cell)) :
  0 <= wd <= 6 ->
  Forall2 (fun week cells =>
             Forall2 (fun day c => mark c = (Z.of_nat day + 7 * Z.of_nat week =? wd))
                     (seq 0 7) cells)
          (seq s n) grid ->
  List.length (filter mark (List.concat grid)) =
  if (Nat.eqb s 0 && negb (Nat.eqb n 0))%bool then 1%nat else 0%nat.
Proof.
  intros Hwd. revert s grid. induction n as [|n IH]; intros s grid H;
    [change (seq s 0) with (@nil nat) in H
    |change (seq s (S n)) with (s :: seq (S s) n) in H].
  - inversion H; subst. simpl. now rewrite andb_false_r.
  - inversion H as [|week cells ws grid' Hweek Hrest]; subst.
    simpl List.concat. rewrite filter_app, length_app, (IH (S s) grid' Hrest).
    assert (Hc : Forall2 (fun i c => mark c = (Z.of_nat i =? wd - 7 * Z.of_nat s))
                         (seq 0 7) cells).
    { eapply Forall2_impl; [|exact Hweek]. intros day c Hm. cbv beta in Hm. rewrite Hm.
      bool_cases. }
    rewrite (marked_count mark _ 7 0 cells Hc).
    destruct s as [|s]; cbn [Nat.eqb negb andb]; bool_cases.
Qed.

Lemma Forall2_seq_nth {A : Type} (P : nat -> A -> Prop) (n s i : nat) (ys : list A) (y : A) :
  Forall2 P (seq s n) ys -> nth_error ys i = Some y -> P (s + i)%nat y.
Proof.
  revert s i ys. induction n as [|n IH]; intros s i ys H Hi;
    [change (seq s 0) with (@nil nat) in H
    |change (seq s (S n)) with (s :: seq (S s) n) in H].
  - inversion H; subst. destruct i; discriminate.
  - inversion H as [|? x ? ys' Hx Hrest]; subst. destruct i as [|i]; simpl in Hi.
    + injection Hi as <-. now rewrite Nat.add_0_r.
    + rewrite <- Nat.add_succ_comm. now apply (IH (S s) i ys').
Qed.

(** An event row without a type cell that falls on a displayed day makes
    the handler throw: no grid is returned. *)
Example calendar_untyped_event_throws :
  Calendar.calendarData 19800000 1793613600000
    [Calendar.mapEvent ["E1"; "2026-11-02"; "Exam"]] = None.
Proof. vm_compute. reflexivity. Qed.

(** On a server whose zone keeps one offset all year, for a clock value
    [today] in a four-digit year and events that all have a type cell,
    the calendar grid is built and has 5 weeks of 7 cells; the cells hold
    consecutive days; the cell at week 0, day 0 is the Sunday on or
    before today (today minus today's weekday, Sunday being 0); a cell is
    marked [isToday] exactly when its date string equals today's, which
    is the cell of week 0 at today's weekday; and exactly one of the 35
    cells is marked. *)
Theorem calendar_grid_shape (tz today : Z) (events : list Calendar.event) :
  0 <= JSDate.YearFromTime today <= 9999 ->
  Forall (fun e => exists s, Calendar.type e = JS.VString s) events ->
  exists grid,
    Calendar.calendarData tz today events = Some grid /\
    List.length grid = 5%nat /\
    Forall (fun week => List.length week = 7%nat) grid /\
    Calendar.currentDate tz today 0 0 = today - JSDate.getDay tz today * JSDate.msPerDay /\
    0 <= JSDate.getDay tz today <= 6 /\
    JSDate.getDay tz (Calendar.currentDate tz today 0 0) = 0 /\
    (forall week day cells c,
       nth_error grid week = Some cells -> nth_error cells day = Some c ->
       Calendar.c_date c = JSDate.getDate tz (Calendar.currentDate tz today week day) /\
       (Calendar.isToday c = true <->
        JSDate.isoDate (Calendar.currentDate tz today week day) = JSDate.isoDate today) /\
       (Calendar.isToday c = true <->
        week = 0%nat /\ Z.of_nat day = JSDate.getDay tz today)) /\
    List.length (filter Calendar.isToday (List.concat grid)) = 1%nat.
Proof.
  intros Hyear Htyped.
  destruct (calendarData_defined tz today Hyear events Htyped) as [grid [Hgrid Hspec]].
  pose proof (getDay_range tz today) as Hwd.
  exists grid. split; [exact Hgrid|]. split; [|split; [|split; [|split; [|split; [|split]]]]].
  - apply Forall2_length in Hspec. now rewrite length_seq in Hspec.
  - apply Forall_forall. intros cells Hin. apply In_nth_error in Hin. destruct Hin as [w Hw].
    pose proof (Forall2_seq_nth _ _ _ _ _ _ Hspec Hw) as Hcells.
    apply Forall2_length in Hcells. now rewrite length_seq in Hcells.
  - rewrite currentDate_shift. unfold JSDate.msPerDay. lia.
  - exact Hwd.
  - apply getDay_sunday.
  - intros week day cells c Hw Hd.
    pose proof (Forall2_seq_nth _ _ _ _ _ _ Hspec Hw) as Hcells.
    destruct (Forall2_seq_nth _ _ _ _ _ _ Hcells Hd) as [Hdate Htoday].
    simpl Nat.add in Hdate, Htoday.
    assert (Hlt : (day < 7)%nat).
    { apply Forall2_length in Hcells. rewrite length_seq in Hcells.
      rewrite Hcells. apply nth_error_Some. congruence. }
    split; [exact Hdate|]. split.
    + rewrite <- String.eqb_eq, (isToday_eqb tz today Hyear), Htoday. reflexivity.
    + rewrite Htoday, Z.eqb_eq. lia.
  - apply (marked_weeks Calendar.isToday (JSDate.getDay tz today) 5 0 grid Hwd).
    eapply Forall2_impl; [|exact Hspec]. intros week cells Hcells.
    eapply Forall2_impl; [|exact Hcells]. intros day c [_ H]. exact H.
Qed.

Lemma calendar_grid_shape_witness :
  exists grid,
    Calendar.calendarData 19800000 1793613600000
      [Calendar.mapEvent ["E1"; "2026-11-02"; "Exam"; "Test"]] = Some grid /\
    List.length grid = 5%nat /\
    List.length (filter Calendar.isToday (List.concat grid)) = 1%nat.
Proof.
  destruct (calendar_grid_shape 19800000 1793613600000
              [Calendar.mapEvent ["E1"; "2026-11-02"; "Exam"; "Test"]])
    as [grid [Hgrid [Hlen [_ [_ [_ [_ [_ Hone]]]]]]]].
  - split; vm_compute; discriminate.
  - repeat constructor. eexists. reflexivity.
  - exists grid. repeat split; assumption.
Defined.

Lemma fixed_currentDate (tz today : Z) (week day : nat) :
  Zoned.currentDate (Zoned.fixed tz) today week day = Calendar.currentDate tz today week day.
Proof.
  unfold Zoned.currentDate, Calendar.currentDate. rewrite fixed_setDate.
  unfold Zoned.getDate, JSDate.getDate, Zoned.getDay, JSDate.getDay, Zoned.LocalTime,
    JSDate.LocalTime, Zoned.fixed. cbn [Zoned.offsetAt]. reflexivity.
Qed.

Lemma mapM_ext {A B : Type} (f g : A -> option B) (l : list A) :
  (forall x, f x = g x) -> JS.mapM f l = JS.mapM g l.
Proof.
  intros H. induction l as [|x l IH]; cbn [JS.mapM]; [reflexivity|].
  now rewrite H, IH.
Qed.

Lemma fixed_cellOf (tz today : Z) (events : list Calendar.event) (week day : nat) :
  Zoned.cellOf (Zoned.fixed tz) today events week day
  = Calendar.cellOf tz today events week day.
Proof.
  unfold Zoned.cellOf, Calendar.cellOf. rewrite fixed_currentDate.
  unfold Zoned.getDate, JSDate.getDate, Zoned.getMonth, JSDate.getMonth, Zoned.LocalTime,
    JSDate.LocalTime, Zoned.fixed. cbn [Zoned.offsetAt]. reflexivity.
Qed.

(** A zone that keeps one offset gives the grid of module [Calendar]. *)
Lemma fixed_calendarData (tz today : Z) (events : list Calendar.event) :
  Zoned.calendarData (Zoned.fixed tz) today events = Calendar.calendarData tz today events.
Proof.
  unfold Zoned.calendarData, Calendar.calendarData.
  apply mapM_ext. intros week. apply mapM_ext. intros day. apply fixed_cellOf.
Qed.

(** C5 (the code departs from the claim): on a server in the zone
    America/New_York, at 2026-03-08T00:30Z, which is Saturday 7 March,
    19:30 local time, the evening before the clocks go forward, the grid
    is built with 5 weeks of 7 cells, and two of its cells are marked
    [isToday]: the cell of Saturday 7 March (week 0, day 6) and the cell
    of Sunday 8 March (week 1, day 0).  [setDate] keeps the local time of
    day, 19:30, which is 00:30Z of the next day before the change and
    23:30Z of the same day after it: both cells print 2026-03-08, the
    date string of today. *)
Theorem calendar_two_cells_today :
  let today := 1772929800000 in
  let f := false in
  let t := true in
  JSDate.toISOString today = "2026-03-08T00:30:00.000Z" /\
  Zoned.getDate Zoned.newYork2026 today = 7 /\
  Zoned.getDay Zoned.newYork2026 today = 6 /\
  JSDate.toISOString (Zoned.currentDate Zoned.newYork2026 today 0 6)
  = "2026-03-08T00:30:00.000Z" /\
  JSDate.toISOString (Zoned.currentDate Zoned.newYork2026 today 1 0)
  = "2026-03-08T23:30:00.000Z" /\
  exists grid,
    Zoned.calendarData Zoned.newYork2026 today [] = Some grid /\
    map (map Calendar.c_date) grid
    = [ [1; 2; 3; 4; 5; 6; 7]; [8; 9; 10; 11; 12; 13; 14]; [15; 16; 17; 18; 19; 20; 21];
        [22; 23; 24; 25; 26; 27; 28]; [29; 30; 31; 1; 2; 3; 4] ] /\
    map (map Calendar.isToday) grid
    = [ [f; f; f; f; f; f; t]; [t; f; f; f; f; f; f]; [f; f; f; f; f; f; f];
        [f; f; f; f; f; f; f]; [f; f; f; f; f; f; f] ] /\
    List.length (filter Calendar.isToday (List.concat grid)) = 2%nat.
Proof.
  cbv zeta. repeat (split; [vm_compute; reflexivity|]).
  eexists. split; [vm_compute; reflexivity|]. repeat split.
Qed.
(** * Further properties of the handlers *)

(** ** Delimited cells: [cell ? cell.split(',').map(s => s.trim()) : []] *)

Lemma split_comma_length (s : string) :
  List.length (JS.split_comma s) = S (Text.commas s).
Proof.
  induction s as [|c s IH]; simpl; [reflexivity|].
  destruct (Ascii.eqb c ","%char); simpl.
  - now rewrite IH.
  - destruct (JS.split_comma s) as [|h t]; simpl in *; [discriminate | exact IH].
Qed.

Lemma split_comma_join (s : string) : String.concat "," (JS.split_comma s) = s.
Proof.
  induction s as [|c s IH]; simpl; [reflexivity|].
  pose proof (split_comma_length s) as Hlen.
  destruct (Ascii.eqb_spec c ","%char) as [->|Hc].
  - destruct (JS.split_comma s) as [|h t]; [discriminate|].
    change (String.concat "," (EmptyString :: h :: t))
      with (String ","%char (String.concat "," (h :: t))).
    now rewrite IH.
  - destruct (JS.split_comma s) as [|h t]; [discriminate|].
    destruct t as [|h' t]; simpl in *; now rewrite IH.
Qed.

(** Each white space sequence has one, two or three bytes. *)
Lemma whiteSpace_cases (w : string) :
  In w JS.whiteSpace ->
  (exists a, w = String a EmptyString) \/
  (exists a b, w = String a (String b EmptyString)) \/
  (exists a b c, w = String a (String b (String c EmptyString))).
Proof.
  intros H. unfold JS.whiteSpace in H. cbn [map] in H.
  repeat (destruct H as [<- | H];
          [vm_compute; first [left; eexists; reflexivity
                             |right; left; do 2 eexists; reflexivity
                             |right; right; do 3 eexists; reflexivity]|]).
  contradiction.
Qed.

Lemma is_space_In (w : string) : JS.is_space w = true <-> In w JS.whiteSpace.
Proof.
  unfold JS.is_space. rewrite existsb_exists. split.
  - intros [x [Hx He]]. apply String.eqb_eq in He. now subst.
  - intros H. exists w. split; [exact H | apply String.eqb_refl].
Qed.

Lemma trim_start_no_space (s : string) : ~ Text.starts_with_space (JS.trim_start s).
Proof.
  remember (String.length s) as n eqn:Hn. revert s Hn.
  induction n as [n IH] using lt_wf_ind. intros s Hn [w [rest [Hw Heq]]].
  assert (Hrec : forall s', (String.length s' < n)%nat ->
                 ~ Text.starts_with_space (JS.trim_start s'))
    by (intros s' Hlt; exact (IH _ Hlt s' eq_refl)).
  destruct s as [|c1 s1]; cbn [JS.trim_start] in Heq.
  - destruct (whiteSpace_cases w Hw) as [[a ->] | [[a [b ->]] | [a [b [c ->]]]]]; discriminate.
  - destruct (JS.is_space (String c1 EmptyString)) eqn:E1.
    { apply (Hrec s1); [subst n; simpl; lia|]. now exists w, rest. }
    destruct s1 as [|c2 s2].
    { destruct (whiteSpace_cases w Hw) as [[a ->] | [[a [b ->]] | [a [b [c ->]]]]];
        try discriminate.
      simpl in Heq. injection Heq as -> _. apply is_space_In in Hw. congruence. }
    destruct (JS.is_space (String c1 (String c2 EmptyString))) eqn:E2.
    { apply (Hrec s2); [subst n; simpl; lia|]. now exists w, rest. }
    destruct s2 as [|c3 s3].
    { destruct (whiteSpace_cases w Hw) as [[a ->] | [[a [b ->]] | [a [b [c ->]]]]];
        try discriminate; simpl in Heq.
      - injection Heq as -> _. apply is_space_In in Hw. congruence.
      - injection Heq as -> -> _. apply is_space_In in Hw. congruence. }
    destruct (JS.is_space (String c1 (String c2 (String c3 EmptyString)))) eqn:E3.
    { apply (Hrec s3); [subst n; simpl; lia|]. now exists w, rest. }
    destruct (whiteSpace_cases w Hw) as [[a ->] | [[a [b ->]] | [a [b [c ->]]]]];
      simpl in Heq.
    + injection Heq as -> _. apply is_space_In in Hw. congruence.
    + injection Heq as -> -> _. apply is_space_In in Hw. congruence.
    + injection Heq as -> -> -> _. apply is_space_In in Hw. congruence.
Qed.

Lemma all_space_app (w r : string) :
  In w JS.whiteSpace -> JS.all_space (w ++ r) = JS.all_space r.
Proof.
  intros H. unfold JS.whiteSpace in H. cbn [map] in H.
  repeat (destruct H as [<- | H]; [reflexivity|]). contradiction.
Qed.

Lemma trim_end_prefix (s : string) :
  exists r, s = (JS.trim_end s ++ r)%string /\ JS.all_space r = true.
Proof.
  induction s as [|c s IH].
  - exists EmptyString. split; reflexivity.
  - cbn [JS.trim_end]. destruct (JS.all_space (String c s)) eqn:E.
    + exists (String c s). split; [reflexivity | exact E].
    + destruct IH as [r [Hr Ha]]. exists r. split; [|exact Ha].
      simpl. now rewrite <- Hr.
Qed.

Lemma trim_end_no_space (s : string) : ~ Text.ends_with_space (JS.trim_end s).
Proof.
  induction s as [|c s IH]; intros [w [pre [Hw Heq]]].
  - simpl in Heq. destruct pre as [|p0 pre]; simpl in Heq;
      destruct (whiteSpace_cases w Hw) as [[x ->] | [[x [y ->]] | [x [y [z ->]]]]]; discriminate.
  - cbn [JS.trim_end] in Heq. destruct (JS.all_space (String c s)) eqn:E.
    + destruct pre as [|p0 pre]; simpl in Heq;
        destruct (whiteSpace_cases w Hw) as [[x ->] | [[x [y ->]] | [x [y [z ->]]]]]; discriminate.
    + destruct pre as [|c' pre]; simpl in Heq.
      * destruct (trim_end_prefix s) as [r [Hr Ha]].
        assert (Hs : String c s = (w ++ r)%string).
        { rewrite <- Heq. simpl. now rewrite <- Hr. }
        rewrite Hs, all_space_app in E by exact Hw. congruence.
      * injection Heq as _ Heq. apply IH. now exists w, pre.
Qed.

Lemma append_assoc (a b c : string) : ((a ++ b) ++ c = a ++ (b ++ c))%string.
Proof. induction a as [|x a IH]; simpl; [reflexivity | now rewrite IH]. Qed.

(** [trim] leaves neither leading nor trailing white space. *)
Lemma trim_no_space (s : string) :
  ~ Text.starts_with_space (JS.trim s) /\ ~ Text.ends_with_space (JS.trim s).
Proof.
  unfold JS.trim. split; [|apply trim_end_no_space].
  intros [w [rest [Hw Heq]]].
  destruct (trim_end_prefix (JS.trim_start s)) as [r [Hr _]].
  apply (trim_start_no_space s). exists w, (rest ++ r)%string. split; [exact Hw|].
  rewrite Hr at 1. rewrite Heq. apply append_assoc.
Qed.

(** X1: A delimited cell yields the empty list exactly when it is missing or
    empty; otherwise it yields one more segment than it has commas, and
    no segment starts or ends with a white space code point. *)
Theorem split_list_shape (cell : JS.value) :
  (JS.split_list cell = [] <-> JS.truthy cell = false) /\
  (forall s, cell = JS.VString s -> s <> "" ->
             List.length (JS.split_list cell) = S (Text.commas s)) /\
  Forall (fun x => ~ Text.starts_with_space x /\ ~ Text.ends_with_space x)
         (JS.split_list cell).
Proof.
  destruct cell as [| |s]; simpl.
  - repeat split; auto; discriminate.
  - repeat split; auto; discriminate.
  - destruct (String.eqb_spec s "") as [->|Hs]; simpl.
    + repeat split; auto. intros s [= <-] H. now elim H.
    + split; [|split].
      * pose proof (split_comma_length s) as Hlen.
        split; [|discriminate]. intros H. rewrite <- (length_map JS.trim), H in Hlen.
        discriminate.
      * intros s' [= <-] _. now rewrite length_map, split_comma_length.
      * apply Forall_forall. intros x Hx. apply in_map_iff in Hx.
        destruct Hx as [y [<- _]]. apply trim_no_space.
Qed.

(** ** Lookups by key *)

Lemma find_first {A : Type} (p : A -> bool) (l : list A) (x : A) :
  find p l = Some x <->
  exists l1 l2, l = l1 ++ x :: l2 /\ p x = true /\ forall y, In y l1 -> p y = false.
Proof.
  split.
  - induction l as [|a l IH]; simpl; [discriminate|].
    destruct (p a) eqn:E.
    + intros [= <-]. exists [], l. repeat split; auto. intros y [].
    + intros H. destruct (IH H) as [l1 [l2 [-> [Hp Hbefore]]]].
      exists (a :: l1), l2. repeat split; auto.
      intros y [<- | Hy]; auto.
  - intros [l1 [l2 [-> [Hp Hbefore]]]].
    induction l1 as [|a l1 IH]; simpl.
    + now rewrite Hp.
    + rewrite (Hbefore a (or_introl eq_refl)). apply IH.
      intros y Hy. apply Hbefore. now right.
Qed.

(** X2: POST /api/auth answers 400 exactly when the id is missing or empty,
    200 exactly when the id is non-empty and some row of the table (the
    header row included) starts with it, and 401 otherwise; a token is
    issued exactly with status 200. *)
Theorem auth_status_cases (rows : JS.table) (employeeId : JS.value) (now : Z) :
  let r := Auth.auth rows employeeId now in
  (Auth.status r = 400%nat <-> JS.truthy employeeId = false) /\
  (Auth.status r = 200%nat <->
   JS.truthy employeeId = true /\ exists row, In row rows /\ JS.idx row 0 = employeeId) /\
  (Auth.status r = 400%nat \/ Auth.status r = 401%nat \/ Auth.status r = 200%nat) /\
  (Auth.success r = true <-> Auth.status r = 200%nat) /\
  (Auth.token r <> JS.VUndefined <-> Auth.status r = 200%nat).
Proof.
  unfold Auth.auth. destruct (JS.truthy employeeId) eqn:Et; simpl.
  - destruct (find _ rows) as [row|] eqn:Ef; simpl.
    + apply find_some in Ef. destruct Ef as [Hin Heq]. apply strict_eq_iff in Heq.
      repeat split; auto; try discriminate.
      exists row. now split.
    + repeat split; auto; try discriminate.
      * intros [_ [row [Hin Heq]]]. apply (find_none _ _ Ef) in Hin.
        apply strict_eq_false_iff in Hin. contradiction.
      * intros H. now elim H.
  - repeat split; auto; try discriminate.
    + intros [H _]. discriminate.
    + intros H. now elim H.
Qed.

(** X3: GET /api/teacher-data with an id answers 404 exactly when no data row
    (the header row being skipped) starts with the id; otherwise it
    answers with the first such row in table order, whose [id] is the
    requested one and whose [department] is never missing. *)
Theorem teacher_lookup (rows : JS.table) (employeeId : JS.value) :
  JS.truthy employeeId = true ->
  (TeacherData.teacherData rows employeeId = TeacherData.NotFound <->
   forall row, In row (JS.slice1 rows) -> JS.idx row 0 <> employeeId) /\
  TeacherData.teacherData rows employeeId <> TeacherData.ServerError /\
  (forall t, TeacherData.teacherData rows employeeId = TeacherData.Found t ->
     exists before teacher after,
       JS.slice1 rows = before ++ teacher :: after /\
       (forall row, In row before -> JS.idx row 0 <> employeeId) /\
       t = TeacherData.teacherOf teacher /\
       TeacherData.id t = employeeId /\
       JS.truthy (TeacherData.department t) = true).
Proof.
  intros Ht. unfold TeacherData.teacherData. rewrite Ht.
  destruct (find _ (JS.slice1 rows)) as [teacher|] eqn:Ef.
  - split; [|split].
    + split; [discriminate|]. intros H. apply find_some in Ef. destruct Ef as [Hin Heq].
      apply strict_eq_iff in Heq. now elim (H teacher Hin).
    + discriminate.
    + intros t [= <-]. apply find_first in Ef.
      destruct Ef as [before [after [Hsplit [Hp Hbefore]]]].
      exists before, teacher, after. repeat split; auto.
      * intros row Hrow. now apply strict_eq_false_iff, Hbefore.
      * now apply strict_eq_iff.
      * simpl. unfold JS.or_.
        destruct (JS.truthy (JS.idx teacher 4)) eqn:E; [exact E | reflexivity].
  - split; [|split].
    + split; [|reflexivity]. intros _ row Hin.
      now apply strict_eq_false_iff, (find_none _ _ Ef).
    + discriminate.
    + discriminate.
Qed.

Lemma teacher_lookup_witness :
  let rows := [["Id"; "Name"]; ["T1"; "Asha"; "Maths"; "X-A"]; ["T1"; "Ravi"]] in
  TeacherData.teacherData rows (JS.VString "T1") <> TeacherData.ServerError.
Proof.
  intros rows. apply (teacher_lookup rows (JS.VString "T1")). reflexivity.
Defined.

(** X4: GET /api/teacher-data without an id fails with status 500 exactly
    when the table has fewer than two rows, and otherwise answers with the
    first data row, whatever it holds; it never answers 404. *)
Theorem teacher_default_row (rows : JS.table) (employeeId : JS.value) :
  JS.truthy employeeId = false ->
  (TeacherData.teacherData rows employeeId = TeacherData.ServerError <->
   (List.length rows < 2)%nat) /\
  TeacherData.teacherData rows employeeId <> TeacherData.NotFound /\
  (forall header first rest, rows = header :: first :: rest ->
     TeacherData.teacherData rows employeeId = TeacherData.Found (TeacherData.teacherOf first)).
Proof.
  intros Ht. unfold TeacherData.teacherData. rewrite Ht.
  destruct rows as [|header [|first rest]]; simpl; repeat split;
    try discriminate; try reflexivity; try lia; auto.
  intros header' first' rest' [= -> -> ->]. reflexivity.
Qed.

Lemma teacher_default_row_witness :
  TeacherData.teacherData [["Id"; "Name"]] JS.VUndefined = TeacherData.ServerError <->
  (List.length [["Id"; "Name"]] < 2)%nat.
Proof.
  apply (teacher_default_row [["Id"; "Name"]] JS.VUndefined). reflexivity.
Defined.

(** X5: GET /api/student-details/:id answers 404 exactly when no data row of
    the Students table starts with the id; otherwise the reply is built
    from the first such row, its [rollNo] is the id, and every discipline
    record of the reply has an action, 'Verbal Warning' when the row has
    none. *)
Theorem student_details_lookup
    (studentRows performanceRows disciplineRows achievementsRows : JS.table)
    (studentId : string) :
  let reply := StudentDetails.studentDetails studentRows performanceRows disciplineRows
                 achievementsRows studentId in
  (reply = StudentDetails.NotFound <->
   forall row, In row (JS.slice1 studentRows) -> JS.idx row 0 <> JS.VString studentId) /\
  (forall d, reply = StudentDetails.Found d ->
     StudentDetails.rollNo d = JS.VString studentId /\
     (exists before student after,
        JS.slice1 studentRows = before ++ student :: after /\
        (forall row, In row before -> JS.idx row 0 <> JS.VString studentId) /\
        StudentDetails.name d = JS.idx student 1) /\
     JS.truthy (StudentDetails.class d) = true /\
     JS.truthy (StudentDetails.performanceReport d) = true /\
     Forall (fun r => JS.truthy (StudentDetails.d_action r) = true)
            (StudentDetails.disciplineRecords d)).
Proof.
  cbv zeta. unfold StudentDetails.studentDetails, StudentDetails.findStudent.
  destruct (find _ (JS.slice1 studentRows)) as [student|] eqn:Ef.
  - split.
    + split; [discriminate|]. intros H. apply find_some in Ef. destruct Ef as [Hin Heq].
      apply strict_eq_iff in Heq. now elim (H student Hin).
    + intros d [= <-]. simpl. apply find_first in Ef.
      destruct Ef as [before [after [Hsplit [Hp Hbefore]]]].
      split; [now apply strict_eq_iff|]. split; [|split; [|split]].
      * exists before, student, after. repeat split; auto.
        intros row Hrow. now apply strict_eq_false_iff, Hbefore.
      * unfold JS.or_. destruct (JS.truthy (JS.idx student 6)) eqn:E; [exact E | reflexivity].
      * unfold JS.or_.
        match goal with |- JS.truthy (if JS.truthy ?x then _ else _) = true =>
          destruct (JS.truthy x) eqn:E; [exact E | reflexivity] end.
      * unfold StudentDetails.disciplineRecordsOf. apply Forall_forall. intros r Hr.
        apply in_map_iff in Hr. destruct Hr as [row [<- _]]. simpl. unfold JS.or_.
        destruct (JS.truthy (JS.idx row 5)) eqn:E; [exact E | reflexivity].
  - split; [|discriminate]. split; [|reflexivity]. intros _ row Hin.
    now apply strict_eq_false_iff, (find_none _ _ Ef).
Qed.

(** ** Counts of dashboard-data, categories-data and performance-data *)

Lemma two_labels_le (rows : list JS.row) (col : nat) (l1 l2 : string) :
  l1 <> l2 ->
  (Count.countWhere rows col l1 + Count.countWhere rows col l2 <= List.length rows)%nat.
Proof.
  intros Hne.
  assert (Hnd : NoDup [l1; l2]).
  { constructor; [intros [H | []]; congruence|]. constructor; [intros []|constructor]. }
  pose proof (sumCounts_filter col [l1; l2] rows Hnd) as H.
  unfold Count.sumCounts in H. simpl in H.
  pose proof (filter_length_le (Count.inLabels col [l1; l2]) rows). lia.
Qed.

Lemma disjoint_filters_le {A : Type} (p q : A -> bool) (l : list A) :
  (forall x, p x = true -> q x = true -> False) ->
  (List.length (filter p l) + List.length (filter q l) <= List.length l)%nat.
Proof.
  intros H. induction l as [|x l IH]; simpl; [lia|].
  destruct (p x) eqn:Ep, (q x) eqn:Eq; simpl; try lia.
  exfalso. exact (H x Ep Eq).
Qed.

Lemma plain_total_le (a : FixedSet.aggregation) (rows : list JS.row) :
  a <> FixedSet.GradeDistribution ->
  (Count.total (FixedSet.run a rows) <= List.length rows)%nat.
Proof.
  intros Ha. rewrite run_plain, total_map_counts by exact Ha.
  rewrite sumCounts_filter by apply labels_NoDup. apply filter_length_le.
Qed.

(** X6: In the reply of dashboard-data, boys and girls together are at most
    the students, and bright learners and late bloomers together are at
    most the performance rows; the category counts add up to at most the
    students. *)
Theorem dashboard_counts_bounded (students performanceData workshopData : JS.table) :
  let p := Dashboard.dashboard students performanceData workshopData in
  (Dashboard.boys p + Dashboard.girls p <= Dashboard.totalStudents p)%nat /\
  (Dashboard.brightLearners p + Dashboard.lateBoomers p
     <= List.length (JS.slice1 performanceData))%nat /\
  (Dashboard.workshopsCompleted p <= List.length (JS.slice1 workshopData))%nat /\
  (Count.total (Dashboard.p_categories p) <= Dashboard.totalStudents p)%nat /\
  (Count.total (Dashboard.p_performance p) <= List.length (JS.slice1 performanceData))%nat.
Proof.
  cbv zeta. unfold Dashboard.dashboard. simpl. repeat split.
  - apply two_labels_le. discriminate.
  - apply two_labels_le. discriminate.
  - apply filter_length_le.
  - apply (plain_total_le FixedSet.DashboardCategories). discriminate.
  - apply (plain_total_le FixedSet.PerformanceDistribution). discriminate.
Qed.

Lemma performs_exclusive (performance : list JS.row) (l1 l2 : string) (student : JS.row) :
  l1 <> l2 ->
  Categories.performs performance l1 student = true ->
  Categories.performs performance l2 student = true -> False.
Proof.
  unfold Categories.performs. intros Hne H1 H2.
  destruct (find _ performance) as [entry|]; [|discriminate].
  apply strict_eq_iff in H1, H2. rewrite H1 in H2. injection H2 as H2. contradiction.
Qed.

(** X7: The detailed breakdown of categories-data has one entry for each of
    General, OBC, SC, ST and Muslim, in this order; in each entry the
    total is the number of students of the category, boys and girls
    together are at most the total, and so are bright learners and late
    bloomers together. *)
Theorem detailed_categories_bounded (students performance : list JS.row) :
  map Categories.d_name (Categories.detailedCategories students performance)
    = ["General"; "OBC"; "SC"; "ST"; "Muslim"] /\
  Forall (fun d =>
            Categories.d_total d = Count.countWhere students 3 (Categories.d_name d) /\
            (Categories.d_boys d + Categories.d_girls d <= Categories.d_total d)%nat /\
            (Categories.d_brightLearners d + Categories.d_lateBoomers d
               <= Categories.d_total d)%nat)
         (Categories.detailedCategories students performance).
Proof.
  split; [reflexivity|].
  unfold Categories.detailedCategories, Categories.casteCategories.
  repeat (constructor; [simpl; split; [reflexivity|]; split;
                        [apply two_labels_le; discriminate
                        |apply disjoint_filters_le; intros x;
                         apply performs_exclusive; discriminate]|]).
  constructor.
Qed.

Lemma or_truthy (a : JS.value) (d : string) :
  d <> "" -> JS.truthy (JS.or_ a (JS.VString d)) = true.
Proof.
  intros Hd. unfold JS.or_. destruct (JS.truthy a) eqn:E; [exact E|].
  simpl. now apply negb_true_iff, String.eqb_neq.
Qed.

(** X8: performance-data lists as many bright learners and late bloomers as
    dashboard-data counts over the same Performance table; together they
    are at most the performance rows.  In every entry [id] and [rollNo]
    are the roll number of the performance row, [class] repeats
    [category], and name, class, category and service category are never
    missing ('Unknown' at least). *)
Theorem performance_lists (performanceRows studentRows workshopRows : JS.table) :
  let p := Performance.performanceData performanceRows studentRows in
  let d := Dashboard.dashboard studentRows performanceRows workshopRows in
  List.length (Performance.brightLearners p) = Dashboard.brightLearners d /\
  List.length (Performance.lateBoomers p) = Dashboard.lateBoomers d /\
  (List.length (Performance.brightLearners p) + List.length (Performance.lateBoomers p)
     <= List.length (JS.slice1 performanceRows))%nat /\
  Forall (fun e =>
            Performance.id e = Performance.rollNo e /\
            Performance.class e = Performance.category e /\
            JS.truthy (Performance.name e) = true /\
            JS.truthy (Performance.category e) = true /\
            JS.truthy (Performance.serviceCategory e) = true /\
            exists row, In row (JS.slice1 performanceRows) /\ Performance.id e = JS.idx row 0)
         (Performance.brightLearners p ++ Performance.lateBoomers p).
Proof.
  cbv zeta. unfold Performance.performanceData, Dashboard.dashboard. simpl.
  rewrite !length_map. repeat split.
  - apply (two_labels_le (JS.slice1 performanceRows) 2 "Bright Learner" "Late Bloomer").
    discriminate.
  - apply Forall_app. split; apply Forall_forall; intros e He;
      apply in_map_iff in He; destruct He as [row [<- Hrow]];
      apply filter_In in Hrow; destruct Hrow as [Hrow _]; simpl;
      (repeat split; [apply or_truthy; discriminate .. | now exists row]).
Qed.

(** X9: A performance row whose roll number matches no student row is listed
    with name, class, category and service category 'Unknown'. *)
Theorem performance_unknown_student (students : list JS.row) (row : JS.row) :
  (forall s, In s students -> JS.idx s 0 <> JS.idx row 0) ->
  let e := Performance.learnerOf students row in
  Performance.name e = JS.VString "Unknown" /\
  Performance.class e = JS.VString "Unknown" /\
  Performance.category e = JS.VString "Unknown" /\
  Performance.serviceCategory e = JS.VString "Unknown".
Proof.
  intros H. cbv zeta. unfold Performance.learnerOf.
  replace (find (fun s => JS.strict_eq (JS.idx s 0) (JS.idx row 0)) students) with (@None JS.row).
  - repeat split.
  - symmetry. apply find_none_iff. intros s Hs. now apply strict_eq_false_iff, H.
Qed.

Lemma performance_unknown_student_witness :
  let e := Performance.learnerOf [["101"; "Asha"]] ["102"; "Good"; "Bright Learner"] in
  Performance.name e = JS.VString "Unknown" /\
  Performance.class e = JS.VString "Unknown" /\
  Performance.category e = JS.VString "Unknown" /\
  Performance.serviceCategory e = JS.VString "Unknown".
Proof.
  apply (performance_unknown_student [["101"; "Asha"]] ["102"; "Good"; "Bright Learner"]).
  intros s [<- | []]. discriminate.
Defined.

(** ** workshops-data *)

Lemma combine_seq_snd {A : Type} (l : list A) (s : nat) :
  map snd (combine (seq s (List.length l)) l) = l.
Proof.
  revert s. induction l as [|x l IH]; intros s; simpl; [reflexivity|]. now rewrite IH.
Qed.

Lemma combine_seq_nth {A : Type} (l : list A) (s i : nat) (p : nat * A) :
  nth_error (combine (seq s (List.length l)) l) i = Some p -> fst p = (s + i)%nat.
Proof.
  revert s i. induction l as [|x l IH]; intros s i; simpl.
  - destruct i; discriminate.
  - destruct i as [|i]; simpl.
    + intros [= <-]. simpl. lia.
    + intros H. rewrite (IH (S s) i H). lia.
Qed.

(** X10: The sessions of a workshop or course row are its session dates, in
    order, one session per date; the topic of the [i]-th session is the
    [i]-th session topic when the row gives a non-empty one, else the
    fallback topic, so that no session is without a topic. *)
Theorem workshop_sessions (fallback : string) (row : JS.row) :
  fallback <> "" ->
  let sessions := Workshops.sessionsOf fallback row in
  map Workshops.s_date sessions = JS.split_list (JS.idx row 4) /\
  Forall (fun s => JS.truthy (Workshops.s_topic s) = true) sessions /\
  (forall i s, nth_error sessions i = Some s ->
     Workshops.s_topic s =
     JS.or_ (JS.idx (JS.split_list (JS.idx row 5)) i) (JS.VString fallback)).
Proof.
  intros Hfb. cbv zeta. unfold Workshops.sessionsOf. repeat split.
  - rewrite map_map. simpl. apply combine_seq_snd.
  - apply Forall_forall. intros s Hs. apply in_map_iff in Hs.
    destruct Hs as [di [<- _]]. simpl. now apply or_truthy.
  - intros i s Hs. rewrite nth_error_map in Hs.
    destruct (nth_error (combine _ _) i) as [di|] eqn:E; [|discriminate].
    injection Hs as <-. simpl. now rewrite (combine_seq_nth _ _ _ _ E).
Qed.

Lemma workshop_sessions_witness :
  let sessions :=
    Workshops.sessionsOf "General Discussion"
      ["W1"; "Algebra"; "2h"; "Completed"; "2026-01-05, 2026-01-12"; "Sets"] in
  map Workshops.s_date sessions = ["2026-01-05"; "2026-01-12"] /\
  Forall (fun s => JS.truthy (Workshops.s_topic s) = true) sessions.
Proof.
  intros sessions.
  destruct (workshop_sessions "General Discussion"
              ["W1"; "Algebra"; "2h"; "Completed"; "2026-01-05, 2026-01-12"; "Sets"])
    as [Hd [Ht _]].
  - discriminate.
  - split; [exact Hd | exact Ht].
Defined.

Lemma processRows_spec (rand : nat -> float) (fallback : string) (rows : list JS.row) (n : nat) :
  List.length (fst (Workshops.processRows rand fallback rows n)) = List.length rows /\
  map Workshops.id (fst (Workshops.processRows rand fallback rows n))
    = map (fun r => JS.idx r 0) rows /\
  map Workshops.status (fst (Workshops.processRows rand fallback rows n))
    = map (fun r => JS.idx r 3) rows /\
  snd (Workshops.processRows rand fallback rows n)
    = (n + List.length (filter (fun r => negb (JS.strict_eq (JS.idx r 3) (JS.VString "Scheduled")))
                               rows))%nat /\
  Forall (fun w => Workshops.status w = JS.VString "Scheduled" -> Workshops.participants w = "0")
         (fst (Workshops.processRows rand fallback rows n)).
Proof.
  revert n. induction rows as [|row rows IH]; intros n; simpl.
  - repeat split; auto.
  - specialize (IH (if JS.strict_eq (JS.idx row 3) (JS.VString "Scheduled") then n else S n)).
    destruct (Workshops.processRows rand fallback rows _) as [ws n2].
    simpl in *. destruct IH as [Hlen [Hid [Hst [Hn Hp]]]].
    repeat split.
    + now rewrite Hlen.
    + now rewrite Hid.
    + now rewrite Hst.
    + rewrite Hn. destruct (JS.strict_eq (JS.idx row 3) (JS.VString "Scheduled")); simpl; lia.
    + constructor; [|exact Hp]. simpl. intros ->. reflexivity.
Qed.

(** X11: workshops-data maps the data rows of both tables one to one and in
    order; a row whose status is 'Scheduled' has '0' participants and
    consumes no random draw, every other row consumes one, so that the
    service courses continue with the draw that follows those of the
    workshops. *)
Theorem workshops_rows (rand : nat -> float) (workshopRows courseRows : JS.table) :
  let p := Workshops.workshopsData rand workshopRows courseRows in
  let used :=
    List.length (filter (fun r => negb (JS.strict_eq (JS.idx r 3) (JS.VString "Scheduled")))
                        (JS.slice1 workshopRows)) in
  map Workshops.id (Workshops.workshops p) = map (fun r => JS.idx r 0) (JS.slice1 workshopRows) /\
  map Workshops.id (Workshops.serviceCourses p)
    = map (fun r => JS.idx r 0) (JS.slice1 courseRows) /\
  Workshops.serviceCourses p
    = fst (Workshops.processRows rand "General Course Content" (JS.slice1 courseRows) used) /\
  Forall (fun w => Workshops.status w = JS.VString "Scheduled" -> Workshops.participants w = "0")
         (Workshops.workshops p ++ Workshops.serviceCourses p).
Proof.
  cbv zeta. unfold Workshops.workshopsData.
  pose proof (processRows_spec rand "General Discussion" (JS.slice1 workshopRows) 0) as Hw.
  destruct (Workshops.processRows rand "General Discussion" (JS.slice1 workshopRows) 0)
    as [ws n1].
  simpl in Hw. destruct Hw as [_ [Hid [_ [Hn Hp]]]]. subst n1.
  pose proof (processRows_spec rand "General Course Content" (JS.slice1 courseRows)
                (List.length (filter (fun r => negb (JS.strict_eq (JS.idx r 3) (JS.VString "Scheduled")))
                                     (JS.slice1 workshopRows)))) as Hc.
  destruct (Workshops.processRows rand "General Course Content" (JS.slice1 courseRows) _)
    as [cs n2].
  simpl in *. destruct Hc as [_ [Hidc [_ [_ Hpc]]]].
  repeat split; auto. apply Forall_app. now split.
Qed.

(** ** attendance-data *)




(** A zone that keeps one offset gives the window of module [Attendance]. *)
Lemma fixed_last7Days (tz now : Z) :
  Zoned.last7Days (Zoned.fixed tz) now = Attendance.last7Days tz now.
Proof.
  unfold Zoned.last7Days, Attendance.last7Days. apply map_ext. intros i.
  rewrite fixed_setDate.
  unfold Zoned.getDate, JSDate.getDate, Zoned.LocalTime, JSDate.LocalTime, Zoned.fixed.
  cbn [Zoned.offsetAt]. reflexivity.
Qed.

(** In America/New_York at 2026-03-08T23:30Z, the evening after the
    clocks went forward, the loop adds the date of 8 March twice: the
    window holds six dates, and 2 March, the seventh day back, is not
    among them. *)
Example last7Days_clock_change :
  JSDate.toISOString 1773012600000 = "2026-03-08T23:30:00.000Z" /\
  Zoned.last7Days Zoned.newYork2026 1773012600000
  = ["2026-03-08"; "2026-03-08"; "2026-03-07"; "2026-03-06"; "2026-03-05";
     "2026-03-04"; "2026-03-03"].
Proof. split; vm_compute; reflexivity. Qed.

(** X12: On a server whose zone offset does not change within the window
    (the local time of each of the seven days is read back with the
    offset in force now; always so in a zone without daylight saving), the
    window of the weekly average holds the date strings of the seven
    consecutive days that end today, today first; when these days lie in
    four-digit years the seven strings are pairwise different. *)
Theorem last7Days_window (z : Zoned.zone) (now : Z) :
  (forall i, (i < 7)%nat ->
     Zoned.offsetOfLocal z (Zoned.LocalTime z now - Z.of_nat i * JSDate.msPerDay)
     = Zoned.offsetAt z now) ->
  (forall i, (i < 7)%nat ->
     0 <= JSDate.YearFromTime (now - Z.of_nat i * JSDate.msPerDay) <= 9999) ->
  Zoned.last7Days z now
  = map (fun i => JSDate.isoDate (now - Z.of_nat i * JSDate.msPerDay)) (seq 0 7) /\
  In (JSDate.isoDate now) (Zoned.last7Days z now) /\
  NoDup (Zoned.last7Days z now).
Proof.
  intros Hoff Hyears.
  assert (Hnth : forall i, (i < 7)%nat ->
            nth_error (Zoned.last7Days z now) i
            = Some (JSDate.isoDate (now - Z.of_nat i * JSDate.msPerDay))).
  { intros i Hi. unfold Zoned.last7Days. rewrite nth_error_map, nth_error_seq.
    replace (Nat.ltb i 7) with true by (symmetry; now apply Nat.ltb_lt).
    cbn [option_map Nat.add]. f_equal. f_equal.
    replace (Zoned.getDate z now - Z.of_nat i)
      with (Zoned.getDate z now + (- Z.of_nat i)) by lia.
    rewrite zoned_setDate_shift; [lia|].
    rewrite <- (Hoff i Hi). f_equal. lia. }
  split; [|split].
  - unfold Zoned.last7Days. apply map_ext_in. intros i Hi. apply in_seq in Hi.
    assert (Hlt : (i < 7)%nat) by lia.
    pose proof (Hnth i Hlt) as E. unfold Zoned.last7Days in E.
    rewrite nth_error_map, nth_error_seq in E.
    replace (Nat.ltb i 7) with true in E by (symmetry; now apply Nat.ltb_lt).
    cbn [option_map Nat.add] in E. now injection E.
  - apply (nth_error_In _ 0). rewrite Hnth by lia. do 2 f_equal. cbn [Z.of_nat]. lia.
  - apply (proj2 (NoDup_nth_error _)). intros i j Hi Hij.
    assert (Hlen : List.length (Zoned.last7Days z now) = 7%nat)
      by (unfold Zoned.last7Days; now rewrite length_map, length_seq).
    rewrite Hlen in Hi.
    assert (Hj : (j < 7)%nat).
    { rewrite <- Hlen. apply nth_error_Some. rewrite <- Hij.
      rewrite Hnth by exact Hi. discriminate. }
    rewrite !Hnth in Hij by assumption. injection Hij as Hij.
    apply (isoDate_inj _ _ (Hyears i Hi)) in Hij.
    replace (now - Z.of_nat i * JSDate.msPerDay)
      with (now + (- Z.of_nat i) * JSDate.msPerDay) in Hij by lia.
    replace (now - Z.of_nat j * JSDate.msPerDay)
      with (now + (- Z.of_nat j) * JSDate.msPerDay) in Hij by lia.
    rewrite !Day_shift in Hij. lia.
Qed.

Lemma last7Days_window_witness :
  JSDate.toISOString 1781524800000 = "2026-06-15T12:00:00.000Z" /\
  Zoned.last7Days Zoned.newYork2026 1781524800000
  = map (fun i => JSDate.isoDate (1781524800000 - Z.of_nat i * JSDate.msPerDay)) (seq 0 7) /\
  NoDup (Zoned.last7Days Zoned.newYork2026 1781524800000).
Proof.
  split; [vm_compute; reflexivity|].
  destruct (last7Days_window Zoned.newYork2026 1781524800000) as [Hw [_ Hnd]].
  - intros i Hi. do 7 (destruct i as [|i]; [vm_compute; reflexivity|]). lia.
  - intros i Hi. do 7 (destruct i as [|i]; [split; vm_compute; discriminate|]). lia.
  - split; assumption.
Defined.

Lemma attendance_counts_chain_aux (tz now : Z) (attendance : list JS.row) :
  (Attendance.totalPresent7Days tz now attendance
     <= Attendance.totalRecords7Days tz now attendance)%nat.
Proof.
  unfold Attendance.totalPresent7Days, Attendance.totalRecords7Days, Count.countWhere.
  apply filter_length_le.
Qed.


(** X14: Without a record in the seven-day window the weekly average is the
    default 90. *)
Theorem weeklyAverage_default (tz now : Z) (attendance : list JS.row) :
  Attendance.totalRecords7Days tz now attendance = 0%nat ->
  Attendance.weeklyAverage tz now attendance = 90%float.
Proof.
  intros H. unfold Attendance.weeklyAverage.
  pose proof (attendance_counts_chain_aux tz now attendance) as Hle.
  rewrite H in *.
  replace (Attendance.totalPresent7Days tz now attendance) with 0%nat by lia.
  vm_compute. reflexivity.
Qed.

Lemma weeklyAverage_default_witness :
  Attendance.weeklyAverage 19800000 1793613600000
    [["A1"; "2026-09-01"; "101"; "Absent"]] = 90%float.
Proof.
  apply (weeklyAverage_default 19800000 1793613600000). vm_compute. reflexivity.
Defined.

Lemma trendLoop_length (tz now : Z) (rand : nat -> float) (attendance : list JS.row)
    (days : list nat) (n : nat) :
  List.length (fst (AttendanceView.trendLoop tz now rand attendance days n)) = List.length days.
Proof.
  revert n. induction days as [|i days IH]; intros n;
    cbn [AttendanceView.trendLoop]; [reflexivity|].
  destruct (AttendanceView.trendPointOf tz now rand attendance i n) as [p n1].
  specialize (IH n1).
  destruct (AttendanceView.trendLoop tz now rand attendance days n1) as [ps n2].
  cbn [fst List.length] in *. now rewrite IH.
Qed.

Lemma studentsDataOf_rows (rand : nat -> float) (attendance todayAttendance students : list JS.row)
    (n : nat) :
  map AttendanceView.rollNo
      (AttendanceView.studentsDataOf rand attendance todayAttendance students n)
    = map (fun s => JS.idx s 0) students /\
  map AttendanceView.name
      (AttendanceView.studentsDataOf rand attendance todayAttendance students n)
    = map (fun s => JS.idx s 1) students.
Proof.
  revert n. induction students as [|student students IH]; intros n;
    cbn [AttendanceView.studentsDataOf map]; [now split|].
  unfold AttendanceView.studentEntryOf.
  destruct (find _ todayAttendance);
    cbn [map AttendanceView.rollNo AttendanceView.name];
    match goal with |- context [AttendanceView.studentsDataOf _ _ _ _ ?m] =>
      destruct (IH m) as [H1 H2] end;
    now rewrite H1, H2.
Qed.

(** X15: The reply of attendance-data has a trend of seven points, the four
    classes X-A to X-D with the weekly average for X-A, and one entry per
    data row of the Students table, in order, with the roll number and
    name of the row; the students below the threshold are at most all
    students. *)
Theorem attendance_view_shape (tz now : Z) (rand : nat -> float)
    (attendanceRows studentRows : JS.table) :
  let p := AttendanceView.attendanceData tz now rand attendanceRows studentRows in
  List.length (AttendanceView.attendanceTrend p) = 7%nat /\
  map AttendanceView.c_class (AttendanceView.classComparison p) = ["X-A"; "X-B"; "X-C"; "X-D"] /\
  option_map AttendanceView.c_percentage (hd_error (AttendanceView.classComparison p))
    = Some (AttendanceView.weeklyAverage p) /\
  AttendanceView.totalStudents p = List.length (JS.slice1 studentRows) /\
  map AttendanceView.rollNo (AttendanceView.students p)
    = map (fun s => JS.idx s 0) (JS.slice1 studentRows) /\
  map AttendanceView.name (AttendanceView.students p)
    = map (fun s => JS.idx s 1) (JS.slice1 studentRows) /\
  (AttendanceView.belowThreshold p <= AttendanceView.totalStudents p)%nat.
Proof.
  cbv zeta. unfold AttendanceView.attendanceData, AttendanceView.attendanceTrendOf.
  pose proof (trendLoop_length tz now rand (JS.slice1 attendanceRows)
                [6; 5; 4; 3; 2; 1; 0]%nat 0) as Hlen.
  destruct (AttendanceView.trendLoop tz now rand (JS.slice1 attendanceRows) _ 0) as [trend n1].
  unfold AttendanceView.classComparisonOf.
  cbn [fst AttendanceView.attendanceTrend AttendanceView.classComparison
       AttendanceView.weeklyAverage AttendanceView.totalStudents AttendanceView.students
       AttendanceView.belowThreshold map AttendanceView.c_class AttendanceView.c_percentage
       hd_error option_map List.length] in *.
  match goal with |- context [AttendanceView.studentsDataOf ?r ?a ?t ?s ?m] =>
    destruct (studentsDataOf_rows r a t s m) as [H1 H2];
    set (data := AttendanceView.studentsDataOf r a t s m) in * end.
  repeat split; auto.
  apply (f_equal (@List.length _)) in H1. rewrite !length_map in H1. rewrite <- H1.
  apply filter_length_le.
Qed.

(** A student with a record of today gets the status and remarks of the
    first such record, and no random draw is consumed; a student without
    one gets 'Present' or 'Absent' by one draw, and empty remarks. *)
Theorem student_entry_status (rand : nat -> float)
    (attendance todayAttendance : list JS.row) (student : JS.row) (n : nat) :
  let r := AttendanceView.studentEntryOf rand attendance todayAttendance student n in
  match find (fun a => JS.strict_eq (JS.idx a 2) (JS.idx student 0)) todayAttendance with
  | Some todayRecord =>
      AttendanceView.status (fst r) = JS.idx todayRecord 3 /\
      AttendanceView.remarks (fst r) = JS.idx todayRecord 4 /\
      snd r = n
  | None =>
      (AttendanceView.status (fst r) = JS.VString "Present" \/
       AttendanceView.status (fst r) = JS.VString "Absent") /\
      AttendanceView.remarks (fst r) = JS.VString "" /\
      snd r = S n
  end.
Proof.
  cbv zeta. unfold AttendanceView.studentEntryOf.
  destruct (find _ todayAttendance);
    cbn [fst snd AttendanceView.status AttendanceView.remarks]; repeat split.
  destruct (PrimFloat.ltb _ (rand n)); auto.
Qed.

(** X16: A student without any attendance row has no days and no presences,
    the percentage 90, and is not counted below the threshold of 75. *)
Theorem student_entry_no_records (rand : nat -> float)
    (attendance todayAttendance : list JS.row) (student : JS.row) (n : nat) :
  (forall a, In a attendance -> JS.idx a 2 <> JS.idx student 0) ->
  let e := fst (AttendanceView.studentEntryOf rand attendance todayAttendance student n) in
  AttendanceView.totalDays e = 0%nat /\
  AttendanceView.totalPresent e = 0%nat /\
  AttendanceView.percentage e = 90%float /\
  PrimFloat.ltb (AttendanceView.percentage e) 75 = false.
Proof.
  intros H. cbv zeta. unfold AttendanceView.studentEntryOf.
  replace (filter (fun a => JS.strict_eq (JS.idx a 2) (JS.idx student 0)) attendance)
    with (@nil JS.row).
  - destruct (find _ todayAttendance);
      cbn [fst AttendanceView.totalDays AttendanceView.totalPresent AttendanceView.percentage];
      repeat split.
  - symmetry. induction attendance as [|a l IH]; cbn [filter]; [reflexivity|].
    replace (JS.strict_eq (JS.idx a 2) (JS.idx student 0)) with false
      by (symmetry; apply strict_eq_false_iff, H; now left).
    apply IH. intros b Hb. apply H. now right.
Qed.

Lemma student_entry_no_records_witness :
  let e := fst (AttendanceView.studentEntryOf (fun _ => 0.5%float)
                  [["A1"; "2026-11-02"; "101"; "Present"]] [] ["102"; "Ravi"] 0) in
  AttendanceView.totalDays e = 0%nat /\
  AttendanceView.totalPresent e = 0%nat /\
  AttendanceView.percentage e = 90%float /\
  PrimFloat.ltb (AttendanceView.percentage e) 75 = false.
Proof.
  apply (student_entry_no_records (fun _ => 0.5%float)
           [["A1"; "2026-11-02"; "101"; "Present"]] [] ["102"; "Ravi"] 0).
  intros a [<- | []]. discriminate.
Defined.

(** ** assessments-data *)

(** X17: The performance trend always has between 3 and 6 points. *)
Theorem performanceTrend_length
    (Date_parse : string -> option Z) (data : list Assessments.entry) :
  (3 <= List.length (Assessments.performanceTrendOf Date_parse data) <= 6)%nat.
Proof.
  unfold Assessments.performanceTrendOf, Assessments.completedAssessments, JS.slice0.
  set (l := JS.sort _ _).
  rewrite length_map, length_firstn.
  destruct (Nat.ltb_spec (Nat.min 5 (List.length l)) 3) as [H | H].
  - rewrite length_app, length_map, length_firstn.
    change (List.length Assessments.sampleTrend) with 4%nat. lia.
  - rewrite length_map, length_firstn. lia.
Qed.

(** X18: The grade distribution lists A, B, C, D and F in this order and never
    reports a count of zero: a grade borne by some row is reported with
    the number of its rows, a grade borne by none with its literal, 5, 12,
    18, 8 and 2. *)
Theorem grade_distribution_fallback (grades : list JS.row) :
  map Count.label (Assessments.gradeDistributionOf grades) = ["A"; "B"; "C"; "D"; "F"] /\
  Forall (fun b => (1 <= Count.count b)%nat /\
                   (Count.countWhere grades 4 (Count.label b) <> 0%nat ->
                    Count.count b = Count.countWhere grades 4 (Count.label b)))
         (Assessments.gradeDistributionOf grades) /\
  map (fun b => if Nat.eqb (Count.countWhere grades 4 (Count.label b)) 0
                then Some (Count.count b) else None)
      (Assessments.gradeDistributionOf grades)
  = map (fun lc => if Nat.eqb (Count.countWhere grades 4 (fst lc)) 0
                   then Some (snd lc) else None)
        [("A", 5); ("B", 12); ("C", 18); ("D", 8); ("F", 2)]%nat.
Proof.
  split; [reflexivity|]. split.
  - unfold Assessments.gradeDistributionOf.
    repeat (constructor;
            [unfold Count.or_; cbn [Count.count Count.label];
             match goal with |- context [Nat.eqb ?n 0] =>
               destruct (Nat.eqb_spec n 0) as [E | E] end;
             split; try lia; intros; try lia; contradiction|]).
    constructor.
  - unfold Assessments.gradeDistributionOf, Count.or_. cbn [map Count.count Count.label fst snd].
    repeat match goal with |- context [Nat.eqb ?n 0] =>
             destruct (Nat.eqb n 0) end; reflexivity.
Qed.

Section AssessmentsFacts.

Variable parseFloat : string -> float.
Variable Date_parse : string -> option Z.

Lemma assessmentsData_perm (assessments grades : list JS.row) :
  Permutation (Assessments.assessmentsData parseFloat Date_parse assessments grades)
              (map (Assessments.mapAssessment parseFloat grades) assessments).
Proof. unfold Assessments.assessmentsData. apply sort_perm. Qed.

(** X19: Where the date cell of every data row of the Assessments table
    parses as a date, the assessments of the reply are the mapped data
    rows, each as often as the table has it, in ascending order of date:
    no assessment is followed, anywhere in the list, by one of an earlier
    date. *)
Theorem assessments_sorted (assessmentRows gradeRows : JS.table) :
  let mapped :=
    map (Assessments.mapAssessment parseFloat (JS.slice1 gradeRows))
        (JS.slice1 assessmentRows) in
  let reply := Assessments.assessmentsHandler parseFloat Date_parse assessmentRows gradeRows in
  (forall a, In a mapped ->
     exists t, Assessments.newDate Date_parse (Assessments.date a) = Some t) ->
  Permutation (Assessments.assessments reply) mapped /\
  StronglySorted (TrendSpec.notLater Date_parse) (Assessments.assessments reply).
Proof.
  intros mapped reply Hvalid. unfold reply, Assessments.assessmentsHandler.
  cbn [Assessments.assessments]. split; [apply assessmentsData_perm|].
  unfold Assessments.assessmentsData. apply sort_ascending. exact Hvalid.
Qed.

Lemma mapped_status (grades : list JS.row) (rows : list JS.row) (l : string) :
  List.length (filter (fun a => JS.strict_eq (Assessments.status a) (JS.VString l))
                      (map (Assessments.mapAssessment parseFloat grades) rows))
  = Count.countWhere rows 5 l.
Proof.
  unfold Count.countWhere. induction rows as [|row rows IH]; cbn [map filter]; [reflexivity|].
  cbn [Assessments.mapAssessment Assessments.status].
  destruct (JS.strict_eq (JS.idx row 5) (JS.VString l)); cbn [List.length]; now rewrite IH.
Qed.

Lemma filter_split_length {A : Type} (p q : A -> bool) (l : list A) :
  (List.length (filter (fun x => p x && negb (q x)) l)
   + List.length (filter (fun x => p x && q x) l))%nat
  = List.length (filter p l).
Proof.
  induction l as [|x l IH]; simpl; [reflexivity|].
  destruct (p x), (q x); simpl; lia.
Qed.

(** X20: Every assessment whose status is 'Completed' is either counted as
    pending (it has no usable average) or is a candidate for the trend
    and the last average: the two numbers add up to the number of
    'Completed' rows of the table. *)
Theorem pending_and_graded (assessmentRows gradeRows : JS.table) :
  let reply := Assessments.assessmentsHandler parseFloat Date_parse assessmentRows gradeRows in
  (Assessments.pendingGrades reply
   + List.length (filter Assessments.completedWithAverage (Assessments.assessments reply)))%nat
  = Count.countWhere (JS.slice1 assessmentRows) 5 "Completed".
Proof.
  cbv zeta. unfold Assessments.assessmentsHandler.
  cbn [Assessments.pendingGrades Assessments.assessments].
  unfold Assessments.pendingGradesOf, Assessments.completedWithAverage.
  rewrite (filter_split_length
             (fun a => JS.strict_eq (Assessments.status a) (JS.VString "Completed"))
             Assessments.hasAverage).
  rewrite <- (mapped_status (JS.slice1 gradeRows)).
  apply Permutation_length, filter_perm, assessmentsData_perm.
Qed.

(** X21: The last assessment average of the reply is never [null], zero or
    [NaN]: it is the average of a completed assessment with a usable
    average, or the literal 76. *)
Theorem last_average_usable (data : list Assessments.entry) :
  exists x, Assessments.lastAssessmentAverageOf Date_parse data = Some x /\
            Num.truthy x = true /\
            (x = 76%float \/
             exists a, In a data /\ Assessments.status a = JS.VString "Completed" /\
                       Assessments.average a = Some x).
Proof.
  unfold Assessments.lastAssessmentAverageOf.
  destruct (JS.sort _ _) as [|a l] eqn:E.
  - exists 76%float. repeat split. now left.
  - assert (Hin : In a (filter Assessments.completedWithAverage data)).
    { apply (Permutation_in a (sort_perm (Assessments.byDateDesc Date_parse) _)).
      rewrite E. now left. }
    apply filter_In in Hin. destruct Hin as [Hin Hc].
    unfold Assessments.completedWithAverage, Assessments.hasAverage in Hc.
    apply andb_true_iff in Hc. destruct Hc as [Hs Ha].
    destruct (Assessments.average a) as [x|] eqn:Eavg; [|discriminate].
    exists x. repeat split; auto. right. exists a. repeat split; auto.
    now apply strict_eq_iff.
Qed.

(** X22: Where the date cell of every data row of the Assessments table
    parses as a date: the next assessment of the reply is the fallback
    'Unit Test 3' of 'Apr 15' when no data row has the status
    'Scheduled'; otherwise it carries the date and the title of a
    scheduled assessment of the table that is no later than any other
    scheduled one. *)
Theorem next_assessment_cases (assessmentRows gradeRows : JS.table) :
  let mapped :=
    map (Assessments.mapAssessment parseFloat (JS.slice1 gradeRows))
        (JS.slice1 assessmentRows) in
  let reply := Assessments.assessmentsHandler parseFloat Date_parse assessmentRows gradeRows in
  (forall a, In a mapped ->
     exists t, Assessments.newDate Date_parse (Assessments.date a) = Some t) ->
  ((forall row, In row (JS.slice1 assessmentRows) -> JS.idx row 5 <> JS.VString "Scheduled") ->
   Assessments.nextAssessment reply
   = Assessments.mkNext (JS.VString "Apr 15") (JS.VString "Unit Test 3")) /\
  ((exists row, In row (JS.slice1 assessmentRows) /\ JS.idx row 5 = JS.VString "Scheduled") ->
   exists a,
     In a mapped /\
     Assessments.status a = JS.VString "Scheduled" /\
     Assessments.nextAssessment reply
     = Assessments.mkNext (Assessments.date a) (JS.or_ (Assessments.title a) JS.VUndefined) /\
     forall b, In b mapped -> Assessments.status b = JS.VString "Scheduled" ->
               TrendSpec.notLater Date_parse a b).
Proof.
  intros mapped reply Hvalid. unfold reply, Assessments.assessmentsHandler.
  cbn [Assessments.nextAssessment Assessments.assessments].
  set (data := Assessments.assessmentsData parseFloat Date_parse _ _).
  assert (Hdata : forall a, In a data <-> In a mapped).
  { intros a. split; apply Permutation_in;
      [apply assessmentsData_perm | symmetry; apply assessmentsData_perm]. }
  assert (Hsorted : StronglySorted (TrendSpec.notLater Date_parse) data)
    by (apply sort_ascending; exact Hvalid).
  unfold Assessments.nextAssessmentOf. split.
  - intros Hnone.
    replace (find (fun a => JS.strict_eq (Assessments.status a) (JS.VString "Scheduled")) data)
      with (@None Assessments.entry); [reflexivity|].
    symmetry. apply find_none_iff. intros a Ha. apply Hdata, in_map_iff in Ha.
    destruct Ha as [row [<- Hrow]]. apply strict_eq_false_iff. now apply Hnone.
  - intros [row [Hrow Hs]].
    destruct (find (fun a => JS.strict_eq (Assessments.status a) (JS.VString "Scheduled")) data)
      as [a|] eqn:Ef.
    + apply find_first in Ef. destruct Ef as [before [after [Hsplit [Hp Hbefore]]]].
      assert (Ha : In a mapped).
      { apply Hdata. rewrite Hsplit. apply in_or_app. right. now left. }
      exists a. split; [exact Ha|]. split; [now apply strict_eq_iff|].
      split; [reflexivity|]. intros b Hb Hsb.
      apply Hdata in Hb. rewrite Hsplit in Hb, Hsorted.
      apply StronglySorted_app_inv in Hsorted. destruct Hsorted as [_ [Htail _]].
      apply in_app_or in Hb. destruct Hb as [Hb | [<- | Hb]].
      * apply Hbefore, strict_eq_false_iff in Hb. contradiction.
      * destruct (Hvalid a Ha) as [t Ht]. exists t, t. repeat split; auto. lia.
      * inversion Htail as [|? ? _ Hall]; subst. rewrite Forall_forall in Hall.
        now apply Hall.
    + exfalso.
      assert (Hin : In (Assessments.mapAssessment parseFloat (JS.slice1 gradeRows) row) data)
        by (apply Hdata, in_map, Hrow).
      apply (find_none _ _ Ef) in Hin. cbn [Assessments.mapAssessment Assessments.status] in Hin.
      rewrite Hs in Hin. discriminate.
Qed.

End AssessmentsFacts.

Lemma assessments_sorted_witness :
  let assessmentRows :=
    [ ["Id"; "Date"; "Title"; "Type"; "Max"; "Status"];
      ["A1"; "2026-05-01"; "Final"; "Exam"; "100"; "Scheduled"];
      ["A2"; "2026-01-15"; "Quiz 1"; "Quiz"; "20"; "Completed"];
      ["A3"; "2026-03-01"; "Quiz 2"; "Quiz"; "20"; "Scheduled"] ] in
  let gradeRows :=
    [ ["Assessment"; "Roll"; "Name"; "Percentage"; "Grade"];
      ["A2"; "101"; "Asha"; "80"; "A"] ] in
  map Assessments.id
      (Assessments.assessments
         (Assessments.assessmentsHandler Sample.parseFloat Sample.Date_parse
            assessmentRows gradeRows))
  = [JS.VString "A2"; JS.VString "A3"; JS.VString "A1"] /\
  StronglySorted (TrendSpec.notLater Sample.Date_parse)
    (Assessments.assessments
       (Assessments.assessmentsHandler Sample.parseFloat Sample.Date_parse
          assessmentRows gradeRows)).
Proof.
  intros assessmentRows gradeRows. split; [vm_compute; reflexivity|].
  apply (assessments_sorted Sample.parseFloat Sample.Date_parse assessmentRows gradeRows).
  intros a Ha. vm_compute in Ha.
  destruct Ha as [<- | [<- | [<- | []]]]; eexists; vm_compute; reflexivity.
Defined.

Lemma next_assessment_cases_witness :
  let assessmentRows :=
    [ ["Id"; "Date"; "Title"; "Type"; "Max"; "Status"];
      ["A1"; "2026-05-01"; "Final"; "Exam"; "100"; "Scheduled"];
      ["A2"; "2026-01-15"; "Quiz 1"; "Quiz"; "20"; "Completed"];
      ["A3"; "2026-03-01"; "Quiz 2"; "Quiz"; "20"; "Scheduled"] ] in
  let gradeRows :=
    [ ["Assessment"; "Roll"; "Name"; "Percentage"; "Grade"];
      ["A2"; "101"; "Asha"; "80"; "A"] ] in
  Assessments.nextAssessment
    (Assessments.assessmentsHandler Sample.parseFloat Sample.Date_parse
       assessmentRows gradeRows)
  = Assessments.mkNext (JS.VString "2026-03-01") (JS.VString "Quiz 2") /\
  exists a,
    Assessments.nextAssessment
      (Assessments.assessmentsHandler Sample.parseFloat Sample.Date_parse
         assessmentRows gradeRows)
    = Assessments.mkNext (Assessments.date a) (JS.or_ (Assessments.title a) JS.VUndefined) /\
    forall b,
      In b (map (Assessments.mapAssessment Sample.parseFloat (JS.slice1 gradeRows))
                (JS.slice1 assessmentRows)) ->
      Assessments.status b = JS.VString "Scheduled" ->
      TrendSpec.notLater Sample.Date_parse a b.
Proof.
  intros assessmentRows gradeRows. split; [vm_compute; reflexivity|].
  destruct (next_assessment_cases Sample.parseFloat Sample.Date_parse
              assessmentRows gradeRows) as [_ Hsome].
  - intros a Ha. vm_compute in Ha.
    destruct Ha as [<- | [<- | [<- | []]]]; eexists; vm_compute; reflexivity.
  - destruct Hsome as [a [_ [_ [Hnext Hfirst]]]].
    + exists ["A1"; "2026-05-01"; "Final"; "Exam"; "100"; "Scheduled"].
      split; [now left | reflexivity].
    + exists a. split; [exact Hnext | exact Hfirst].
Defined.

(** ** syllabus-data *)

Lemma distinct_In (l : list JS.value) (x : JS.value) : In x (JS.distinct l) <-> In x l.
Proof.
  induction l as [|a l IH]; simpl; [tauto|].
  rewrite filter_In, IH, negb_true_iff, strict_eq_false_iff.
  destruct (JS.strict_eq x a) eqn:E.
  - apply strict_eq_iff in E. subst. tauto.
  - apply strict_eq_false_iff in E. split.
    + intros [H | [H _]]; auto.
    + intros [H | H]; auto.
Qed.

Lemma distinct_NoDup (l : list JS.value) : NoDup (JS.distinct l).
Proof.
  induction l as [|a l IH]; simpl; constructor.
  - rewrite filter_In, negb_true_iff, strict_eq_false_iff. intros [_ H]. now apply H.
  - now apply NoDup_filter.
Qed.

Lemma distinct_length_le (l : list JS.value) : (List.length (JS.distinct l) <= List.length l)%nat.
Proof.
  apply NoDup_incl_length; [apply distinct_NoDup|]. intros x. apply distinct_In.
Qed.

(** X23: The completed units are at most the units, and the units at most the
    topics. *)
Theorem syllabus_unit_counts (parseInt : string -> float) (rand : nat -> float)
    (syllabusRows : JS.table) :
  let reply := Syllabus.syllabusHandler parseInt rand syllabusRows in
  (Syllabus.completedUnits reply <= Syllabus.totalUnits reply)%nat /\
  (Syllabus.totalUnits reply <= List.length (Syllabus.topics reply))%nat /\
  List.length (Syllabus.topics reply) = List.length (JS.slice1 syllabusRows).
Proof.
  cbv zeta. unfold Syllabus.syllabusHandler.
  cbn [Syllabus.completedUnits Syllabus.totalUnits Syllabus.topics]. split; [|split].
  - apply NoDup_incl_length; [apply distinct_NoDup|].
    intros u Hu. apply (proj2 (distinct_In _ _)). apply (proj1 (distinct_In _ _)) in Hu.
    apply in_map_iff in Hu. destruct Hu as [row [<- Hrow]].
    apply filter_In in Hrow.
    apply (in_map (fun row => JS.idx row 1)). tauto.
  - rewrite length_map. rewrite <- (length_map (fun row => JS.idx row 1)).
    apply distinct_length_le.
  - apply length_map.
Qed.

(** X24: The unit completion has exactly one entry for each distinct value of
    the unit column, in the order of first occurrence: a unit is listed
    if and only if some data row bears it, and none is listed twice. *)
Theorem unit_completion_units (syllabusData : list JS.row) :
  let units := map Syllabus.u_unit (Syllabus.unitCompletionOf syllabusData) in
  units = JS.distinct (map (fun row => JS.idx row 1) syllabusData) /\
  NoDup units /\
  (forall u, In u units <-> exists row, In row syllabusData /\ JS.idx row 1 = u).
Proof.
  cbv zeta. unfold Syllabus.unitCompletionOf.
  rewrite map_map. cbn [Syllabus.u_unit]. rewrite map_id.
  split; [reflexivity|]. split; [apply distinct_NoDup|].
  intros u. rewrite distinct_In, in_map_iff. split; intros [row H]; exists row; tauto.
Qed.

Lemma In_firstn {A : Type} (n : nat) (l : list A) (x : A) : In x (firstn n l) -> In x l.
Proof.
  revert l. induction n as [|n IH]; intros [|a l]; simpl; try tauto.
  intros [H | H]; [now left | right; now apply IH].
Qed.

(** X25: The upcoming topics are at most 5; each stems from a topic whose
    status is 'Pending' and has a planned start, 'Next Week' when the row
    gives no start date; with at most 5 pending topics all are listed. *)
Theorem upcoming_topics_bounded (topics : list Syllabus.topic) :
  let pending := filter (fun t => JS.strict_eq (Syllabus.status t) (JS.VString "Pending")) topics in
  let upcoming := Syllabus.upcomingTopicsOf topics in
  List.length upcoming = Nat.min 5 (List.length pending) /\
  Forall (fun u => JS.truthy (Syllabus.up_plannedStart u) = true /\
                   exists t, In t topics /\
                             Syllabus.status t = JS.VString "Pending" /\
                             Syllabus.up_id u = Syllabus.id t /\
                             Syllabus.up_name u = Syllabus.name t /\
                             Syllabus.up_plannedStart u
                               = JS.or_ (Syllabus.startDate t) (JS.VString "Next Week"))
         upcoming.
Proof.
  cbv zeta. unfold Syllabus.upcomingTopicsOf, JS.slice0. split.
  - now rewrite length_map, length_firstn.
  - apply Forall_forall. intros u Hu. apply in_map_iff in Hu.
    destruct Hu as [t [<- Ht]]. apply In_firstn, filter_In in Ht. destruct Ht as [Ht Hs].
    cbn [Syllabus.up_plannedStart Syllabus.up_id Syllabus.up_name].
    split; [apply or_truthy; discriminate|].
    exists t. repeat split; auto. now apply strict_eq_iff.
Qed.

Lemma allocations_topics (parseInt : string -> float) (rand : nat -> float)
    (syllabusData : list JS.row) (topicGroups : list JS.value) (n : nat) :
  map Syllabus.a_topic (Syllabus.allocations parseInt rand syllabusData topicGroups n)
  = topicGroups.
Proof.
  revert n. induction topicGroups as [|topic rest IH]; intros n;
    cbn [Syllabus.allocations map]; [reflexivity|].
  unfold Syllabus.allocationOf.
  match goal with |- context [if Num.truthy ?a then _ else _] => destruct (Num.truthy a) end;
    cbn [map Syllabus.a_topic]; now rewrite IH.
Qed.

(** X26: The time allocation has exactly one entry for each distinct topic
    group, in the order of first occurrence, rows without a group counting
    under 'Other'; no entry has an empty group name. *)
Theorem time_allocation_groups (parseInt : string -> float) (rand : nat -> float)
    (syllabusData : list JS.row) :
  let groups := map Syllabus.a_topic (Syllabus.timeAllocationOf parseInt rand syllabusData) in
  groups = JS.distinct (map Syllabus.groupOf syllabusData) /\
  NoDup groups /\
  Forall (fun g => JS.truthy g = true) groups /\
  (forall row, In row syllabusData ->
     In (JS.or_ (JS.idx row 8) (JS.VString "Other")) groups).
Proof.
  cbv zeta. unfold Syllabus.timeAllocationOf. rewrite allocations_topics.
  split; [reflexivity|]. split; [apply distinct_NoDup|]. split.
  - apply Forall_forall. intros g Hg. apply (proj1 (distinct_In _ _)) in Hg.
    apply in_map_iff in Hg. destruct Hg as [row [<- _]]. apply or_truthy. discriminate.
  - intros row Hrow. apply (proj2 (distinct_In _ _)).
    apply (in_map Syllabus.groupOf) in Hrow. exact Hrow.
Qed.

(** ** calendar-data: failures, the events of a cell, upcoming events *)

Lemma mapM_none_iff {A B : Type} (f : A -> option B) (l : list A) :
  JS.mapM f l = None <-> exists x, In x l /\ f x = None.
Proof.
  induction l as [|a l IH]; simpl.
  - split; [discriminate | intros [x [[] _]]].
  - destruct (f a) as [y|] eqn:E.
    + destruct (JS.mapM f l) as [ys|].
      * split; [discriminate|]. intros [x [[<- | Hx] Hn]]; [congruence|].
        assert (H : Some ys = None) by (apply (proj2 IH); now exists x).
        discriminate.
      * split; [|reflexivity]. intros _. destruct (proj1 IH eq_refl) as [x [Hx Hn]].
        exists x. split; [now right | exact Hn].
    + split; [|reflexivity]. intros _. exists a. split; [now left | exact E].
Qed.

Lemma mapM_some_Forall2 {A B : Type} (f : A -> option B) (l : list A) (ys : list B) :
  JS.mapM f l = Some ys -> Forall2 (fun x y => f x = Some y) l ys.
Proof.
  revert ys. induction l as [|a l IH]; simpl; intros ys.
  - intros [= <-]. constructor.
  - destruct (f a) as [y|] eqn:E; [|discriminate].
    destruct (JS.mapM f l) as [ys'|]; [|discriminate].
    intros [= <-]. constructor; [exact E | now apply IH].
Qed.

Lemma in_seq0 (n i : nat) : In i (seq 0 n) <-> (i < n)%nat.
Proof. rewrite in_seq. lia. Qed.

(** X27: calendar-data fails (status 500, no grid) exactly when some event
    that falls on one of the 35 displayed days has no type cell. *)
Theorem calendar_fails_iff (tz today : Z) (events : list Calendar.event) :
  Calendar.calendarData tz today events = None <->
  exists e week day,
    In e events /\ (week < 5)%nat /\ (day < 7)%nat /\
    Calendar.date e = JS.VString (JSDate.isoDate (Calendar.currentDate tz today week day)) /\
    forall s, Calendar.type e <> JS.VString s.
Proof.
  unfold Calendar.calendarData. rewrite mapM_none_iff. split.
  - intros [week [Hw Hnone]]. apply in_seq0 in Hw. apply mapM_none_iff in Hnone.
    destruct Hnone as [day [Hd Hnone]]. apply in_seq0 in Hd.
    unfold Calendar.cellOf in Hnone. cbv zeta in Hnone.
    destruct (JS.mapM Calendar.dayEventOf _) as [evs|] eqn:E; [discriminate|].
    apply mapM_none_iff in E. destruct E as [e [He Hn]].
    apply filter_In in He. destruct He as [He Hdate]. apply strict_eq_iff in Hdate.
    exists e, week, day. repeat split; auto.
    intros s Hs. unfold Calendar.dayEventOf in Hn. rewrite Hs in Hn. discriminate.
  - intros [e [week [day [He [Hw [Hd [Hdate Htype]]]]]]].
    exists week. split; [now apply in_seq0|]. apply mapM_none_iff.
    exists day. split; [now apply in_seq0|].
    unfold Calendar.cellOf. cbv zeta.
    replace (JS.mapM Calendar.dayEventOf
               (filter (fun event =>
                          JS.strict_eq (Calendar.date event)
                            (JS.VString (JSDate.isoDate (Calendar.currentDate tz today week day))))
                       events)) with (@None (list Calendar.dayEvent)); [reflexivity|].
    symmetry. apply mapM_none_iff. exists e. split.
    + apply filter_In. split; [exact He | now apply strict_eq_iff].
    + unfold Calendar.dayEventOf. destruct (Calendar.type e) as [| |s] eqn:E; try reflexivity.
      now elim (Htype s).
Qed.

Lemma cellOf_events (tz today : Z) (events : list Calendar.event) (week day : nat)
    (c : Calendar.cell) :
  Calendar.cellOf tz today events week day = Some c ->
  JS.mapM Calendar.dayEventOf
    (filter (fun e =>
               JS.strict_eq (Calendar.date e)
                 (JS.VString (JSDate.isoDate (Calendar.currentDate tz today week day))))
            events)
  = Some (Calendar.c_events c).
Proof.
  unfold Calendar.cellOf. cbv zeta.
  destruct (JS.mapM Calendar.dayEventOf _) as [evs|]; [|discriminate].
  intros H. apply (f_equal (option_map Calendar.c_events)) in H.
  cbn [option_map Calendar.c_events] in H. exact H.
Qed.

(** X28: When the grid is built, the events of the cell at [week], [day] are
    the events whose date cell equals the date string of the cell, in
    table order, each with its id, title and time and its type in lower
    case. *)
Theorem calendar_cell_events (tz today : Z) (events : list Calendar.event)
    (grid : list (list Calendar.cell)) (week day : nat)
    (cells : list Calendar.cell) (c : Calendar.cell) :
  Calendar.calendarData tz today events = Some grid ->
  nth_error grid week = Some cells ->
  nth_error cells day = Some c ->
  Forall2 (fun e x =>
             Calendar.de_id x = Calendar.id e /\
             Calendar.de_title x = Calendar.title e /\
             Calendar.de_time x = Calendar.time e /\
             exists s, Calendar.type e = JS.VString s /\
                       Calendar.de_type x = JS.toLowerCase s)
          (filter (fun e =>
                     JS.strict_eq (Calendar.date e)
                       (JS.VString (JSDate.isoDate (Calendar.currentDate tz today week day))))
                  events)
          (Calendar.c_events c).
Proof.
  intros Hgrid Hw Hd. unfold Calendar.calendarData in Hgrid.
  apply mapM_some_Forall2 in Hgrid.
  pose proof (Forall2_seq_nth _ _ _ _ _ _ Hgrid Hw) as Hcells. cbv beta in Hcells.
  apply mapM_some_Forall2 in Hcells.
  pose proof (Forall2_seq_nth _ _ _ _ _ _ Hcells Hd) as Hc. cbv beta in Hc.
  change (0 + week)%nat with week in Hc. change (0 + day)%nat with day in Hc.
  apply cellOf_events in Hc. apply mapM_some_Forall2 in Hc.
  eapply Forall2_impl; [|exact Hc]. intros e x Hx. cbv beta in Hx.
  unfold Calendar.dayEventOf in Hx.
  destruct (Calendar.type e) as [| |s]; try discriminate.
  injection Hx as <-. repeat split. now exists s.
Qed.

Lemma calendar_cell_events_witness :
  exists grid cells c,
    Calendar.calendarData 19800000 1793613600000
      [Calendar.mapEvent ["E1"; "2026-11-02"; "Exam"; "Test"]] = Some grid /\
    nth_error grid 0 = Some cells /\ nth_error cells 1 = Some c /\
    List.length (Calendar.c_events c) = 1%nat.
Proof.
  destruct (Calendar.calendarData 19800000 1793613600000
              [Calendar.mapEvent ["E1"; "2026-11-02"; "Exam"; "Test"]]) as [grid|] eqn:Eg;
    [|vm_compute in Eg; discriminate].
  destruct (nth_error grid 0) as [cells|] eqn:Ew;
    [|vm_compute in Eg; injection Eg as <-; discriminate].
  destruct (nth_error cells 1) as [c|] eqn:Ed;
    [|vm_compute in Eg; injection Eg as <-; injection Ew as <-; discriminate].
  exists grid, cells, c.
  split; [reflexivity|]. split; [exact Ew|]. split; [exact Ed|].
  pose proof (calendar_cell_events 19800000 1793613600000 _ grid 0 1 cells c Eg Ew Ed) as H.
  apply Forall2_length in H.
  transitivity (List.length
    (filter (fun e =>
               JS.strict_eq (Calendar.date e)
                 (JS.VString (JSDate.isoDate (Calendar.currentDate 19800000 1793613600000 0 1))))
            [Calendar.mapEvent ["E1"; "2026-11-02"; "Exam"; "Test"]])).
  - symmetry. exact H.
  - vm_compute. reflexivity.
Defined.

Lemma byDate_asym (Date_parse : string -> option Z) (a b : Calendar.event) :
  JS.behind (Calendar.byDate Date_parse) a b -> ~ JS.behind (Calendar.byDate Date_parse) b a.
Proof.
  unfold JS.behind, Calendar.byDate. intros [v [Hv Hpos]] [w [Hw Hpos']].
  destruct (Calendar.newDate Date_parse (Calendar.date a)) as [x|];
    destruct (Calendar.newDate Date_parse (Calendar.date b)) as [y|];
    try discriminate.
  injection Hv as <-. injection Hw as <-. lia.
Qed.

(** X29: The upcoming events are at most 5 events of the table, each with a
    date that parses to a time not before the clock value, in ascending
    order of these times. *)
Theorem upcoming_events_bounded (today : Z) (Date_parse : string -> option Z)
    (events : list Calendar.event) :
  let upcoming := Calendar.upcomingEventsOf today Date_parse events in
  (List.length upcoming <= 5)%nat /\
  Forall (fun e => In e events /\
                   exists t, Calendar.newDate Date_parse (Calendar.date e) = Some t /\ today <= t)
         upcoming /\
  Sorted (fun a b =>
            exists x y, Calendar.newDate Date_parse (Calendar.date a) = Some x /\
                        Calendar.newDate Date_parse (Calendar.date b) = Some y /\ x <= y)
         upcoming.
Proof.
  cbv zeta. unfold Calendar.upcomingEventsOf, JS.slice0.
  set (l := JS.sort (Calendar.byDate Date_parse) (filter (Calendar.notBeforeToday today Date_parse) events)).
  assert (Hall : forall e, In e l ->
            In e events /\
            exists t, Calendar.newDate Date_parse (Calendar.date e) = Some t /\ today <= t).
  { intros e He. apply (Permutation_in e (sort_perm _ _)) in He.
    apply filter_In in He. destruct He as [He Hn]. split; [exact He|].
    unfold Calendar.notBeforeToday in Hn.
    destruct (Calendar.newDate Date_parse (Calendar.date e)) as [t|]; [|discriminate].
    exists t. split; [reflexivity | now apply Z.leb_le]. }
  split; [|split].
  - rewrite length_firstn. lia.
  - apply Forall_forall. intros e He. apply Hall. now apply In_firstn in He.
  - apply firstn_sorted.
    assert (Hs : Sorted (fun a b => ~ JS.behind (Calendar.byDate Date_parse) a b) l)
      by (apply sort_sorted; intros a b; apply byDate_asym).
    clearbody l. induction Hs as [|a l' Hs IH Hhd]; constructor.
    + apply IH. intros e He. apply Hall. now right.
    + destruct Hhd as [|b l'' Hab]; constructor.
      destruct (Hall a (or_introl eq_refl)) as [_ [x [Hx _]]].
      destruct (Hall b (or_intror (or_introl eq_refl))) as [_ [y [Hy _]]].
      exists x, y. repeat split; auto.
      destruct (Z_le_gt_dec x y) as [Hle | Hgt]; [exact Hle|].
      exfalso. apply Hab. exists (x - y). unfold Calendar.byDate. rewrite Hx, Hy.
      split; [reflexivity | lia].
Qed.

(** ** communications-data *)

(** X30: The parent meetings of the month are among the rows of type
    'Meeting', and these and the pending responses are at most the data
    rows; the logs and the parent directory have one entry per data row,
    and a parent without a last contact has [null] there. *)
Theorem communications_stats (tz now : Z) (Date_parse : string -> option Z)
    (communicationsRows parentsRows : JS.table) :
  let communications := JS.slice1 communicationsRows in
  (CommunicationStats.parentMeetings tz now Date_parse communications
     <= Count.countWhere communications 4 "Meeting")%nat /\
  (Count.countWhere communications 4 "Meeting" <= List.length communications)%nat /\
  (CommunicationStats.pendingResponses communications <= List.length communications)%nat /\
  List.length (Communications.communicationLogs communicationsRows)
    = List.length communications /\
  List.length (Communications.parentDirectory parentsRows)
    = List.length (JS.slice1 parentsRows) /\
  Forall (fun p => Communications.p_lastContact p <> JS.VUndefined)
         (Communications.parentDirectory parentsRows).
Proof.
  cbv zeta. unfold CommunicationStats.parentMeetings, CommunicationStats.pendingResponses,
    Count.countWhere, Communications.communicationLogs, Communications.parentDirectory.
  repeat split.
  - induction (JS.slice1 communicationsRows) as [|c l IH]; simpl; [lia|].
    destruct (JS.strict_eq (JS.idx c 4) (JS.VString "Meeting")); simpl;
      [destruct (CommunicationStats.sameMonth tz now Date_parse c); simpl|]; lia.
  - apply filter_length_le.
  - apply filter_length_le.
  - apply length_map.
  - apply length_map.
  - apply Forall_forall. intros p Hp. apply in_map_iff in Hp. destruct Hp as [row [<- _]].
    cbn [Communications.mapParent Communications.p_lastContact]. unfold JS.or_.
    destruct (JS.truthy (JS.idx row 6)) eqn:E; [|discriminate].
    intros H. rewrite H in E. discriminate.
Qed.
